(** * server.js: an OpenAI-compatible proxy in front of the NVIDIA NIM API

    A shallow embedding of [server.js] and the properties of its
    chat-completions handler: model resolution, parameter normalisation,
    response reshaping, stream relay, error envelope and start-up check.

    Layout: the ECMAScript data the program manipulates ([Number], [jsval],
    the coercions and property reads), the Express/axios/Node surface the
    handler touches ([Res], [AxiosResponse], [JsError]), the program itself
    (section [Server], then the script), closed examples, then the lemmas:
    first the properties of the chat-completions handler named above, then
    those of the rest of the script (the two GET endpoints, the upstream
    call and its serialised body, the fallbacks of the reshaped response,
    the handler's own errors, the logging, the listening condition).

    The handler is a function of what it cannot decide itself: the settled
    result of its one [axios.post], the readings of [Date.now()], the
    engine's conversions between Strings and Numbers and its built-in
    functions, and what [JSON.stringify] makes of a stream object.  The
    conversions of the language that may throw (of an object to a
    property key or to a Number) return a completion, and their throw is
    the handler's.  It runs in a state-and-error
    monad over the response under construction, the outbound calls and the
    console, so that what was done before a throw is still done after it. *)

From Stdlib Require Import ZArith String Ascii List Bool Lia.
From Stdlib Require Import Floats.SpecFloat.
From ExtLib Require Import Structures.Monad Structures.MonadExc.
Import ListNotations.
Import MonadNotation.

Local Open Scope string_scope.
Local Open Scope monad_scope.

(* ===================================================================== *)
(** ** ECMAScript numbers: IEEE 754 binary64 *)
(* ===================================================================== *)

Module Number.

Definition prec : Z := 53.
Definition emax : Z := 1024.

(** A Number value.  Values that come out of [JSON.parse] or of the
    operations below are canonical ([valid_binary prec emax]). *)
Definition number : Type := spec_float.

Definition NaN : number := S754_nan.

(** The Number nearest to an integer (round to nearest, ties to even):
    what an integer literal or an integer-valued host result denotes. *)
Definition of_Z (n : Z) : number := binary_normalize prec emax n 0 false.

Definition div (x y : number) : number := SFdiv prec emax x y.

(** [x > y] on Numbers; any comparison with NaN is false. *)
Definition gt (x y : number) : bool := SFltb y x.

Definition is_finite (x : number) : bool :=
  match x with
  | S754_zero _ | S754_finite _ _ _ => true
  | S754_infinity _ | S754_nan => false
  end.

(** [Math.floor]. *)
Definition floor (x : number) : number :=
  match x with
  | S754_finite s m e =>
      if (e <? 0)%Z
      then of_Z (Z.shiftr (if s then Z.neg m else Z.pos m) (- e))
      else x
  | _ => x
  end.

(** The literals of server.js. *)
Definition n256 : number := Eval vm_compute in of_Z 256.
Definition n4096 : number := Eval vm_compute in of_Z 4096.
Definition n500 : number := Eval vm_compute in of_Z 500.
Definition n1000 : number := Eval vm_compute in of_Z 1000.
Definition n3000 : number := Eval vm_compute in of_Z 3000.
Definition n0_7 : number := Eval vm_compute in div (of_Z 7) (of_Z 10).

(** Integers every Number represents exactly. *)
Definition safe_integer (n : Z) : Prop := (Z.abs n < 2 ^ 53)%Z.

(** Mantissa and exponent of the Number that denotes a positive safe
    integer: its bits, shifted left until they fill the 53-bit mantissa. *)
Definition safe_exponent (p : positive) : Z := (Z.pos (Pos.size p) - 53)%Z.

Definition safe_mantissa (p : positive) : positive :=
  match safe_exponent p with
  | Z.neg d => Pos.iter xO p d
  | _ => p
  end.

End Number.

(* ===================================================================== *)
(** ** ECMAScript values *)
(* ===================================================================== *)

(** The values the program sees: what [JSON.parse] builds, [undefined],
    and the two kinds of built-in object a property read on an object
    literal can reach through the prototype chain.  Objects keep their own
    enumerable properties in insertion order. *)
#[warnings="-register-all"]
Inductive jsval : Type :=
| JUndefined
| JNull
| JBool (b : bool)
| JNum (x : Number.number)
| JStr (s : string)
| JArr (items : list jsval)
| JObj (props : list (string * jsval))
| JFun (name : string)        (* a built-in function object, by its [name] *)
| JObjectPrototype.           (* %Object.prototype% *)

(** The completion of an operation of the language: it returns a value,
    or it throws a TypeError with the given message. *)
Inductive completes (A : Type) : Type :=
| Normal (a : A)
| Throw (msg : string).

Arguments Normal {A} a.
Arguments Throw {A} msg.

#[export] Instance Monad_completes : Monad completes := {
  ret _ a := Normal a;
  bind _ _ c f := match c with
                  | Normal a => f a
                  | Throw msg => Throw msg
                  end
}.

(** What is left to the engine: the two conversions between Strings and
    Numbers, [StringToNumber] (the StringNumericLiteral grammar and its
    rounding) and [Number::toString] (shortest round-trip decimal), of
    which only that the empty String converts to [+0] is used; and
    [CallBuiltin f this], the completion of calling the built-in function
    named [f] on [this] without arguments. *)
Class Engine : Type := {
  StringToNumber : string -> Number.number;
  NumberToString : Number.number -> string;
  StringToNumber_empty : StringToNumber "" = S754_zero false;
  CallBuiltin : string -> jsval -> completes jsval
}.

Module JS.

Definition is_nullish (v : jsval) : bool :=
  match v with JUndefined | JNull => true | _ => false end.

(** ToBoolean. *)
Definition ToBoolean (v : jsval) : bool :=
  match v with
  | JUndefined | JNull => false
  | JBool b => b
  | JNum (S754_zero _) | JNum S754_nan => false
  | JNum _ => true
  | JStr s => negb (s =? "")
  | JArr _ | JObj _ | JFun _ | JObjectPrototype => true
  end.

(** [a || b] and [a && b]: the operand itself is the result. *)
Definition or (a b : jsval) : jsval := if ToBoolean a then a else b.
Definition and (a b : jsval) : jsval := if ToBoolean a then b else a.

Fixpoint join (sep : string) (l : list string) : string :=
  match l with
  | [] => ""
  | [s] => s
  | s :: rest => s ++ sep ++ join sep rest
  end.

(** *** Property reads *)

(** The properties every ordinary object inherits from
    %Object.prototype%.  [__proto__] is an accessor; on an object made by
    an object literal or by [JSON.parse] it yields %Object.prototype%. *)
Definition Object_prototype : list (string * jsval) :=
  [ ("constructor", JFun "Object");
    ("__defineGetter__", JFun "__defineGetter__");
    ("__defineSetter__", JFun "__defineSetter__");
    ("hasOwnProperty", JFun "hasOwnProperty");
    ("__lookupGetter__", JFun "__lookupGetter__");
    ("__lookupSetter__", JFun "__lookupSetter__");
    ("isPrototypeOf", JFun "isPrototypeOf");
    ("propertyIsEnumerable", JFun "propertyIsEnumerable");
    ("toString", JFun "toString");
    ("valueOf", JFun "valueOf");
    ("__proto__", JObjectPrototype);
    ("toLocaleString", JFun "toLocaleString") ].

Fixpoint assoc (props : list (string * jsval)) (k : string) : option jsval :=
  match props with
  | [] => None
  | (k', v) :: rest => if k' =? k then Some v else assoc rest k
  end.

Definition has_own (props : list (string * jsval)) (k : string) : bool :=
  match assoc props k with Some _ => true | None => false end.

(** [Object.keys]. *)
Definition keys (props : list (string * jsval)) : list string := map fst props.

(** [o[k]] on an ordinary object with own properties [props]: the own
    property if there is one, else the inherited one, else [undefined]. *)
Definition GetObject (props : list (string * jsval)) (k : string) : jsval :=
  match assoc props k with
  | Some v => v
  | None =>
      match assoc Object_prototype k with
      | Some v => v
      | None => JUndefined
      end
  end.

(** [v.k] for a [v] that is neither [undefined] nor [null].  Ordinary
    objects are read in full.  On the other receivers (Arrays, Strings,
    Numbers, Booleans, functions) the read is [undefined] provided [k] is
    not an index, [length] or a built-in member of the receiver's
    prototype chain; server.js reads them only under the literal names
    [model], [messages], [temperature], [max_tokens], [stream], [id],
    [created], [choices], [usage], [index], [message], [role], [content],
    [finish_reason] and [error], none of which is one. *)
Definition member (v : jsval) (k : string) : jsval :=
  match v with
  | JObj props => GetObject props k
  | JObjectPrototype =>
      if k =? "__proto__" then JNull
      else match assoc Object_prototype k with
           | Some w => w
           | None => JUndefined
           end
  | _ => JUndefined
  end.

(** [v?.k]. *)
Definition opt_member (v : jsval) (k : string) : jsval :=
  if is_nullish v then JUndefined else member v k.

(** *** Conversions *)

(** The values that are not objects. *)
Inductive primitive : Type :=
| PUndefined
| PNull
| PBool (b : bool)
| PNum (x : Number.number)
| PStr (s : string).

Definition as_primitive (v : jsval) : option primitive :=
  match v with
  | JUndefined => Some PUndefined
  | JNull => Some PNull
  | JBool b => Some (PBool b)
  | JNum x => Some (PNum x)
  | JStr s => Some (PStr s)
  | JArr _ | JObj _ | JFun _ | JObjectPrototype => None
  end.

Section WithEngine.
Context {E : Engine}.

(** ToString and ToNumber on the values that are not objects. *)
Definition PrimitiveToString (p : primitive) : string :=
  match p with
  | PUndefined => "undefined"
  | PNull => "null"
  | PBool true => "true"
  | PBool false => "false"
  | PNum x => NumberToString x
  | PStr s => s
  end.

Definition PrimitiveToNumber (p : primitive) : Number.number :=
  match p with
  | PUndefined => Number.NaN
  | PNull => S754_zero false
  | PBool true => Number.of_Z 1
  | PBool false => S754_zero false
  | PNum x => x
  | PStr s => StringToNumber s
  end.

(** [Get(O, name)] and, when the value is callable, [Call] of it on [O],
    for [name] one of [toString] and [valueOf] and [O] an ordinary object
    with own properties [props]: [None] when the value is not callable.
    An own property hides the inherited method; what [JSON.parse] builds
    holds no function, so an own [toString] or [valueOf] of such an
    object is never callable.  The inherited [toString] returns
    ["[object Object]"], the inherited [valueOf] the object itself. *)
Definition call_method (props : list (string * jsval)) (name : string)
  : option (completes jsval) :=
  match assoc props name with
  | Some (JFun f) => Some (CallBuiltin f (JObj props))
  | Some _ => None
  | None =>
      Some (if name =? "toString" then Normal (JStr "[object Object]")
            else Normal (JObj props))
  end.

(** OrdinaryToPrimitive: the two methods are tried in the order the hint
    gives; the first result that is not an object is the primitive, and
    with none the conversion throws. *)
Definition OrdinaryToPrimitive (props : list (string * jsval))
    (first second : string) : completes primitive :=
  let try (name : string) (otherwise : completes primitive) :=
    match call_method props name with
    | Some (Throw msg) => Throw msg
    | Some (Normal r) =>
        match as_primitive r with
        | Some p => Normal p
        | None => otherwise
        end
    | None => otherwise
    end in
  try first
    (try second (Throw "Cannot convert object to primitive value")).

(** ToString.  An ordinary object goes through ToPrimitive with hint
    String ([toString], then [valueOf]); an Array through
    [Array.prototype.join], which converts the elements in order and
    writes [undefined] and [null] as the empty String; a built-in
    function through [Function.prototype.toString]. *)
Fixpoint ToString (v : jsval) : completes string :=
  match v with
  | JUndefined => Normal "undefined"
  | JNull => Normal "null"
  | JBool true => Normal "true"
  | JBool false => Normal "false"
  | JNum x => Normal (NumberToString x)
  | JStr s => Normal s
  | JArr items =>
      match (fix elements (l : list jsval) : completes (list string) :=
               match l with
               | [] => Normal []
               | e :: rest =>
                   match (match e with
                          | JUndefined | JNull => Normal ""
                          | _ => ToString e
                          end) with
                   | Throw msg => Throw msg
                   | Normal s =>
                       match elements rest with
                       | Throw msg => Throw msg
                       | Normal ss => Normal (s :: ss)
                       end
                   end
               end) items with
      | Throw msg => Throw msg
      | Normal ss => Normal (join "," ss)
      end
  | JObj props =>
      match OrdinaryToPrimitive props "toString" "valueOf" with
      | Throw msg => Throw msg
      | Normal p => Normal (PrimitiveToString p)
      end
  | JObjectPrototype => Normal "[object Object]"
  | JFun name => Normal ("function " ++ name ++ "() { [native code] }")
  end.

(** ToPropertyKey, for the computed member access [o[k]]: ToPrimitive
    with hint String, then ToString. *)
Definition ToPropertyKey (v : jsval) : completes string := ToString v.

(** ToPrimitive with hint Number: an ordinary object tries [valueOf],
    then [toString]; the [valueOf] the other objects inherit returns the
    object itself, so they end in their [toString]. *)
Definition ToPrimitiveNumber (v : jsval) : completes primitive :=
  match v with
  | JUndefined => Normal PUndefined
  | JNull => Normal PNull
  | JBool b => Normal (PBool b)
  | JNum x => Normal (PNum x)
  | JStr s => Normal (PStr s)
  | JObj props => OrdinaryToPrimitive props "valueOf" "toString"
  | JArr _ | JFun _ | JObjectPrototype =>
      match ToString v with
      | Throw msg => Throw msg
      | Normal s => Normal (PStr s)
      end
  end.

(** ToNumber. *)
Definition ToNumber (v : jsval) : completes Number.number :=
  match ToPrimitiveNumber v with
  | Throw msg => Throw msg
  | Normal p => Normal (PrimitiveToNumber p)
  end.

(** [v > y] for a Number [y]: the left operand is converted with
    ToPrimitive (hint Number) and ToNumeric, then compared as a Number. *)
Definition gt_number (v : jsval) (y : Number.number) : completes bool :=
  match ToNumber v with
  | Throw msg => Throw msg
  | Normal x => Normal (Number.gt x y)
  end.

End WithEngine.

(** An object that converts to no primitive, under either hint: its own
    [toString] is there and is no function, and its own [valueOf], if
    there is one, is no function either; [{"toString": 1}] is one. *)
Definition unconvertible (props : list (string * jsval)) : bool :=
  match assoc props "toString" with
  | Some (JFun _) | None => false
  | Some _ =>
      match assoc props "valueOf" with
      | Some (JFun _) => false
      | _ => true
      end
  end.

(** What [JSON.stringify] then [JSON.parse] leave of a value, [None] when
    [JSON.stringify] yields [undefined].  Properties holding [undefined]
    or a function are omitted, such array elements become [null], as do
    the non-finite Numbers; [-0] is written [0]. *)
Fixpoint json_wire (v : jsval) : option jsval :=
  match v with
  | JUndefined | JFun _ => None
  | JNull => Some JNull
  | JBool b => Some (JBool b)
  | JNum (S754_zero _) => Some (JNum (S754_zero false))
  | JNum x => Some (if Number.is_finite x then JNum x else JNull)
  | JStr s => Some (JStr s)
  | JArr items =>
      Some (JArr (map (fun e => match json_wire e with
                                | Some w => w
                                | None => JNull
                                end) items))
  | JObj props =>
      Some (JObj (flat_map (fun kv => let '(k, e) := kv in
                                      match json_wire e with
                                      | Some w => [(k, w)]
                                      | None => []
                                      end) props))
  | JObjectPrototype => Some (JObj [])
  end.

(** How an Array element and the properties of an object are written. *)
Definition array_element (e : jsval) : jsval :=
  match json_wire e with
  | Some w => w
  | None => JNull
  end.

Definition object_members (props : list (string * jsval))
  : list (string * jsval) :=
  flat_map (fun kv => let '(k, e) := kv in
                      match json_wire e with
                      | Some w => [(k, w)]
                      | None => []
                      end) props.

(** The own enumerable property names of a value. *)
Definition own_keys (v : jsval) : list string :=
  match v with
  | JObj props => keys props
  | _ => []
  end.

(** The values [JSON.stringify] and [JSON.parse] leave as they are: no
    [undefined], no function, no non-finite Number and no [-0] anywhere. *)
Fixpoint json_clean (v : jsval) : bool :=
  match v with
  | JNull | JBool _ | JStr _ => true
  | JNum (S754_zero s) => negb s
  | JNum x => Number.is_finite x
  | JArr items => forallb json_clean items
  | JObj props => forallb (fun kv => json_clean (snd kv)) props
  | JUndefined | JFun _ | JObjectPrototype => false
  end.

End JS.

(* ===================================================================== *)
(** ** Node, Express and axios: the surface the handler touches *)
(* ===================================================================== *)

Definition bytes : Type := list Byte.byte.

(** A Node [Readable]: the chunks it emits, and whether it then fails
    (['error']) instead of ending (['end']). *)
Record ReadableStream : Type := {
  chunks : list bytes;
  errored : bool
}.

(** [response.data]: the parsed body under [responseType: 'json'] (a
    String when the body was not JSON), the open stream under
    [responseType: 'stream']. *)
Inductive payload : Type :=
| Parsed (v : jsval)
| Stream (s : ReadableStream).

Record AxiosResponse : Type := {
  status : Z;
  data : payload
}.

(** What the [try] block can throw: a TypeError of the engine or the
    rejection of [axios.post]; only the latter may carry a [response]. *)
Record JsError : Type := {
  message : string;
  response : option AxiosResponse
}.

Definition TypeError (msg : string) : JsError :=
  {| message := msg; response := None |}.

Record AxiosConfig : Type := {
  headers : list (string * string);
  responseType : string
}.

(** The Express response object, as far as the handlers drive it. *)
Inductive BodyPart : Type :=
| JsonText (v : jsval)      (* a body written by [res.json], as the JSON it denotes *)
| Raw (b : bytes).          (* a chunk written by [res.write] *)

Record Res : Type := {
  statusCode : jsval;
  resHeaders : list (string * string);   (* keyed by lower-cased name *)
  sent : list BodyPart;
  ended : bool
}.

Definition new_res (hs : list (string * string)) : Res :=
  {| statusCode := JNum (Number.of_Z 200); resHeaders := hs;
     sent := []; ended := false |}.

Module Http.

Definition lower (c : ascii) : ascii :=
  let n := nat_of_ascii c in
  if ((65 <=? n) && (n <=? 90))%nat then ascii_of_nat (n + 32) else c.

Fixpoint toLowerCase (s : string) : string :=
  match s with
  | EmptyString => EmptyString
  | String c rest => String (lower c) (toLowerCase rest)
  end.

Fixpoint lookup (hs : list (string * string)) (k : string) : option string :=
  match hs with
  | [] => None
  | (k', v) :: rest => if k' =? k then Some v else lookup rest k
  end.

Fixpoint replace (hs : list (string * string)) (k v : string)
  : list (string * string) :=
  match hs with
  | [] => [(k, v)]
  | (k', v') :: rest =>
      if k' =? k then (k, v) :: rest else (k', v') :: replace rest k v
  end.

Definition getHeader (r : Res) (name : string) : option string :=
  lookup (resHeaders r) (toLowerCase name).

Definition setHeader (r : Res) (name value : string) : Res :=
  {| statusCode := statusCode r;
     resHeaders := replace (resHeaders r) (toLowerCase name) value;
     sent := sent r; ended := ended r |}.

Definition status (r : Res) (code : jsval) : Res :=
  {| statusCode := code; resHeaders := resHeaders r;
     sent := sent r; ended := ended r |}.

Definition write (r : Res) (b : bytes) : Res :=
  {| statusCode := statusCode r; resHeaders := resHeaders r;
     sent := sent r ++ [Raw b]; ended := ended r |}.

Definition end_ (r : Res) : Res :=
  {| statusCode := statusCode r; resHeaders := resHeaders r;
     sent := sent r; ended := true |}.

(** [res.json(v)]: serialise, default the content type, send, end.  Of
    the headers only those are kept that the handlers set by name and
    the [Content-Type] that [res.json] defaults; the [Content-Length] and
    the [ETag] that Express computes from the body are not part of
    [resHeaders], and the requests are taken to carry no conditional
    header, so that the body is sent. *)
Definition json (r : Res) (v : jsval) : Res :=
  let r := match getHeader r "Content-Type" with
           | Some _ => r
           | None => setHeader r "Content-Type" "application/json; charset=utf-8"
           end in
  {| statusCode := statusCode r; resHeaders := resHeaders r;
     sent := sent r ++ match JS.json_wire v with
                       | Some w => [JsonText w]
                       | None => []
                       end;
     ended := true |}.

(** The bytes written to the socket as raw chunks, in order. *)
Definition raw_bytes (r : Res) : bytes :=
  flat_map (fun p => match p with Raw b => b | JsonText _ => [] end) (sent r).

End Http.

(** One [axios.post(url, body, config)]. *)
Record OutboundCall : Type := {
  call_url : string;
  call_body : jsval;
  call_config : AxiosConfig
}.

(** An argument of [console.error]: a String, or the text
    [JSON.stringify(v, null, 2)] of a value, kept as the value. *)
Inductive LogArg : Type :=
| Text (s : string)
| JsonOf (v : jsval).

(** ** The handler monad: the response under construction, the number of
    [Date.now()] calls made so far, the outbound calls issued so far, the
    [console.error] calls made so far, and a possibly thrown error. *)

Record HState : Type := {
  res : Res;
  now_calls : nat;
  outbound : list OutboundCall;
  console : list (list LogArg)
}.

Definition start (hs : list (string * string)) : HState :=
  {| res := new_res hs; now_calls := 0; outbound := []; console := [] |}.

(** The value of [field] in the body of the request that went upstream,
    when exactly one request did. *)
Definition sent_upstream (s : HState) (field : string) : option jsval :=
  match outbound s with
  | [c] => Some (JS.member (call_body c) field)
  | _ => None
  end.

Definition Handler (A : Type) : Type := HState -> HState * (JsError + A).

#[export] Instance Monad_Handler : Monad Handler := {
  ret _ a := fun s => (s, inr a);
  bind _ _ c f := fun s =>
    match c s with
    | (s', inl e) => (s', inl e)
    | (s', inr a) => f a s'
    end
}.

(** Effects made before a throw stay made: the state reaches [catch]. *)
#[export] Instance Exc_Handler : MonadExc JsError Handler := {
  raise _ e := fun s => (s, inl e);
  catch _ c h := fun s =>
    match c s with
    | (s', inl e) => h e s'
    | (s', inr a) => (s', inr a)
    end
}.

Definition on_res (f : Res -> Res) : Handler unit :=
  fun s => ({| res := f (res s); now_calls := now_calls s;
               outbound := outbound s; console := console s |}, inr tt).

Definition console_error (args : list LogArg) : Handler unit :=
  fun s => ({| res := res s; now_calls := now_calls s;
               outbound := outbound s; console := console s ++ [args] |},
            inr tt).

(** An operation of the language inside the handler: its throw is the
    handler's. *)
Definition evaluate {A : Type} (c : completes A) : Handler A :=
  match c with
  | Normal a => ret a
  | Throw msg => raise (TypeError msg)
  end.

Fixpoint mapM {A B : Type} (f : A -> Handler B) (l : list A) : Handler (list B) :=
  match l with
  | [] => ret []
  | a :: rest => b <- f a ;; bs <- mapM f rest ;; ret (b :: bs)
  end.

Fixpoint forM_ {A : Type} (f : A -> Handler unit) (l : list A) : Handler unit :=
  match l with
  | [] => ret tt
  | a :: rest => f a ;; forM_ f rest
  end.

(** [c] leaves the observation [proj] of the state alone. *)
Definition preserves {A T} (proj : HState -> T) (c : Handler A) : Prop :=
  forall s, proj (fst (c s)) = proj s.

(** [v.k], which throws on [undefined] and [null]. *)
Definition Get (v : jsval) (k : string) : Handler jsval :=
  if JS.is_nullish v
  then raise (TypeError ("Cannot read properties of "
                           ++ match v with JNull => "null" | _ => "undefined" end
                           ++ " (reading '" ++ k ++ "')"))
  else ret (JS.member v k).

(** Reads on [response.data].  A stream object carries none of the JSON
    field names the handler reads. *)
Definition payload_member (p : payload) (k : string) : jsval :=
  match p with Parsed v => JS.member v k | Stream _ => JUndefined end.

Definition payload_opt_member (p : payload) (k : string) : jsval :=
  match p with Parsed v => JS.opt_member v k | Stream _ => JUndefined end.

Definition payload_get (p : payload) (k : string) : Handler jsval :=
  match p with
  | Parsed v => Get v k
  | Stream _ => ret JUndefined
  end.

(** [recv.map(cb)]: only an Array has a [map] to call. *)
Definition call_map (recv : jsval) (path : string)
    (cb : jsval -> Handler jsval) : Handler jsval :=
  match recv with
  | JArr items => l <- mapM cb items ;; ret (JArr l)
  | JUndefined =>
      raise (TypeError "Cannot read properties of undefined (reading 'map')")
  | JNull =>
      raise (TypeError "Cannot read properties of null (reading 'map')")
  | _ => raise (TypeError (path ++ ".map is not a function"))
  end.

(** [src.pipe(res)]: every chunk is written to [res] as it is emitted;
    [res] is ended when the source ends, and left open when it fails. *)
Definition pipe (src : ReadableStream) : Handler unit :=
  forM_ (fun b => on_res (fun r => Http.write r b)) (chunks src) ;;
  if errored src then ret tt else on_res Http.end_.

Definition call_pipe (p : payload) (path : string) : Handler unit :=
  match p with
  | Stream src => pipe src
  | Parsed JUndefined =>
      raise (TypeError "Cannot read properties of undefined (reading 'pipe')")
  | Parsed JNull =>
      raise (TypeError "Cannot read properties of null (reading 'pipe')")
  | Parsed _ => raise (TypeError (path ++ ".pipe is not a function"))
  end.

(* ===================================================================== *)
(** ** server.js *)
(* ===================================================================== *)

Definition NIM_API_BASE : string := "https://integrate.api.nvidia.com/v1".

Definition MODEL_MAPPING : list (string * jsval) :=
  [ ("gpt-3.5-turbo", JStr "meta/llama-3.1-8b-instruct");
    ("gpt-4", JStr "meta/llama-3.1-70b-instruct");
    ("gpt-4-turbo", JStr "meta/llama-3.1-70b-instruct");
    ("gpt-4o", JStr "deepseek-ai/deepseek-v2-chat");
    ("claude-3-opus", JStr "meta/llama-3.1-405b-instruct");
    ("claude-3-sonnet", JStr "meta/llama-3.1-70b-instruct");
    ("gemini-pro", JStr "google/gemini-pro") ].

Section Server.

Context {E : Engine}.

(** [process.env.NIM_API_KEY]: a String, and not the empty one once the
    start-up check passed. *)
Variable NIM_API_KEY : string.

(** The settled result of [axios.post(url, body, config)]. *)
Variable axios_post : string -> jsval -> AxiosConfig -> JsError + AxiosResponse.

(** The value of the [n]-th [Date.now()] call of a handler run. *)
Variable clock : nat -> Z.

(** [JSON.stringify(stream, null, 2)] on the stream object axios hands
    over: its text, or the TypeError [JSON.stringify] throws on an object
    that refers back to itself. *)
Variable stringify_stream : ReadableStream -> JsError + string.

Definition Date_now : Handler Z :=
  fun s => ({| res := res s; now_calls := S (now_calls s);
               outbound := outbound s; console := console s |},
            inr (clock (now_calls s))).

(** [await axios.post(url, body, config)]: the call is issued, then the
    handler resumes with its settled result. *)
Definition axios_call (url : string) (body : jsval) (config : AxiosConfig)
  : Handler AxiosResponse :=
  fun s => ({| res := res s; now_calls := now_calls s;
               outbound := outbound s
                 ++ [{| call_url := url; call_body := body;
                        call_config := config |}];
               console := console s |},
            axios_post url body config).

(** *** GET /health *)
Definition health : Handler unit :=
  on_res (fun r => Http.json r
    (JObj [("status", JStr "ok");
           ("service", JStr "OpenAI to NVIDIA NIM Proxy")])).

(** *** GET /v1/models *)
Definition list_models : Handler unit :=
  models <- mapM (fun model =>
                    t <- Date_now ;;
                    ret (JObj [("id", JStr model);
                               ("object", JStr "model");
                               ("created", JNum (Number.of_Z t));
                               ("owned_by", JStr "nvidia-nim-proxy")]))
                 (JS.keys MODEL_MAPPING) ;;
  on_res (fun r => Http.json r
    (JObj [("object", JStr "list"); ("data", JArr models)])).

(** *** POST /v1/chat/completions *)

(** [MODEL_MAPPING[model] || 'meta/llama-3.1-8b-instruct']: the computed
    member access converts [model] to a property key first, and that
    conversion may throw. *)
Definition nimModel (model : jsval) : completes jsval :=
  key <- JS.ToPropertyKey model ;;
  ret (JS.or (JS.GetObject MODEL_MAPPING key)
             (JStr "meta/llama-3.1-8b-instruct")).

(** [(max_tokens && max_tokens > 256) ? max_tokens : 4096]: the
    comparison is evaluated only for a truthy [max_tokens], and its
    conversion of [max_tokens] to a Number may throw. *)
Definition effective_max_tokens (max_tokens : jsval) : completes jsval :=
  test <- (if JS.ToBoolean max_tokens
           then b <- JS.gt_number max_tokens Number.n256 ;; ret (JBool b)
           else ret max_tokens) ;;
  ret (if JS.ToBoolean test then max_tokens else JNum Number.n4096).

(** The object literal [nimRequest], of the values of [nimModel] and
    [effective_max_tokens] and of the caller's other three. *)
Definition nimRequest (resolved messages temperature capped stream : jsval)
  : jsval :=
  JObj [ ("model", resolved);
         ("messages", messages);
         ("temperature", JS.or temperature (JNum Number.n0_7));
         ("max_tokens", capped);
         ("stream", JS.or stream (JBool false)) ].

Definition nimHeaders : list (string * string) :=
  [ ("Authorization", "Bearer " ++ NIM_API_KEY);
    ("Content-Type", "application/json") ].

(** The callback of [response.data.choices.map]. *)
Definition reshape_choice (choice : jsval) : Handler jsval :=
  index <- Get choice "index" ;;
  message <- Get choice "message" ;;
  role <- Get message "role" ;;
  content <- Get message "content" ;;
  finish_reason <- Get choice "finish_reason" ;;
  ret (JObj [ ("index", index);
              ("message", JObj [("role", role); ("content", content)]);
              ("finish_reason", finish_reason) ]).

(** What the callback keeps of one choice, when it does not throw. *)
Definition retained (choice : jsval) : jsval :=
  JObj [ ("index", JS.member choice "index");
         ("message",
          JObj [ ("role", JS.member (JS.member choice "message") "role");
                 ("content", JS.member (JS.member choice "message") "content") ]);
         ("finish_reason", JS.member choice "finish_reason") ].

(** The object literal handed to [res.json] in the non-streaming branch;
    its properties are evaluated in source order. *)
Definition completion (model : jsval) (data : payload) : Handler jsval :=
  id0 <- payload_get data "id" ;;
  id <- (if JS.ToBoolean id0 then ret id0
         else t <- Date_now ;;
              ret (JStr ("chatcmpl-" ++ NumberToString (Number.of_Z t)))) ;;
  created0 <- payload_get data "created" ;;
  created <- (if JS.ToBoolean created0 then ret created0
              else t <- Date_now ;;
                   ret (JNum (Number.floor
                                (Number.div (Number.of_Z t) Number.n1000)))) ;;
  choices0 <- payload_get data "choices" ;;
  choices <- call_map choices0 "response.data.choices" reshape_choice ;;
  usage <- payload_get data "usage" ;;
  ret (JObj [ ("id", id);
              ("object", JStr "chat.completion");
              ("created", created);
              ("model", model);
              ("choices", choices);
              ("usage", usage) ]).

(** The [if (stream) { ... } else { ... }] that follows the [await]. *)
Definition respond (model stream : jsval) (response : AxiosResponse)
  : Handler unit :=
  if JS.ToBoolean stream then
    on_res (fun r => Http.setHeader r "Content-Type" "text/event-stream") ;;
    on_res (fun r => Http.setHeader r "Cache-Control" "no-cache") ;;
    on_res (fun r => Http.setHeader r "Connection" "keep-alive") ;;
    call_pipe (data response) "response.data"
  else
    reshaped <- completion model (data response) ;;
    on_res (fun r => Http.json r reshaped).

(** [const { model, messages, temperature, max_tokens, stream } = req.body]:
    the destructuring throws on [undefined] and [null]; on any other
    value it is five property reads. *)
Definition destructure (body : jsval) : completes unit :=
  if JS.is_nullish body
  then Throw ("Cannot destructure property 'model' of 'req.body' as it is "
                ++ match body with JNull => "null" | _ => "undefined" end ++ ".")
  else Normal tt.

(** What the [try] block computes before the [await], in source order:
    the destructuring, [nimModel], [effective_max_tokens], [nimRequest],
    [nimHeaders] and the configuration.  It ends in the arguments of the
    one [axios.post], or in the TypeError of the destructuring or of a
    conversion, and then no call is made. *)
Definition upstream_call (body : jsval) : completes OutboundCall :=
  destructure body ;;
  let model := JS.member body "model" in
  let messages := JS.member body "messages" in
  let temperature := JS.member body "temperature" in
  let max_tokens := JS.member body "max_tokens" in
  let stream := JS.member body "stream" in
  resolved <- nimModel model ;;
  capped <- effective_max_tokens max_tokens ;;
  ret {| call_url := NIM_API_BASE ++ "/chat/completions";
         call_body := nimRequest resolved messages temperature capped stream;
         call_config :=
           {| headers := nimHeaders;
              responseType :=
                if JS.ToBoolean stream then "stream" else "json" |} |}.

(** The state right after the [axios.post] of the call [c]. *)
Definition called (c : OutboundCall) (s : HState) : HState :=
  {| res := res s; now_calls := now_calls s;
     outbound := outbound s ++ [c];
     console := console s |}.

(** The [try] block: the arguments are computed, the call is awaited,
    its response is answered with. *)
Definition try_block (body : jsval) : Handler unit :=
  call <- evaluate (upstream_call body) ;;
  response <- axios_call (call_url call) (call_body call) (call_config call) ;;
  respond (JS.member body "model") (JS.member body "stream") response.

(** [error.response?.status] *)
Definition error_status (error : JsError) : jsval :=
  match response error with
  | Some r => JNum (Number.of_Z (status r))
  | None => JUndefined
  end.

(** [error.response?.data?.error?.message] *)
Definition upstream_message (error : JsError) : jsval :=
  match response error with
  | Some r => JS.opt_member (payload_opt_member (data r) "error") "message"
  | None => JUndefined
  end.

(** The [error] object sent by the [catch] block. *)
Definition envelope (error : JsError) : jsval :=
  JObj [ ("message",
          JS.or (JS.or (upstream_message error) (JStr (message error)))
                (JStr "An internal server error occurred."));
         ("type", JStr "proxy_error");
         ("code", error_status error) ].

(** [JSON.stringify(error.response.data, null, 2)] *)
Definition stringify_data (p : payload) : Handler LogArg :=
  match p with
  | Parsed v => ret (JsonOf v)
  | Stream src =>
      match stringify_stream src with
      | inl e => raise e
      | inr text => ret (Text text)
      end
  end.

(** Whether the logging of [error] runs to its end. *)
Definition logs (error : JsError) : bool :=
  match response error with
  | Some r =>
      match data r with
      | Parsed _ => true
      | Stream src =>
          match stringify_stream src with inl _ => false | inr _ => true end
      end
  | None => true
  end.

(** The [catch] block. *)
Definition catch_block (error : JsError) : Handler unit :=
  console_error [Text "Error proxying request to NVIDIA NIM API:"] ;;
  match response error with
  | Some r =>
      console_error
        [Text ("Status: " ++ NumberToString (Number.of_Z (status r)))] ;;
      dump <- stringify_data (data r) ;;
      console_error [Text "Data:"; dump]
  | None => console_error [Text (message error)]
  end ;;
  on_res (fun r => Http.status r (JS.or (error_status error) (JNum Number.n500))) ;;
  on_res (fun r => Http.json r (JObj [("error", envelope error)])).

Definition chat_completions (body : jsval) : Handler unit :=
  catch (try_block body) catch_block.

End Server.

(** *** The script: start-up check, routes, [app.listen] *)

Inductive Process : Type :=
| Exited (stderr : list string) (code : Z)     (* [process.exit(code)] *)
| Listening (port : jsval) (key : jsval).      (* [app.listen(PORT)] reached *)

Definition getenv (env : string -> option string) (name : string) : jsval :=
  match env name with
  | Some s => JStr s
  | None => JUndefined
  end.

Definition main (env : string -> option string) : Process :=
  let PORT := JS.or (getenv env "PORT") (JNum Number.n3000) in
  let NIM_API_KEY := getenv env "NIM_API_KEY" in
  if negb (JS.ToBoolean NIM_API_KEY) then
    Exited [ "FATAL ERROR: NIM_API_KEY environment variable is not set.";
             "Please set it before running the server.";
             "Example: NIM_API_KEY=your_api_key_here node server.js" ] 1
  else
    Listening PORT NIM_API_KEY.

(** A request, by its method, the pathname of its URL and, for a POST,
    what [express.json()] left in [req.body]. *)
Inductive Request : Type :=
| GET (path : string)
| POST (path : string) (body : jsval).

(** Whether Express hands a request with pathname [pathname] to the
    route registered under [pattern], a path without parameters: by
    default the routes are matched without regard to letter case, and
    with or without one trailing slash. *)
Definition matches (pattern pathname : string) : bool :=
  let p := Http.toLowerCase pathname in
  (p =? pattern) || (p =? pattern ++ "/").

Inductive Served : Type :=
| NoProcess            (* nothing listens: the request is never handled *)
| NoRoute              (* left to Express's default handler *)
| Rejected (e : JsError) (r : Res)   (* the handler threw: left to Express *)
| Replied (r : Res).

Section Routes.

Context {E : Engine}.
Variable axios_post : string -> jsval -> AxiosConfig -> JsError + AxiosResponse.
Variable clock : nat -> Z.
Variable stringify_stream : ReadableStream -> JsError + string.

Definition route (key : string) (req : Request) : option (Handler unit) :=
  match req with
  | GET path =>
      if matches "/health" path then Some health
      else if matches "/v1/models" path then Some (list_models clock)
      else None
  | POST path body =>
      if matches "/v1/chat/completions" path
      then Some (chat_completions key axios_post clock stringify_stream body)
      else None
  end.

(** The reply to one request sent to the process started under [env];
    [hs] are the headers the middleware put on the response.  The key of
    a listening process is the String the environment holds. *)
Definition serve (env : string -> option string)
    (hs : list (string * string)) (req : Request) : Served :=
  match main env with
  | Listening _ (JStr key) =>
      match route key req with
      | Some h =>
          match h (start hs) with
          | (s, inr _) => Replied (res s)
          | (s, inl e) => Rejected e (res s)
          end
      | None => NoRoute
      end
  | _ => NoProcess
  end.

End Routes.

(* ===================================================================== *)
(** ** What the handler can read, and what it can throw *)
(* ===================================================================== *)

(** Whether the callback of [choices.map] runs to its end on [choice]: it
    reads properties of [choice] and of [choice.message], and a read on
    [undefined] or [null] throws. *)
Definition reshapes (choice : jsval) : bool :=
  negb (JS.is_nullish choice)
  && negb (JS.is_nullish (JS.member choice "message")).



(* ===================================================================== *)
(** ** Closed examples *)
(* ===================================================================== *)

Module Example.

(** The engine of the closed examples.  None of their inputs reaches a
    conversion between Strings and Numbers, so they run alike under every
    engine. *)
Definition engine : Engine :=
  {| StringToNumber := fun s => if s =? "" then S754_zero false else Number.NaN;
     NumberToString := fun _ => "";
     StringToNumber_empty := eq_refl;
     CallBuiltin := fun _ _ => Throw "not a function of the examples" |}.

Definition key : string := "nvapi-example".

Definition clock (n : nat) : Z := 1700000000000 + Z.of_nat n.

Definition messages : jsval :=
  JArr [JObj [("role", JStr "user"); ("content", JStr "hi")]].

(** [{model: "gpt-4", messages: [...], max_tokens: 10}] *)
Definition short_request : jsval :=
  JObj [ ("model", JStr "gpt-4"); ("messages", messages);
         ("max_tokens", JNum (Number.of_Z 10)) ].

(** [{model: "unknown-model", messages: [...], max_tokens: 2000}] *)
Definition long_request : jsval :=
  JObj [ ("model", JStr "unknown-model"); ("messages", messages);
         ("max_tokens", JNum (Number.of_Z 2000)) ].

(** [{model: "gpt-4", messages: [...], temperature: 0}] *)
Definition cold_request : jsval :=
  JObj [ ("model", JStr "gpt-4"); ("messages", messages);
         ("temperature", JNum (Number.of_Z 0)) ].

(** [{model: "gpt-4", messages: [...], stream: true}] *)
Definition stream_request : jsval :=
  JObj [ ("model", JStr "gpt-4"); ("messages", messages);
         ("stream", JBool true) ].

(** An upstream that answers 200 with a completion of its own making. *)
Definition completion_body : jsval :=
  JObj [ ("id", JStr "cmpl-7");
         ("object", JStr "text_completion");
         ("created", JNum (Number.of_Z 1700000000));
         ("model", JStr "meta/llama-3.1-70b-instruct");
         ("choices",
          JArr [ JObj [ ("index", JNum (Number.of_Z 0));
                        ("message", JObj [ ("role", JStr "assistant");
                                           ("content", JStr "hello");
                                           ("tool_calls", JNull) ]);
                        ("logprobs", JNull);
                        ("finish_reason", JStr "stop") ] ]);
         ("usage", JObj [ ("prompt_tokens", JNum (Number.of_Z 3));
                          ("total_tokens", JNum (Number.of_Z 5)) ]) ].

Definition answers (_ : string) (_ : jsval) (_ : AxiosConfig)
  : JsError + AxiosResponse :=
  inr {| status := 200; data := Parsed completion_body |}.

(** An upstream that answers 429 with a structured error body. *)
Definition refusal : JsError :=
  {| message := "Request failed with status code 429";
     response :=
       Some {| status := 429;
               data := Parsed (JObj [("error",
                         JObj [("message", JStr "Rate limit reached")])]) |} |}.

Definition refuses (_ : string) (_ : jsval) (_ : AxiosConfig)
  : JsError + AxiosResponse :=
  inl refusal.

(** An upstream that answers 400 with an empty error message. *)
Definition terse_refusal : JsError :=
  {| message := "Request failed with status code 400";
     response :=
       Some {| status := 400;
               data := Parsed (JObj [("error",
                         JObj [("message", JStr "")])]) |} |}.

(** An upstream that cannot be reached. *)
Definition no_route : JsError :=
  {| message := "connect ECONNREFUSED 127.0.0.1:443"; response := None |}.

Definition unreachable (_ : string) (_ : jsval) (_ : AxiosConfig)
  : JsError + AxiosResponse :=
  inl no_route.

(** An upstream that answers 200 with an event stream of two chunks,
    ["data: "] and ["{}\n\n"]. *)
Definition events : ReadableStream :=
  {| chunks := [ [Byte.x64; Byte.x61; Byte.x74; Byte.x61; Byte.x3a; Byte.x20];
                 [Byte.x7b; Byte.x7d; Byte.x0a; Byte.x0a] ];
     errored := false |}.

Definition streams (_ : string) (_ : jsval) (_ : AxiosConfig)
  : JsError + AxiosResponse :=
  inr {| status := 200; data := Stream events |}.

(** An upstream that answers a streaming request with 401: the error
    body stays an unread stream. *)
Definition denial : JsError :=
  {| message := "Request failed with status code 401";
     response :=
       Some {| status := 401;
               data := Stream {| chunks := [ [Byte.x7b; Byte.x7d] ];
                                 errored := false |} |} |}.

Definition denies (_ : string) (_ : jsval) (_ : AxiosConfig)
  : JsError + AxiosResponse :=
  inl denial.

(** A host whose stream objects refer back to themselves. *)
Definition cyclic (_ : ReadableStream) : JsError + string :=
  inl (TypeError "Converting circular structure to JSON").

(** An environment without [NIM_API_KEY]. *)
Definition bare_env (name : string) : option string :=
  if name =? "PORT" then Some "8080" else None.

End Example.

Module Run.

(** The handler and its [try] block under the example engine, key and
    clock, on a host whose stream objects cannot be serialised. *)
Definition handler
    (upstream : string -> jsval -> AxiosConfig -> JsError + AxiosResponse)
    (body : jsval) (hs : list (string * string)) : HState :=
  fst (chat_completions (E := Example.engine) Example.key upstream
         Example.clock Example.cyclic body (start hs)).

(** The call the handler prepares for [body]. *)
Definition call (body : jsval) : completes OutboundCall :=
  upstream_call (E := Example.engine) Example.key body.

Definition tried
    (upstream : string -> jsval -> AxiosConfig -> JsError + AxiosResponse)
    (body : jsval) (hs : list (string * string)) : HState :=
  fst (try_block (E := Example.engine) Example.key upstream Example.clock
         body (start hs)).

End Run.

(** Closed inputs at the edges: an environment with the key, requests
    with more or less than the five fields, upstream answers that lack
    what the reshaping reads. *)
Module Edge.

(** An environment that sets [NIM_API_KEY] and leaves [PORT] empty. *)
Definition keyed_env (name : string) : option string :=
  if name =? "NIM_API_KEY" then Some "nvapi-example"
  else if name =? "PORT" then Some ""
  else None.

(** [{model: "gpt-4", messages: [...], top_p: 0.9, stop: ["END"]}] *)
Definition rich_request : jsval :=
  JObj [ ("model", JStr "gpt-4"); ("messages", Example.messages);
         ("top_p", JNum (Number.div (Number.of_Z 9) (Number.of_Z 10)));
         ("stop", JArr [JStr "END"]) ].

(** [{model: "gpt-4", messages: [...], max_tokens: 1e999}]: the literal
    is beyond the range of a Number, and [JSON.parse] reads it as
    [Infinity]. *)
Definition huge_request : jsval :=
  JObj [ ("model", JStr "gpt-4"); ("messages", Example.messages);
         ("max_tokens", JNum (S754_infinity false)) ].

(** [{messages: [...]}] *)
Definition anonymous_request : jsval :=
  JObj [ ("messages", Example.messages) ].

(** [{model: {toString: 1}, messages: [...]}]: a [model] that converts
    to no property key. *)
Definition opaque_request : jsval :=
  JObj [ ("model", JObj [ ("toString", JNum (Number.of_Z 1)) ]);
         ("messages", Example.messages) ].

(** An upstream that answers 200 with choices and nothing else. *)
Definition sparse_body : jsval :=
  JObj [ ("choices",
          JArr [ JObj [ ("index", JNum (Number.of_Z 0));
                        ("message", JObj [ ("role", JStr "assistant");
                                           ("content", JStr "hello") ]);
                        ("finish_reason", JStr "stop") ] ]) ].

Definition sparse_answer : AxiosResponse :=
  {| status := 200; data := Parsed sparse_body |}.

Definition answers_sparsely (_ : string) (_ : jsval) (_ : AxiosConfig)
  : JsError + AxiosResponse :=
  inr sparse_answer.



End Edge.

(* ===================================================================== *)
(** * Properties *)
(* ===================================================================== *)

(** ** Numbers: integers below 2^53 and their order *)

Module NumberFacts.

Import Number.

Lemma digits2_size p : digits2_pos p = Pos.size p.
Proof. induction p; simpl; congruence. Qed.

Lemma iter_xO_Z p d : Z.pos (Pos.iter xO p d) = (Z.pos p * 2 ^ Z.pos d)%Z.
Proof.
  induction d using Pos.peano_ind.
  - simpl. lia.
  - rewrite Pos.iter_succ, Pos2Z.inj_xO, IHd, Pos2Z.inj_succ, Z.pow_succ_r by lia.
    lia.
Qed.

Lemma size_iter_xO p d :
  Z.pos (Pos.size (Pos.iter xO p d)) = (Z.pos (Pos.size p) + Z.pos d)%Z.
Proof.
  induction d using Pos.peano_ind.
  - simpl. lia.
  - rewrite Pos.iter_succ. simpl Pos.size. lia.
Qed.

Lemma size_lower p : (2 ^ Z.pos (Pos.size p) <= 2 * Z.pos p)%Z.
Proof.
  rewrite <- Pos2Z.inj_pow. apply (Pos2Z.pos_le_pos _ (p~0)), Pos.size_le.
Qed.

Lemma size_upper p : (Z.pos p < 2 ^ Z.pos (Pos.size p))%Z.
Proof. rewrite <- Pos2Z.inj_pow. apply Pos2Z.pos_lt_pos, Pos.size_gt. Qed.

Lemma size_safe p : (Z.pos p < 2 ^ 53)%Z -> (Z.pos (Pos.size p) <= 53)%Z.
Proof.
  intros H.
  destruct (Z_le_gt_dec (Z.pos (Pos.size p)) 53) as [|G]; [assumption|exfalso].
  pose proof (size_lower p) as L.
  assert (2 ^ 54 <= 2 ^ Z.pos (Pos.size p))%Z by (apply Z.pow_le_mono_r; lia).
  lia.
Qed.

(** A mantissa that already has 53 bits is left alone by the rounding. *)
Lemma shr_fexp_canonical m e :
  Z.pos (digits2_pos m) = 53%Z -> (-1074 <= e)%Z ->
  shr_fexp prec emax (Z.pos m) e loc_Exact
  = ({| shr_m := Z.pos m; shr_r := false; shr_s := false |}, e).
Proof.
  intros D L. unfold shr_fexp, fexp, emin, prec, emax.
  change (Zdigits2 (Z.pos m)) with (Z.pos (digits2_pos m)). rewrite D.
  replace (Z.max (53 + e - 53) (3 - 1024 - 53) - e)%Z with 0%Z by lia.
  reflexivity.
Qed.

Lemma binary_round_aux_canonical s m e :
  Z.pos (digits2_pos m) = 53%Z -> (-1074 <= e <= 971)%Z ->
  binary_round_aux prec emax s (Z.pos m) e loc_Exact = S754_finite s m e.
Proof.
  intros D L. unfold binary_round_aux.
  rewrite (shr_fexp_canonical m e D) by lia.
  cbn [shr_m loc_of_shr_record round_nearest_even].
  rewrite (shr_fexp_canonical m e D) by lia.
  cbn [shr_m]. unfold emax, prec.
  destruct (Z.leb_spec e (1024 - 53)); [reflexivity | lia].
Qed.

Lemma binary_round_safe s p :
  (Z.pos p < 2 ^ 53)%Z ->
  binary_round prec emax s p 0
  = S754_finite s (safe_mantissa p) (safe_exponent p).
Proof.
  intros H. pose proof (size_safe p H) as B.
  assert (F : fexp prec emax (Z.pos (Pos.size p) + 0)
              = (Z.pos (Pos.size p) - 53)%Z).
  { unfold fexp, emin, prec, emax. lia. }
  unfold binary_round, shl_align. rewrite digits2_size, F.
  unfold safe_mantissa, safe_exponent. rewrite Z.sub_0_r.
  destruct (Z.pos (Pos.size p) - 53)%Z as [|q|d] eqn:D; try lia.
  - apply binary_round_aux_canonical; [rewrite digits2_size|]; lia.
  - apply binary_round_aux_canonical.
    + rewrite digits2_size, size_iter_xO. lia.
    + lia.
Qed.

Lemma of_Z_pos p :
  (Z.pos p < 2 ^ 53)%Z ->
  of_Z (Z.pos p) = S754_finite false (safe_mantissa p) (safe_exponent p).
Proof. apply binary_round_safe. Qed.

Lemma of_Z_neg p :
  (Z.pos p < 2 ^ 53)%Z ->
  of_Z (Z.neg p) = S754_finite true (safe_mantissa p) (safe_exponent p).
Proof. apply binary_round_safe. Qed.

Lemma safe_mantissa_Z p :
  (Z.pos p < 2 ^ 53)%Z ->
  Z.pos (safe_mantissa p) = (Z.pos p * 2 ^ (53 - Z.pos (Pos.size p)))%Z.
Proof.
  intros H. pose proof (size_safe p H) as B. unfold safe_mantissa, safe_exponent.
  destruct (Z.pos (Pos.size p) - 53)%Z as [|q|d] eqn:D; try lia.
  - replace (53 - Z.pos (Pos.size p))%Z with 0%Z by lia. lia.
  - rewrite iter_xO_Z. f_equal. f_equal. lia.
Qed.

(** On positive safe integers [>] against the literal 256 is the order of
    the integers. *)
Lemma gt_256_pos p :
  (Z.pos p < 2 ^ 53)%Z -> gt (of_Z (Z.pos p)) n256 = (256 <? Z.pos p)%Z.
Proof.
  intros H. rewrite of_Z_pos by assumption.
  pose proof (size_safe p H) as B.
  pose proof (safe_mantissa_Z p H) as M.
  pose proof (size_upper p) as G. pose proof (size_lower p) as L.
  unfold gt, SFltb, n256, SFcompare, safe_exponent.
  destruct (Z.compare_spec (-44) (Z.pos (Pos.size p) - 53)) as [Q|Q|Q].
  - assert (S9 : Z.pos (Pos.size p) = 9%Z) by lia.
    rewrite S9 in G, L, M.
    rewrite Pos.compare_cont_spec. unfold Pos.switch_Eq.
    change (2 ^ 9)%Z with 512%Z in G, L.
    change (2 ^ (53 - 9))%Z with 17592186044416%Z in M.
    destruct (Pos.compare_spec 4503599627370496 (safe_mantissa p)) as [C|C|C].
    + apply (f_equal Z.pos) in C.
      destruct (Z.ltb_spec 256 (Z.pos p)); [exfalso; lia | reflexivity].
    + apply Pos2Z.pos_lt_pos in C.
      destruct (Z.ltb_spec 256 (Z.pos p)); [reflexivity | lia].
    + apply Pos2Z.pos_lt_pos in C.
      destruct (Z.ltb_spec 256 (Z.pos p)); [lia | reflexivity].
  - assert (2 ^ 10 <= 2 ^ Z.pos (Pos.size p))%Z by (apply Z.pow_le_mono_r; lia).
    destruct (Z.ltb_spec 256 (Z.pos p)); [reflexivity | lia].
  - assert (2 ^ Z.pos (Pos.size p) <= 2 ^ 8)%Z by (apply Z.pow_le_mono_r; lia).
    destruct (Z.ltb_spec 256 (Z.pos p)); [lia | reflexivity].
Qed.

Lemma gt_256_of_Z n :
  safe_integer n -> gt (of_Z n) n256 = (256 <? n)%Z.
Proof.
  unfold safe_integer. destruct n as [|p|p]; intros H.
  - reflexivity.
  - apply gt_256_pos. lia.
  - rewrite of_Z_neg by lia. reflexivity.
Qed.

(** The Number of a safe integer is finite, and zero only for 0. *)
Lemma of_Z_safe_cases n :
  safe_integer n ->
  (n = 0%Z /\ of_Z n = S754_zero false)
  \/ (n <> 0%Z /\ exists s m e, of_Z n = S754_finite s m e).
Proof.
  unfold safe_integer. destruct n as [|p|p]; intros H.
  - left. split; reflexivity.
  - right. split; [lia|]. rewrite of_Z_pos by lia. eauto.
  - right. split; [lia|]. rewrite of_Z_neg by lia. eauto.
Qed.

End NumberFacts.

Module JSFacts.

Lemma ToBoolean_false_iff v :
  JS.ToBoolean v = false <->
  v = JUndefined \/ v = JNull \/ v = JBool false
  \/ (exists s, v = JNum (S754_zero s)) \/ v = JNum Number.NaN \/ v = JStr "".
Proof.
  split.
  - destruct v as [| |b|x|s| | | |]; cbn; try discriminate; auto.
    + destruct b; [discriminate | auto].
    + destruct x; try discriminate; eauto 6.
    + destruct (String.eqb_spec s ""); [subst; auto 7 | discriminate].
  - intros [->|[->|[->|[[s ->]|[->| ->]]]]]; reflexivity.
Qed.

Lemma ToBoolean_of_Z n :
  Number.safe_integer n -> JS.ToBoolean (JNum (Number.of_Z n)) = negb (n =? 0)%Z.
Proof.
  intros H. destruct (NumberFacts.of_Z_safe_cases n H) as [[-> ->]|[N (s & m & e & ->)]].
  - reflexivity.
  - cbn. destruct (Z.eqb_spec n 0); [contradiction | reflexivity].
Qed.

Lemma json_wire_of_Z n :
  Number.safe_integer n ->
  JS.json_wire (JNum (Number.of_Z n)) = Some (JNum (Number.of_Z n)).
Proof.
  intros H. destruct (NumberFacts.of_Z_safe_cases n H) as [[-> ->]|[N (s & m & e & ->)]];
    reflexivity.
Qed.

Lemma or_truthy a b : JS.ToBoolean a = true -> JS.or a b = a.
Proof. unfold JS.or. now intros ->. Qed.

Lemma or_falsy a b : JS.ToBoolean a = false -> JS.or a b = b.
Proof. unfold JS.or. now intros ->. Qed.

Lemma json_wire_obj props :
  JS.json_wire (JObj props) = Some (JObj (JS.object_members props)).
Proof. reflexivity. Qed.

Lemma json_wire_arr items :
  JS.json_wire (JArr items) = Some (JArr (map JS.array_element items)).
Proof. reflexivity. Qed.

Lemma object_members_cons k v props :
  JS.object_members ((k, v) :: props)
  = (match JS.json_wire v with Some w => [(k, w)] | None => [] end
       ++ JS.object_members props)%list.
Proof. reflexivity. Qed.

Lemma json_wire_clean : forall v, JS.json_clean v = true -> JS.json_wire v = Some v.
Proof.
  fix IH 1. intros v.
  destruct v as [| |b|x|s|items|props|name|]; cbn [JS.json_clean];
    try discriminate; try reflexivity.
  - destruct x as [[]| | |]; cbn; try discriminate; try reflexivity.
  - intros H. cbn [JS.json_wire]. f_equal. f_equal.
    induction items as [|a items IHl]; [reflexivity|].
    cbn [forallb] in H. apply andb_prop in H. destruct H as [Ha Hl].
    cbn [map]. rewrite (IH a Ha), (IHl Hl). reflexivity.
  - intros H. cbn [JS.json_wire]. f_equal. f_equal.
    induction props as [|[k a] props IHl]; [reflexivity|].
    cbn [forallb snd] in H. apply andb_prop in H. destruct H as [Ha Hl].
    cbn [flat_map]. rewrite (IH a Ha), (IHl Hl). reflexivity.
Qed.

Lemma array_element_clean v : JS.json_clean v = true -> JS.array_element v = v.
Proof.
  intros H. unfold JS.array_element. rewrite json_wire_clean by assumption.
  reflexivity.
Qed.

(** Serialising never invents a property. *)
Lemma object_members_keys props :
  incl (JS.keys (JS.object_members props)) (JS.keys props).
Proof.
  induction props as [|[k v] props IH]; [apply incl_refl|].
  rewrite object_members_cons. unfold JS.keys in *. rewrite map_app. cbn [map fst].
  apply incl_app.
  - destruct (JS.json_wire v); cbn; [|apply incl_nil_l].
    intros x [<-|[]]. left. reflexivity.
  - apply incl_tl. assumption.
Qed.

Lemma assoc_app_skip k (l1 l2 : list (string * jsval)) :
  ~ In k (JS.keys l1) -> JS.assoc (l1 ++ l2) k = JS.assoc l2 k.
Proof.
  induction l1 as [|[k' v] l1 IH]; cbn; [reflexivity|].
  intros N. destruct (String.eqb_spec k' k) as [->|_].
  - exfalso. apply N. left. reflexivity.
  - apply IH. intros I. apply N. right. assumption.
Qed.

Lemma assoc_none_keys k (l : list (string * jsval)) :
  ~ In k (JS.keys l) -> JS.assoc l k = None.
Proof.
  intros N. rewrite <- (app_nil_r l). rewrite assoc_app_skip by assumption. reflexivity.
Qed.

(** A property written under a key that no earlier property has is read back. *)
Lemma assoc_members_skip k props1 v props2 :
  ~ In k (JS.keys props1) ->
  JS.assoc (JS.object_members (props1 ++ (k, v) :: props2)) k
  = match JS.json_wire v with
    | Some w => Some w
    | None => JS.assoc (JS.object_members props2) k
    end.
Proof.
  intros N. unfold JS.object_members. rewrite flat_map_app.
  rewrite assoc_app_skip.
  - cbn [flat_map]. destruct (JS.json_wire v); cbn; [rewrite String.eqb_refl|]; reflexivity.
  - intros I. apply N. apply (object_members_keys props1). exact I.
Qed.

End JSFacts.


Module HandlerFacts.

Lemma bind_run {A B} (c : Handler A) (f : A -> Handler B) s :
  (bind c f) s = match c s with
                 | (s', inl e) => (s', inl e)
                 | (s', inr a) => f a s'
                 end.
Proof. reflexivity. Qed.

Lemma ret_run {A} (a : A) s : (ret a : Handler A) s = (s, inr a).
Proof. reflexivity. Qed.

Lemma raise_run {A} (e : JsError) s : (raise e : Handler A) s = (s, inl e).
Proof. reflexivity. Qed.

Lemma catch_run {A} (c : Handler A) (h : JsError -> Handler A) s :
  (catch c h) s = match c s with
                  | (s', inl e) => h e s'
                  | (s', inr a) => (s', inr a)
                  end.
Proof. reflexivity. Qed.

Lemma on_res_run f s :
  on_res f s = ({| res := f (res s); now_calls := now_calls s;
                   outbound := outbound s; console := console s |}, inr tt).
Proof. reflexivity. Qed.

Lemma console_error_run args s :
  console_error args s
  = ({| res := res s; now_calls := now_calls s; outbound := outbound s;
        console := (console s ++ [args])%list |}, inr tt).
Proof. reflexivity. Qed.

(** Run the steps of a handler term that is applied to a state. *)
Ltac run_handler :=
  repeat (first [ rewrite bind_run | rewrite ret_run | rewrite raise_run
                | rewrite on_res_run | rewrite console_error_run ];
          cbv beta iota).

Lemma preserves_ret {A T} (proj : HState -> T) (a : A) : preserves proj (ret a).
Proof. intros s. reflexivity. Qed.

Lemma preserves_raise {A T} (proj : HState -> T) (e : JsError) :
  preserves proj (raise e : Handler A).
Proof. intros s. reflexivity. Qed.

Lemma preserves_bind {A B T} (proj : HState -> T) (c : Handler A) (f : A -> Handler B) :
  preserves proj c -> (forall a, preserves proj (f a)) -> preserves proj (bind c f).
Proof.
  intros Hc Hf s. rewrite bind_run. specialize (Hc s).
  destruct (c s) as [s1 [e|a]]; simpl in *; [assumption|].
  rewrite Hf. assumption.
Qed.

Lemma preserves_if {A T} (proj : HState -> T) (b : bool) (c d : Handler A) :
  preserves proj c -> preserves proj d -> preserves proj (if b then c else d).
Proof. destruct b; auto. Qed.

Lemma preserves_mapM {A B T} (proj : HState -> T) (f : A -> Handler B) l :
  (forall a, preserves proj (f a)) -> preserves proj (mapM f l).
Proof.
  intros Hf. induction l as [|a l IH]; simpl.
  - apply preserves_ret.
  - apply preserves_bind; [apply Hf|]. intros b.
    apply preserves_bind; [apply IH|]. intros bs. apply preserves_ret.
Qed.

Lemma preserves_forM_ {A T} (proj : HState -> T) (f : A -> Handler unit) l :
  (forall a, preserves proj (f a)) -> preserves proj (forM_ f l).
Proof.
  intros Hf. induction l as [|a l IH]; simpl.
  - apply preserves_ret.
  - apply preserves_bind; [apply Hf | intros _; apply IH].
Qed.

Lemma preserves_Get {T} (proj : HState -> T) v k : preserves proj (Get v k).
Proof. unfold Get. apply preserves_if; [apply preserves_raise | apply preserves_ret]. Qed.

Lemma preserves_payload_get {T} (proj : HState -> T) p k : preserves proj (payload_get p k).
Proof. destruct p; simpl; [apply preserves_Get | apply preserves_ret]. Qed.

Lemma preserves_on_res_outbound f : preserves outbound (on_res f).
Proof. intros s. reflexivity. Qed.

Lemma preserves_Date_now {T} clock (proj : HState -> T) :
  (forall r n o c,
      proj {| res := r; now_calls := S n; outbound := o; console := c |}
      = proj {| res := r; now_calls := n; outbound := o; console := c |}) ->
  preserves proj (Date_now clock).
Proof. intros H s. destruct s. simpl. apply H. Qed.

Lemma preserves_reshape_choice {T} (proj : HState -> T) c : preserves proj (reshape_choice c).
Proof.
  unfold reshape_choice.
  repeat (apply preserves_bind; [apply preserves_Get | intros ?]).
  apply preserves_ret.
Qed.

Lemma preserves_call_map {T} (proj : HState -> T) v path cb :
  (forall a, preserves proj (cb a)) -> preserves proj (call_map v path cb).
Proof.
  intros H. destruct v; simpl; try apply preserves_raise.
  apply preserves_bind; [apply preserves_mapM, H | intros ?; apply preserves_ret].
Qed.

Section Frames.
Context {E : Engine}.
Variable clock : nat -> Z.

Lemma preserves_completion {T} (proj : HState -> T) model data :
  (forall r n o c,
      proj {| res := r; now_calls := S n; outbound := o; console := c |}
      = proj {| res := r; now_calls := n; outbound := o; console := c |}) ->
  preserves proj (completion clock model data).
Proof.
  intros H. unfold completion.
  apply preserves_bind; [apply preserves_payload_get | intros ?].
  apply preserves_bind.
  { apply preserves_if; [apply preserves_ret|].
    apply preserves_bind; [apply preserves_Date_now, H | intros ?; apply preserves_ret]. }
  intros ?.
  apply preserves_bind; [apply preserves_payload_get | intros ?].
  apply preserves_bind.
  { apply preserves_if; [apply preserves_ret|].
    apply preserves_bind; [apply preserves_Date_now, H | intros ?; apply preserves_ret]. }
  intros ?.
  apply preserves_bind; [apply preserves_payload_get | intros ?].
  apply preserves_bind;
    [apply preserves_call_map; intros; apply preserves_reshape_choice
    | intros ?].
  apply preserves_bind; [apply preserves_payload_get | intros ?].
  apply preserves_ret.
Qed.
End Frames.

(** The callback of [choices.map] returns [retained choice] or throws. *)
Lemma reshape_choice_inv c s s' r :
  reshape_choice c s = (s', r) ->
  s' = s /\ forall v, r = inr v -> v = retained c.
Proof.
  unfold reshape_choice, retained, Get.
  destruct (JS.is_nullish c) eqn:Hc; cbn; rewrite ?Hc; cbn.
  - intros [= <- <-]. split; [reflexivity | discriminate].
  - destruct (JS.is_nullish (JS.member c "message")) eqn:Hm; cbn; rewrite ?Hm; cbn.
    + intros [= <- <-]. split; [reflexivity | discriminate].
    + intros [= <- <-]. split; [reflexivity | now intros v [= <-]].
Qed.

Lemma mapM_reshape_inv items : forall s s' r,
  mapM reshape_choice items s = (s', r) ->
  s' = s /\ forall cs, r = inr cs -> cs = map retained items.
Proof.
  induction items as [|c items IH]; intros s s' r.
  - cbn. intros [= <- <-]. split; [reflexivity | now intros cs [= <-]].
  - cbn [mapM]. rewrite bind_run.
    destruct (reshape_choice c s) as [s1 [e|v]] eqn:Hc;
      apply reshape_choice_inv in Hc; destruct Hc as [-> Hv].
    + intros [= <- <-]. split; [reflexivity | discriminate].
    + rewrite bind_run.
      destruct (mapM reshape_choice items s) as [s2 [e|vs]] eqn:Hm;
        apply IH in Hm; destruct Hm as [-> Hvs].
      * intros [= <- <-]. split; [reflexivity | discriminate].
      * cbn. intros [= <- <-]. split; [reflexivity|].
        intros cs [= <-]. rewrite (Hv v eq_refl), (Hvs vs eq_refl). reflexivity.
Qed.

Lemma call_map_reshape_inv v path s s' r :
  call_map v path reshape_choice s = (s', r) ->
  s' = s /\ forall w, r = inr w ->
              exists items, v = JArr items /\ w = JArr (map retained items).
Proof.
  destruct v; cbn; try (intros [= <- <-]; split; [reflexivity | discriminate]).
  destruct (mapM reshape_choice items s) as [s1 [e|vs]] eqn:Hm;
    apply mapM_reshape_inv in Hm; destruct Hm as [-> Hvs].
  - intros [= <- <-]. split; [reflexivity | discriminate].
  - intros [= <- <-]. split; [reflexivity|].
    intros w [= <-]. exists items. rewrite (Hvs vs eq_refl). split; reflexivity.
Qed.

Lemma payload_get_inv p k s s' r :
  payload_get p k s = (s', r) ->
  s' = s /\ forall v, r = inr v -> v = payload_member p k.
Proof.
  destruct p as [v|src]; cbn; unfold Get.
  - destruct (JS.is_nullish v); cbn; intros [= <- <-];
      (split; [reflexivity|]); [discriminate | now intros w [= <-]].
  - intros [= <- <-]. split; [reflexivity | now intros w [= <-]].
Qed.

Section Completion.
Context {E : Engine}.
Variable clock : nat -> Z.

(** The shape of the object a successful reshaping hands to [res.json]. *)
Lemma completion_inv model data s s' v :
  completion clock model data s = (s', inr v) ->
  exists id created items,
    payload_member data "choices" = JArr items
    /\ v = JObj [ ("id", id);
                  ("object", JStr "chat.completion");
                  ("created", created);
                  ("model", model);
                  ("choices", JArr (map retained items));
                  ("usage", payload_member data "usage") ].
Proof.
  unfold completion. rewrite bind_run.
  destruct (payload_get data "id" s) as [s1 [e|id0]] eqn:H1; [discriminate|].
  rewrite bind_run.
  match goal with |- context [ (if ?b then ?x else ?y) s1 ] =>
    destruct ((if b then x else y) s1) as [s2 [e|id]] eqn:H2 end; [discriminate|].
  rewrite bind_run.
  destruct (payload_get data "created" s2) as [s3 [e|created0]] eqn:H3; [discriminate|].
  rewrite bind_run.
  match goal with |- context [ (if ?b then ?x else ?y) s3 ] =>
    destruct ((if b then x else y) s3) as [s4 [e|created]] eqn:H4 end; [discriminate|].
  rewrite bind_run.
  destruct (payload_get data "choices" s4) as [s5 [e|choices0]] eqn:H5; [discriminate|].
  rewrite bind_run.
  destruct (call_map choices0 "response.data.choices" reshape_choice s5)
    as [s6 [e|choices]] eqn:H6; [discriminate|].
  rewrite bind_run.
  destruct (payload_get data "usage" s6) as [s7 [e|usage]] eqn:H7; [discriminate|].
  cbn. intros [= <- <-].
  apply payload_get_inv in H5, H7.
  destruct H5 as [_ H5], H7 as [_ H7].
  apply call_map_reshape_inv in H6. destruct H6 as [_ H6].
  destruct (H6 choices eq_refl) as (items & -> & ->).
  exists id, created, items. rewrite <- (H5 _ eq_refl), (H7 _ eq_refl).
  split; reflexivity.
Qed.
End Completion.

Lemma forM_write_run l : forall s,
  forM_ (fun b => on_res (fun r => Http.write r b)) l s
  = ({| res := fold_left Http.write l (res s);
        now_calls := now_calls s; outbound := outbound s;
        console := console s |}, inr tt).
Proof.
  induction l as [|b l IH]; intros s.
  - destruct s. reflexivity.
  - cbn [forM_]. rewrite bind_run. cbn. rewrite IH. reflexivity.
Qed.

Lemma fold_write_fields l : forall r,
  statusCode (fold_left Http.write l r) = statusCode r
  /\ resHeaders (fold_left Http.write l r) = resHeaders r
  /\ sent (fold_left Http.write l r) = (sent r ++ map Raw l)%list
  /\ ended (fold_left Http.write l r) = ended r.
Proof.
  induction l as [|b l IH]; intros r; cbn.
  - rewrite app_nil_r. auto.
  - destruct (IH (Http.write r b)) as (H1 & H2 & H3 & H4).
    rewrite H1, H2, H3, H4. cbn. rewrite <- app_assoc. auto.
Qed.

(** The relay writes the chunks of the source in order, never throws, and
    ends the response exactly when the source ends. *)
Lemma pipe_run src s :
  exists r,
    pipe src s = ({| res := r; now_calls := now_calls s;
                     outbound := outbound s; console := console s |}, inr tt)
    /\ statusCode r = statusCode (res s)
    /\ resHeaders r = resHeaders (res s)
    /\ sent r = (sent (res s) ++ map Raw (chunks src))%list
    /\ ended r = (negb (errored src) || ended (res s)).
Proof.
  unfold pipe. rewrite bind_run, forM_write_run.
  destruct (fold_write_fields (chunks src) (res s)) as (H1 & H2 & H3 & H4).
  destruct (errored src) eqn:Er; cbn.
  - eexists. split; [reflexivity|]. auto.
  - eexists. split; [reflexivity|]. cbn. auto.
Qed.

Lemma lookup_replace_same hs k v : Http.lookup (Http.replace hs k v) k = Some v.
Proof.
  induction hs as [|[k' v'] hs IH]; cbn.
  - rewrite String.eqb_refl. reflexivity.
  - destruct (k' =? k) eqn:Hk; cbn.
    + rewrite String.eqb_refl. reflexivity.
    + rewrite Hk. assumption.
Qed.

Lemma lookup_replace_other hs k v k' :
  k <> k' -> Http.lookup (Http.replace hs k v) k' = Http.lookup hs k'.
Proof.
  intros N. induction hs as [|[k0 v0] hs IH]; cbn.
  - destruct (String.eqb_spec k k'); [contradiction | reflexivity].
  - destruct (String.eqb_spec k0 k) as [->|N0]; cbn.
    + destruct (String.eqb_spec k k'); [contradiction|].
      destruct (String.eqb_spec k k'); [contradiction | reflexivity].
    + destruct (k0 =? k'); [reflexivity | assumption].
Qed.

Lemma evaluate_run {A} (c : completes A) s :
  evaluate c s = (s, match c with
                     | Normal a => inr a
                     | Throw msg => inl (TypeError msg)
                     end).
Proof. destruct c; reflexivity. Qed.

Section Handler.
Context {E : Engine}.
Variable key : string.
Variable axios_post : string -> jsval -> AxiosConfig -> JsError + AxiosResponse.
Variable clock : nat -> Z.
Variable stringify_stream : ReadableStream -> JsError + string.

Local Abbreviation try_ := (try_block key axios_post clock).
Local Abbreviation handler := (chat_completions key axios_post clock stringify_stream).
Local Abbreviation logged := (logs stringify_stream).
Local Abbreviation the_call := (upstream_call key).

(** The arguments of the call are computed only from a body that can be
    destructured. *)
Lemma upstream_call_nullish body :
  JS.is_nullish body = true ->
  the_call body
  = Throw ("Cannot destructure property 'model' of 'req.body' as it is "
             ++ match body with JNull => "null" | _ => "undefined" end ++ ".").
Proof. intros N. unfold upstream_call, destructure. rewrite N. reflexivity. Qed.

Lemma upstream_call_body body c :
  the_call body = Normal c -> JS.is_nullish body = false.
Proof.
  intros H. destruct (JS.is_nullish body) eqn:N; [|reflexivity].
  rewrite upstream_call_nullish in H by assumption. discriminate.
Qed.

(** The call, by the two values whose computation may throw. *)
Lemma upstream_call_inv body c :
  the_call body = Normal c ->
  exists resolved capped,
    nimModel (JS.member body "model") = Normal resolved
    /\ effective_max_tokens (JS.member body "max_tokens") = Normal capped
    /\ c = {| call_url := NIM_API_BASE ++ "/chat/completions";
              call_body := nimRequest resolved
                                      (JS.member body "messages")
                                      (JS.member body "temperature")
                                      capped
                                      (JS.member body "stream");
              call_config :=
                {| headers := nimHeaders key;
                   responseType :=
                     if JS.ToBoolean (JS.member body "stream")
                     then "stream" else "json" |} |}.
Proof.
  unfold upstream_call, destructure.
  destruct (JS.is_nullish body); [discriminate|]. cbn [bind Monad_completes].
  destruct (nimModel (JS.member body "model")) as [resolved|m]; [|discriminate].
  destruct (effective_max_tokens (JS.member body "max_tokens")) as [capped|m];
    [|discriminate].
  cbn [ret Monad_completes]. intros [= <-]. eauto.
Qed.

Lemma upstream_call_run body resolved capped :
  JS.is_nullish body = false ->
  nimModel (JS.member body "model") = Normal resolved ->
  effective_max_tokens (JS.member body "max_tokens") = Normal capped ->
  the_call body
  = Normal {| call_url := NIM_API_BASE ++ "/chat/completions";
              call_body := nimRequest resolved
                                      (JS.member body "messages")
                                      (JS.member body "temperature")
                                      capped
                                      (JS.member body "stream");
              call_config :=
                {| headers := nimHeaders key;
                   responseType :=
                     if JS.ToBoolean (JS.member body "stream")
                     then "stream" else "json" |} |}.
Proof.
  intros N M T. unfold upstream_call, destructure. rewrite N.
  cbn [bind Monad_completes]. rewrite M, T. reflexivity.
Qed.

(** The [try] block, by what becomes of the computation of the call and
    of the call itself. *)
Lemma try_block_run body s :
  try_ body s
  = match the_call body with
    | Throw msg => (s, inl (TypeError msg))
    | Normal c =>
        match axios_post (call_url c) (call_body c) (call_config c) with
        | inl e => (called c s, inl e)
        | inr response =>
            respond clock (JS.member body "model") (JS.member body "stream")
                    response (called c s)
        end
    end.
Proof.
  unfold try_block. rewrite bind_run, evaluate_run.
  destruct (the_call body) as [c|msg]; [|reflexivity].
  rewrite bind_run. unfold axios_call, called. destruct c as [u b g].
  cbn [call_url call_body call_config].
  destruct (axios_post u b g); reflexivity.
Qed.

Lemma try_block_nullish body s :
  JS.is_nullish body = true ->
  exists e, try_ body s = (s, inl e) /\ response e = None.
Proof.
  intros N. rewrite try_block_run, upstream_call_nullish by assumption.
  eexists. split; reflexivity.
Qed.

Lemma completion_res model data s :
  res (fst (completion clock model data s)) = res s.
Proof. apply (preserves_completion clock res). reflexivity. Qed.

Lemma completion_outbound model data s :
  outbound (fst (completion clock model data s)) = outbound s.
Proof. apply (preserves_completion clock outbound). reflexivity. Qed.

(** A throw after the [await] happens before anything was written to
    the response. *)
Lemma respond_throw model stream rsp s s' e :
  respond clock model stream rsp s = (s', inl e) ->
  statusCode (res s') = statusCode (res s)
  /\ sent (res s') = sent (res s) /\ ended (res s') = ended (res s)
  /\ outbound s' = outbound s.
Proof.
  unfold respond. destruct (JS.ToBoolean stream).
  - run_handler.
    destruct (data rsp) as [v|src]; cbn [call_pipe].
    + destruct v; cbn; intros [= <- <-]; cbn; auto.
    + match goal with |- context [pipe src ?s0] =>
        destruct (pipe_run src s0) as (r & -> & _) end.
      discriminate.
  - rewrite bind_run.
    pose proof (completion_res model (data rsp) s) as Hr.
    pose proof (completion_outbound model (data rsp) s) as Ho.
    destruct (completion clock model (data rsp) s) as [s1 [e1|v]] eqn:Hc; cbn in Hr, Ho.
    + intros [= <- <-]. rewrite Hr, Ho. auto.
    + rewrite on_res_run. discriminate.
Qed.

(** A request that asked for no stream and was answered. *)
Lemma respond_json_inv model stream rsp s s' :
  JS.ToBoolean stream = false ->
  respond clock model stream rsp s = (s', inr tt) ->
  exists v w,
    completion clock model (data rsp) s = (fst (completion clock model (data rsp) s), inr v)
    /\ JS.json_wire v = Some w
    /\ res s' = Http.json (res s) v
    /\ outbound s' = outbound s.
Proof.
  intros F. unfold respond. rewrite F, bind_run.
  pose proof (completion_res model (data rsp) s) as Hr.
  pose proof (completion_outbound model (data rsp) s) as Ho.
  destruct (completion clock model (data rsp) s) as [s1 [e1|v]] eqn:Hc; cbn in Hr, Ho.
  - discriminate.
  - rewrite on_res_run. intros [= <-]. cbn [res outbound fst].
    destruct (completion_inv clock _ _ _ _ _ Hc) as (id & created & items & _ & ->).
    eexists _, _. split; [reflexivity|]. split; [reflexivity|].
    rewrite Hr, Ho. auto.
Qed.

(** A request that asked for a stream and got one. *)
Lemma respond_stream model stream rsp src s :
  JS.ToBoolean stream = true ->
  data rsp = Stream src ->
  exists r,
    respond clock model stream rsp s
    = ({| res := r; now_calls := now_calls s; outbound := outbound s;
          console := console s |}, inr tt)
    /\ statusCode r = statusCode (res s)
    /\ resHeaders r
       = Http.replace (Http.replace (Http.replace (resHeaders (res s))
           "content-type" "text/event-stream")
           "cache-control" "no-cache")
           "connection" "keep-alive"
    /\ sent r = (sent (res s) ++ map Raw (chunks src))%list
    /\ ended r = (negb (errored src) || ended (res s)).
Proof.
  intros T D. unfold respond. rewrite T, D.
  run_handler.
  cbn [call_pipe].
  match goal with |- context [pipe src ?s0] =>
    destruct (pipe_run src s0) as (r & -> & H1 & H2 & H3 & H4) end.
  exists r. split; [reflexivity|]. cbn in H1, H2, H3, H4. auto.
Qed.

Lemma respond_outbound model stream rsp s :
  outbound (fst (respond clock model stream rsp s)) = outbound s.
Proof.
  revert s. change (preserves outbound (respond clock model stream rsp)).
  unfold respond. apply preserves_if.
  - repeat (apply preserves_bind; [apply preserves_on_res_outbound | intros _]).
    destruct (data rsp) as [v|src]; cbn [call_pipe].
    + destruct v; apply preserves_raise.
    + unfold pipe. apply preserves_bind.
      * apply preserves_forM_. intros b. apply preserves_on_res_outbound.
      * intros _. apply preserves_if;
          [apply preserves_ret | apply preserves_on_res_outbound].
  - apply preserves_bind.
    + apply preserves_completion. reflexivity.
    + intros v. apply preserves_on_res_outbound.
Qed.

(** The [catch] block when its logging runs to the end: the lines are
    logged, then the status is set and the error body sent. *)
Lemma catch_block_run e s :
  logged e = true ->
  exists lines,
    catch_block stringify_stream e s
    = ({| res := Http.json (Http.status (res s)
                              (JS.or (error_status e) (JNum Number.n500)))
                           (JObj [("error", envelope e)]);
          now_calls := now_calls s; outbound := outbound s;
          console := (console s ++ lines)%list |}, inr tt).
Proof.
  unfold logs, catch_block. intros L.
  destruct (response e) as [r|].
  - destruct (data r) as [v|src]; cbn [stringify_data].
    + eexists [_; _; _].
      run_handler.
      cbn [res now_calls outbound console ret Monad_Handler].
      rewrite <- !app_assoc. reflexivity.
    + destruct (stringify_stream src) as [err|text]; [discriminate|].
      eexists [_; _; _].
      run_handler.
      cbn [res now_calls outbound console ret Monad_Handler].
      rewrite <- !app_assoc. reflexivity.
  - eexists [_; _].
    run_handler.
    cbn [res now_calls outbound console].
    rewrite <- !app_assoc. reflexivity.
Qed.

(** The [catch] block when [JSON.stringify] throws on the upstream body:
    the throw leaves the block before the status is set or anything is
    sent, and it is the handler's. *)
Lemma catch_block_throws e s :
  logged e = false ->
  exists rsp src err s',
    response e = Some rsp /\ data rsp = Stream src
    /\ stringify_stream src = inl err
    /\ catch_block stringify_stream e s = (s', inl err)
    /\ res s' = res s /\ outbound s' = outbound s.
Proof.
  unfold logs, catch_block. intros L.
  destruct (response e) as [r|]; [|discriminate].
  destruct (data r) as [v|src] eqn:D; [discriminate|]. cbn [stringify_data].
  destruct (stringify_stream src) as [err|text] eqn:S; [|discriminate].
  exists r, src, err. eexists.
  split; [reflexivity|]. split; [exact D|]. split; [exact S|].
  run_handler.
  cbn. split; [reflexivity|]. split; reflexivity.
Qed.

Lemma catch_block_outbound e s :
  outbound (fst (catch_block stringify_stream e s)) = outbound s.
Proof.
  destruct (logged e) eqn:L.
  - destruct (catch_block_run e s L) as (lines & ->). reflexivity.
  - destruct (catch_block_throws e s L)
      as (rsp & src & err & s' & _ & _ & _ & -> & _ & Ho).
    exact Ho.
Qed.

(** A request sends one call upstream when the arguments of the call
    could be computed, and none when their computation threw. *)
Lemma handler_outbound_any body s :
  outbound (fst (handler body s))
  = (outbound s ++ match the_call body with
                   | Normal c => [c]
                   | Throw _ => []
                   end)%list.
Proof.
  unfold chat_completions. rewrite catch_run, try_block_run.
  destruct (the_call body) as [c|msg].
  - destruct (axios_post _ _ _) as [e|rsp].
    + rewrite catch_block_outbound. reflexivity.
    + pose proof (respond_outbound (JS.member body "model")
                    (JS.member body "stream") rsp (called c s)) as Ho.
      destruct (respond clock _ _ rsp (called c s)) as [s1 [e|[]]]; cbn in Ho.
      * rewrite catch_block_outbound. assumption.
      * cbn. assumption.
  - rewrite catch_block_outbound. cbn [fst]. rewrite app_nil_r. reflexivity.
Qed.

Lemma handler_outbound body s c :
  the_call body = Normal c ->
  outbound (fst (handler body s)) = (outbound s ++ [c])%list.
Proof. intros H. rewrite handler_outbound_any, H. reflexivity. Qed.

Lemma sent_upstream_field body hs c field :
  the_call body = Normal c ->
  sent_upstream (fst (handler body (start hs))) field
  = Some (JS.member (call_body c) field).
Proof.
  intros H. unfold sent_upstream. rewrite (handler_outbound body (start hs) c H).
  reflexivity.
Qed.

(** A throw of the [try] block leaves the response unwritten. *)
Lemma try_block_throw_unsent body hs s1 e :
  try_ body (start hs) = (s1, inl e) ->
  statusCode (res s1) = JNum (Number.of_Z 200)
  /\ sent (res s1) = [] /\ ended (res s1) = false.
Proof.
  rewrite try_block_run. destruct (the_call body) as [c|msg].
  - destruct (axios_post _ _ _) as [e'|rsp].
    + intros [= <- _]. repeat split; reflexivity.
    + intros H. apply respond_throw in H. destruct H as (-> & -> & -> & _).
      repeat split; reflexivity.
  - intros [= <- _]. repeat split; reflexivity.
Qed.

(** A handler run whose [try] block threw [e] and whose logging ran to
    the end: the [catch] block sends the one response. *)
Lemma handler_caught body hs s1 e :
  try_ body (start hs) = (s1, inl e) ->
  logged e = true ->
  let r := res (fst (handler body (start hs))) in
  statusCode r = JS.or (error_status e) (JNum Number.n500)
  /\ sent r = match JS.json_wire (JObj [("error", envelope e)]) with
              | Some w => [JsonText w]
              | None => []
              end
  /\ ended r = true.
Proof.
  intros H L. cbv zeta. unfold chat_completions. rewrite catch_run, H.
  destruct (catch_block_run e s1 L) as (lines & ->).
  cbn [fst res].
  destruct (try_block_throw_unsent body hs s1 e H) as (_ & S1 & _).
  unfold Http.json.
  destruct (Http.getHeader _ _); cbn; rewrite S1; auto.
Qed.


(** A handler run that asked for no stream and whose [try] block
    completed: the reshaped object is sent as the one response. *)
Lemma handler_replied body hs s1 :
  JS.ToBoolean (JS.member body "stream") = false ->
  try_ body (start hs) = (s1, inr tt) ->
  exists c rsp id created items,
    the_call body = Normal c
    /\ axios_post (call_url c) (call_body c) (call_config c) = inr rsp
    /\ payload_member (data rsp) "choices" = JArr items
    /\ sent (res (fst (handler body (start hs))))
       = [JsonText (JObj (JS.object_members
            [ ("id", id);
              ("object", JStr "chat.completion");
              ("created", created);
              ("model", JS.member body "model");
              ("choices", JArr (map retained items));
              ("usage", payload_member (data rsp) "usage") ]))]
    /\ statusCode (res (fst (handler body (start hs))))
       = JNum (Number.of_Z 200).
Proof.
  intros F H. unfold chat_completions. rewrite catch_run, H. cbn [fst].
  rewrite try_block_run in H.
  destruct (the_call body) as [c|msg]; [|discriminate].
  destruct (axios_post _ _ _) as [e'|rsp] eqn:A; [discriminate|].
  destruct (respond_json_inv _ _ _ _ _ F H) as (v & w & Hc & Hw & Hr & _).
  destruct (completion_inv clock _ _ _ _ _ Hc) as (id & created & items & Hi & ->).
  exists c, rsp, id, created, items.
  split; [reflexivity|]. split; [exact A|]. split; [exact Hi|].
  split.
  - rewrite Hr. unfold Http.json.
    destruct (Http.getHeader _ _); reflexivity.
  - rewrite Hr. unfold Http.json. destruct (Http.getHeader _ _); reflexivity.
Qed.

(** The handler itself returns unless the logging of a caught error
    throws. *)
Lemma handler_returns body s :
  (forall s1 e, try_ body s = (s1, inl e) -> logged e = true) ->
  snd (handler body s) = inr tt.
Proof.
  intros L. unfold chat_completions. rewrite catch_run.
  destruct (try_ body s) as [s1 [e|[]]] eqn:H; [|reflexivity].
  destruct (catch_block_run e s1 (L s1 e eq_refl)) as (lines & ->). reflexivity.
Qed.

End Handler.
End HandlerFacts.

Import HandlerFacts.

Section Claims.
Context {E : Engine}.
Variable key : string.
Variable axios_post : string -> jsval -> AxiosConfig -> JsError + AxiosResponse.
Variable clock : nat -> Z.
Variable stringify_stream : ReadableStream -> JsError + string.

Local Abbreviation handler := (chat_completions key axios_post clock stringify_stream).

Lemma effective_max_tokens_absent :
  effective_max_tokens JUndefined = Normal (JNum Number.n4096).
Proof. reflexivity. Qed.

Lemma effective_max_tokens_number x :
  effective_max_tokens (JNum x)
  = Normal (if Number.gt x Number.n256 then JNum x else JNum Number.n4096).
Proof.
  unfold effective_max_tokens, JS.gt_number, JS.ToNumber.
  destruct x as [s|s| |s m e]; reflexivity.
Qed.

(** A falsy [max_tokens] ends the [&&] before the comparison. *)
Lemma effective_max_tokens_falsy v :
  JS.ToBoolean v = false -> effective_max_tokens v = Normal (JNum Number.n4096).
Proof.
  intros F. unfold effective_max_tokens. rewrite F.
  cbn [bind ret Monad_completes]. rewrite F. reflexivity.
Qed.

(** A truthy [max_tokens] is compared with 256, which converts it to a
    Number and may throw. *)
Lemma effective_max_tokens_truthy v :
  JS.ToBoolean v = true ->
  effective_max_tokens v
  = match JS.gt_number v Number.n256 with
    | Normal b => Normal (if b then v else JNum Number.n4096)
    | Throw msg => Throw msg
    end.
Proof.
  intros T. unfold effective_max_tokens. rewrite T.
  cbn [bind ret Monad_completes].
  destruct (JS.gt_number v Number.n256) as [[]|msg]; reflexivity.
Qed.

Lemma effective_max_tokens_integer n :
  Number.safe_integer n ->
  effective_max_tokens (JNum (Number.of_Z n))
  = Normal (if (256 <? n)%Z then JNum (Number.of_Z n) else JNum Number.n4096).
Proof.
  intros H. rewrite effective_max_tokens_number, NumberFacts.gt_256_of_Z by assumption.
  reflexivity.
Qed.

(** The value that goes upstream compares greater than 256. *)
Lemma effective_max_tokens_gt v capped :
  effective_max_tokens v = Normal capped ->
  JS.gt_number capped Number.n256 = Normal true.
Proof.
  destruct (JS.ToBoolean v) eqn:T.
  - rewrite effective_max_tokens_truthy by assumption.
    destruct (JS.gt_number v Number.n256) as [[]|msg] eqn:G; [| |discriminate];
      intros [= <-]; [exact G | reflexivity].
  - rewrite effective_max_tokens_falsy by assumption. intros [= <-]. reflexivity.
Qed.

(** C1.  For every inbound request for which the arguments of the
    upstream call can be computed (the body can be destructured, and
    neither the lookup of [model] nor the comparison of [max_tokens] with
    256 throws), exactly one request goes upstream and its [max_tokens]
    is the caller's [max_tokens] verbatim when that is a Number strictly
    greater than 256, and the fixed floor 4096 when it is absent, falsy
    or a Number less than or equal to 256.  On integers below 2^53 the
    comparison is the order of the integers; on any other truthy value
    it is the [>] of the language, whose outcome decides between the
    caller's value and 4096. *)
Theorem max_tokens_sent_upstream hs body c :
  upstream_call key body = Normal c ->
  let max_tokens := JS.member body "max_tokens" in
  let final := fst (handler body (start hs)) in
  let upstream := sent_upstream final "max_tokens" in
  outbound final = [c]
  /\ (max_tokens = JUndefined -> upstream = Some (JNum Number.n4096))
  /\ (forall n, Number.safe_integer n -> max_tokens = JNum (Number.of_Z n) ->
        upstream = Some (if (256 <? n)%Z then JNum (Number.of_Z n)
                         else JNum Number.n4096))
  /\ (forall x, max_tokens = JNum x ->
        upstream = Some (if Number.gt x Number.n256 then JNum x
                         else JNum Number.n4096))
  /\ (JS.ToBoolean max_tokens = false -> upstream = Some (JNum Number.n4096))
  /\ (JS.ToBoolean max_tokens = true ->
        exists b, JS.gt_number max_tokens Number.n256 = Normal b
                  /\ upstream = Some (if b then max_tokens else JNum Number.n4096)).
Proof.
  intros H. cbv zeta.
  rewrite (sent_upstream_field key axios_post clock stringify_stream body hs c
             "max_tokens" H).
  split; [exact (handler_outbound key axios_post clock stringify_stream
                   body (start hs) c H)|].
  destruct (upstream_call_inv key body c H) as (resolved & capped & _ & Hc & ->).
  change (JS.member (call_body _) "max_tokens") with capped.
  split; [|split; [|split; [|split]]].
  - intros U. rewrite U, effective_max_tokens_absent in Hc. congruence.
  - intros n S M. rewrite M, effective_max_tokens_integer in Hc by assumption.
    congruence.
  - intros x M. rewrite M, effective_max_tokens_number in Hc. congruence.
  - intros F. rewrite effective_max_tokens_falsy in Hc by assumption. congruence.
  - intros T. rewrite effective_max_tokens_truthy in Hc by assumption.
    destruct (JS.gt_number (JS.member body "max_tokens") Number.n256) as [b|msg];
      [|discriminate].
    exists b. split; [reflexivity | congruence].
Qed.

(** C3.  For every inbound request for which the arguments of the
    upstream call can be computed, exactly one request goes upstream and
    its [temperature] is 0.7 when the caller's [temperature] is falsy,
    and the caller's value verbatim otherwise; the falsy values are
    exactly [undefined] (absent), [null], [false], [0], [-0], [NaN] and
    the empty String. *)
Theorem temperature_sent_upstream hs body c :
  upstream_call key body = Normal c ->
  let temperature := JS.member body "temperature" in
  let final := fst (handler body (start hs)) in
  let upstream := sent_upstream final "temperature" in
  outbound final = [c]
  /\ (JS.ToBoolean temperature = false -> upstream = Some (JNum Number.n0_7))
  /\ (JS.ToBoolean temperature = true -> upstream = Some temperature)
  /\ (JS.ToBoolean temperature = false <->
        temperature = JUndefined \/ temperature = JNull
        \/ temperature = JBool false
        \/ (exists s, temperature = JNum (S754_zero s))
        \/ temperature = JNum Number.NaN \/ temperature = JStr "").
Proof.
  intros H. cbv zeta.
  rewrite (sent_upstream_field key axios_post clock stringify_stream body hs c
             "temperature" H).
  split; [exact (handler_outbound key axios_post clock stringify_stream
                   body (start hs) c H)|].
  destruct (upstream_call_inv key body c H) as (resolved & capped & _ & _ & ->).
  change (JS.member (call_body _) "temperature")
    with (JS.or (JS.member body "temperature") (JNum Number.n0_7)).
  split; [|split].
  - intros F. rewrite JSFacts.or_falsy by assumption. reflexivity.
  - intros T. rewrite JSFacts.or_truthy by assumption. reflexivity.
  - apply JSFacts.ToBoolean_false_iff.
Qed.


Lemma nimModel_own k v :
  JS.assoc MODEL_MAPPING k = Some v -> nimModel (JStr k) = Normal v.
Proof.
  unfold nimModel, JS.ToPropertyKey, JS.GetObject.
  cbn [JS.ToString bind ret Monad_completes].
  intros H. rewrite H. revert H. unfold MODEL_MAPPING. cbn [JS.assoc].
  repeat match goal with
         | |- context [if ?b then _ else _] => destruct b
         end; intros [= <-]; reflexivity.
Qed.

Lemma nimModel_miss k :
  JS.assoc MODEL_MAPPING k = None -> JS.assoc JS.Object_prototype k = None ->
  nimModel (JStr k) = Normal (JStr "meta/llama-3.1-8b-instruct").
Proof.
  unfold nimModel, JS.ToPropertyKey, JS.GetObject.
  cbn [JS.ToString bind ret Monad_completes].
  intros -> ->. reflexivity.
Qed.

Lemma nimModel_gpt4 :
  nimModel (JStr "gpt-4") = Normal (JStr "meta/llama-3.1-70b-instruct").
Proof. reflexivity. Qed.

(** A name that the table lacks and every object inherits resolves to the
    inherited value. *)
Lemma nimModel_inherited k v :
  JS.assoc MODEL_MAPPING k = None -> JS.assoc JS.Object_prototype k = Some v ->
  nimModel (JStr k) = Normal v /\ v <> JStr "meta/llama-3.1-8b-instruct".
Proof.
  unfold nimModel, JS.ToPropertyKey, JS.GetObject.
  cbn [JS.ToString bind ret Monad_completes].
  intros -> H. rewrite H. revert H. unfold JS.Object_prototype. cbn [JS.assoc].
  repeat match goal with
         | |- context [if ?b then _ else _] => destruct b
         end; intros [= <-]; (split; [reflexivity | discriminate]).
Qed.

(** What [nimModel] yields is truthy. *)
Lemma nimModel_truthy model resolved :
  nimModel model = Normal resolved -> JS.ToBoolean resolved = true.
Proof.
  unfold nimModel. destruct (JS.ToPropertyKey model) as [name|msg]; [|discriminate].
  cbn [bind ret Monad_completes]. intros [= <-]. unfold JS.or.
  destruct (JS.ToBoolean (JS.GetObject MODEL_MAPPING name)) eqn:T;
    [exact T | reflexivity].
Qed.

(** C2, at the request [{model: "constructor", messages}].  The name
    [constructor] is no key of [MODEL_MAPPING], yet the model sent upstream
    is not the default ['meta/llama-3.1-8b-instruct']: the lookup finds the
    function that every object literal inherits under that name, and the
    request body, once serialised, carries no [model] at all. *)
Theorem inherited_name_resolves_to_builtin hs messages :
  let body := JObj [("model", JStr "constructor"); ("messages", messages)] in
  let final := fst (handler body (start hs)) in
  JS.has_own MODEL_MAPPING "constructor" = false
  /\ sent_upstream final "model" = Some (JFun "Object")
  /\ JFun "Object" <> JStr "meta/llama-3.1-8b-instruct"
  /\ exists c members,
       outbound final = [c]
       /\ JS.json_wire (call_body c) = Some (JObj members)
       /\ JS.has_own members "model" = false.
Proof.
  cbv zeta.
  set (body := JObj [("model", JStr "constructor"); ("messages", messages)]).
  assert (H : upstream_call key body
              = Normal {| call_url := NIM_API_BASE ++ "/chat/completions";
                          call_body :=
                            nimRequest (JFun "Object") messages JUndefined
                                       (JNum Number.n4096) JUndefined;
                          call_config :=
                            {| headers := nimHeaders key;
                               responseType := "json" |} |})
    by reflexivity.
  split; [reflexivity|]. split; [|split; [discriminate|]].
  - rewrite (sent_upstream_field key axios_post clock stringify_stream body hs _
               "model" H).
    reflexivity.
  - rewrite (handler_outbound key axios_post clock stringify_stream
               body (start hs) _ H).
    cbn [start outbound app].
    eexists _, _. split; [reflexivity|]. split; [reflexivity|].
    unfold JS.has_own. rewrite JSFacts.assoc_none_keys; [reflexivity|].
    cbn [call_body nimRequest].
    rewrite JSFacts.object_members_cons.
    cbn [JS.json_wire app].
    intros I. apply JSFacts.object_members_keys in I. cbn in I.
    repeat (destruct I as [I|I]; [discriminate|]). exact I.
Qed.

Lemma members_model (id created model choices usage : jsval) :
  JS.assoc (JS.object_members
     [ ("id", id); ("object", JStr "chat.completion"); ("created", created);
       ("model", model); ("choices", choices); ("usage", usage) ]) "model"
  = JS.json_wire model.
Proof.
  change [ ("id", id); ("object", JStr "chat.completion"); ("created", created);
           ("model", model); ("choices", choices); ("usage", usage) ]
    with ([ ("id", id); ("object", JStr "chat.completion"); ("created", created) ]
            ++ ("model", model) :: [("choices", choices); ("usage", usage)])%list.
  rewrite JSFacts.assoc_members_skip.
  - destruct (JS.json_wire model); [reflexivity|].
    apply JSFacts.assoc_none_keys. intros I.
    apply JSFacts.object_members_keys in I. cbn in I.
    repeat (destruct I as [I|I]; [discriminate|]). exact I.
  - cbn. intros I. repeat (destruct I as [I|I]; [discriminate|]). exact I.
Qed.

(** C4.  For every non-streaming request whose [try] block completes, the
    [model] of the JSON body sent to the caller is the String the caller
    put in [model], hence not the resolved upstream identifier whenever the
    two differ. *)
Theorem response_echoes_requested_model hs body s1 m :
  JS.ToBoolean (JS.member body "stream") = false ->
  try_block key axios_post clock body (start hs) = (s1, inr tt) ->
  JS.member body "model" = JStr m ->
  exists w,
    sent (res (fst (handler body (start hs)))) = [JsonText w]
    /\ JS.member w "model" = JStr m
    /\ (nimModel (JStr m) <> Normal (JStr m) ->
        Normal (JS.member w "model") <> nimModel (JStr m)).
Proof.
  intros F H M.
  destruct (handler_replied key axios_post clock stringify_stream body hs s1 F H)
    as (c & rsp & id & created & items & _ & _ & _ & Hs & _).
  eexists. split; [exact Hs|].
  assert (R : JS.member (JObj (JS.object_members
      [ ("id", id); ("object", JStr "chat.completion"); ("created", created);
        ("model", JS.member body "model"); ("choices", JArr (map retained items));
        ("usage", payload_member (data rsp) "usage") ])) "model" = JStr m).
  { cbn [JS.member]. unfold JS.GetObject. rewrite members_model, M. reflexivity. }
  split; [exact R|]. intros D. rewrite R. congruence.
Qed.

(** C9.  For every non-streaming request whose [try] block completes, the
    [object] of the JSON body sent to the caller is ["chat.completion"],
    whatever the upstream body held. *)
Theorem response_object_is_chat_completion hs body s1 :
  JS.ToBoolean (JS.member body "stream") = false ->
  try_block key axios_post clock body (start hs) = (s1, inr tt) ->
  exists w,
    sent (res (fst (handler body (start hs)))) = [JsonText w]
    /\ JS.member w "object" = JStr "chat.completion".
Proof.
  intros F H.
  destruct (handler_replied key axios_post clock stringify_stream body hs s1 F H)
    as (c & rsp & id & created & items & _ & _ & _ & Hs & _).
  eexists. split; [exact Hs|].
  cbn [JS.member]. unfold JS.GetObject.
  change [ ("id", id); ("object", JStr "chat.completion"); ("created", created);
           ("model", JS.member body "model"); ("choices", JArr (map retained items));
           ("usage", payload_member (data rsp) "usage") ]
    with ([ ("id", id) ]
            ++ ("object", JStr "chat.completion")
            :: [ ("created", created); ("model", JS.member body "model");
                 ("choices", JArr (map retained items));
                 ("usage", payload_member (data rsp) "usage") ])%list.
  rewrite JSFacts.assoc_members_skip; [reflexivity|].
  cbn. intros [I|[]]. discriminate.
Qed.

Lemma json_wire_num x : exists w, JS.json_wire (JNum x) = Some w.
Proof. destruct x; cbn; eauto. Qed.

Lemma raw_bytes_relay r l :
  sent r = map Raw l -> Http.raw_bytes r = concat l.
Proof.
  unfold Http.raw_bytes. intros ->. induction l as [|b l IH]; cbn; [reflexivity|].
  rewrite IH. reflexivity.
Qed.

(** The error body, for every error [e] thrown in the [try] block and
    logged to the end: the caller receives exactly one JSON body
    [{error: {message, type, code}}] with [type] ["proxy_error"].
    [message] is the [error.message] of the upstream's parsed body when
    that value is truthy (it is never read from a stream, nor without an
    upstream response), else the failure's own message when it is not
    empty, else the fixed fallback sentence; it is a non-empty String
    whenever the upstream value is a String or is not used.  The HTTP
    status is 500 without an upstream response, and the upstream's status
    when there is one (a non-zero integer). *)
Lemma error_envelope_sent hs body s1 e :
  try_block key axios_post clock body (start hs) = (s1, inl e) ->
  logs stringify_stream e = true ->
  let r := res (fst (handler body (start hs))) in
  let upstream := upstream_message e in
  let msg := if JS.ToBoolean upstream then upstream
             else if message e =? "" then JStr "An internal server error occurred."
                  else JStr (message e) in
  sent r = [JsonText (JObj [("error",
              JObj (JS.object_members [ ("message", msg);
                                        ("type", JStr "proxy_error");
                                        ("code", error_status e) ]))])]
  /\ ended r = true
  /\ (response e = None -> upstream = JUndefined)
  /\ (forall rsp src, response e = Some rsp -> data rsp = Stream src ->
        upstream = JUndefined)
  /\ (forall rsp v, response e = Some rsp -> data rsp = Parsed v ->
        upstream = JS.opt_member (JS.opt_member v "error") "message")
  /\ (JS.ToBoolean upstream = false \/ (exists m, upstream = JStr m) ->
      exists m, msg = JStr m /\ m <> "")
  /\ (response e = None -> statusCode r = JNum Number.n500)
  /\ (forall rsp, response e = Some rsp ->
        Number.safe_integer (status rsp) -> status rsp <> 0%Z ->
        statusCode r = JNum (Number.of_Z (status rsp))).
Proof.
  intros H L. cbv zeta.
  destruct (handler_caught key axios_post clock stringify_stream
              body hs s1 e H L) as (Hst & Hs & He).
  split; [|split; [exact He|split; [|split; [|split; [|split; [|split]]]]]].
  - rewrite Hs. unfold envelope, JS.or at 1 2.
    destruct (JS.ToBoolean (upstream_message e)) eqn:U.
    + rewrite U. reflexivity.
    + cbn [JS.ToBoolean]. destruct (message e =? ""); reflexivity.
  - unfold upstream_message. intros ->. reflexivity.
  - unfold upstream_message. intros rsp src -> ->. reflexivity.
  - unfold upstream_message. intros rsp v -> ->. reflexivity.
  - intros [F|[m ->]].
    + rewrite F. destruct (String.eqb_spec (message e) "") as [Q|Q].
      * eexists. split; [reflexivity | discriminate].
      * eexists. split; [reflexivity | assumption].
    + cbn [JS.ToBoolean]. destruct (String.eqb_spec m "") as [->|Q]; cbn [negb].
      * destruct (String.eqb_spec (message e) "") as [Q|Q];
          (eexists; split; [reflexivity|]); [discriminate | assumption].
      * eexists. split; [reflexivity | assumption].
  - intros N. rewrite Hst. unfold error_status. rewrite N. reflexivity.
  - intros rsp R S NZ. rewrite Hst. unfold error_status. rewrite R.
    apply JSFacts.or_truthy. rewrite JSFacts.ToBoolean_of_Z by assumption.
    destruct (Z.eqb_spec (status rsp) 0); [contradiction | reflexivity].
Qed.

(** C5, at a request for a stream that the upstream refuses: the call
    was made and [axios.post] rejected with the upstream's response, whose
    body is the stream the request asked for.  The [catch] block logs its
    first line and the status, then serialises that stream for the log;
    where [JSON.stringify] throws on the stream object, the throw leaves
    the [catch] block before [res.status(...).json(...)].  The handler
    throws that error, the status is never set, no body is sent (no error
    envelope) and the response is left open. *)
Theorem refused_stream_is_left_unanswered hs body c e rsp src err :
  upstream_call key body = Normal c ->
  axios_post (call_url c) (call_body c) (call_config c) = inl e ->
  response e = Some rsp ->
  data rsp = Stream src ->
  stringify_stream src = inl err ->
  let out := handler body (start hs) in
  snd out = inl err
  /\ outbound (fst out) = [c]
  /\ statusCode (res (fst out)) = JNum (Number.of_Z 200)
  /\ sent (res (fst out)) = []
  /\ ended (res (fst out)) = false
  /\ console (fst out)
     = [ [Text "Error proxying request to NVIDIA NIM API:"];
         [Text ("Status: " ++ NumberToString (Number.of_Z (status rsp)))] ].
Proof.
  intros H A R D S. cbv zeta.
  unfold chat_completions. rewrite catch_run, try_block_run, H, A.
  unfold catch_block. rewrite R, D. cbn [stringify_data]. rewrite S.
  run_handler. cbn [fst snd res outbound console statusCode sent ended
                    called start new_res app].
  repeat split.
Qed.

(** Without an upstream response there is no body to serialise, and the
    logging runs to its end. *)
Lemma logs_without_response e :
  response e = None -> logs stringify_stream e = true.
Proof. unfold logs. intros ->. reflexivity. Qed.

(** C8.  In the error body, [code] is present exactly when the thrown
    error carries an upstream response, and is then that response's
    status; without an upstream response the HTTP status is 500 and the
    body sent has no [code]. *)
Theorem envelope_code_iff_upstream_response hs body s1 e :
  try_block key axios_post clock body (start hs) = (s1, inl e) ->
  let r := res (fst (handler body (start hs))) in
  exists members,
    JS.json_wire (JObj [("error", envelope e)])
    = Some (JObj [("error", JObj members)])
    /\ (logs stringify_stream e = true ->
        sent r = [JsonText (JObj [("error", JObj members)])])
    /\ (response e = None ->
        sent r = [JsonText (JObj [("error", JObj members)])]
        /\ statusCode r = JNum Number.n500
        /\ JS.has_own members "code" = false)
    /\ (forall rsp, response e = Some rsp ->
          JS.has_own members "code" = true
          /\ (Number.safe_integer (status rsp) ->
              JS.assoc members "code" = Some (JNum (Number.of_Z (status rsp))))).
Proof.
  intros H. cbv zeta.
  set (msg := JS.or (JS.or (upstream_message e) (JStr (message e)))
                    (JStr "An internal server error occurred.")).
  exists (JS.object_members
            [ ("message", msg); ("type", JStr "proxy_error");
              ("code", error_status e) ]).
  assert (S : logs stringify_stream e = true ->
              sent (res (fst (handler body (start hs))))
              = [JsonText (JObj [("error", JObj (JS.object_members
                   [ ("message", msg); ("type", JStr "proxy_error");
                     ("code", error_status e) ]))])]).
  { intros L.
    destruct (handler_caught key axios_post clock stringify_stream
                body hs s1 e H L) as (_ & Hs & _).
    rewrite Hs. reflexivity. }
  assert (C : JS.assoc (JS.object_members
                [ ("message", msg); ("type", JStr "proxy_error");
                  ("code", error_status e) ]) "code"
              = JS.json_wire (error_status e)).
  { change [ ("message", msg); ("type", JStr "proxy_error");
             ("code", error_status e) ]
      with ([ ("message", msg); ("type", JStr "proxy_error") ]
              ++ ("code", error_status e) :: [])%list.
    rewrite JSFacts.assoc_members_skip.
    - destruct (JS.json_wire (error_status e)); reflexivity.
    - cbn. intros I. repeat (destruct I as [I|I]; [discriminate|]). exact I. }
  split; [reflexivity|]. split; [exact S|].
  unfold JS.has_own. rewrite C. split.
  - intros N. split; [exact (S (logs_without_response e N))|].
    destruct (handler_caught key axios_post clock stringify_stream
                body hs s1 e H (logs_without_response e N)) as (Hst & _ & _).
    split.
    + rewrite Hst. unfold error_status. rewrite N. reflexivity.
    + unfold error_status. rewrite N. reflexivity.
  - intros rsp R. unfold error_status. rewrite R. split.
    + destruct (json_wire_num (Number.of_Z (status rsp))) as (w & ->). reflexivity.
    + intros S'. apply JSFacts.json_wire_of_Z. assumption.
Qed.

(** C6.  For every request whose [stream] is truthy and whose upstream
    call is made (its arguments can be computed) and resolves with a
    stream, the response declares [Content-Type: text/event-stream],
    [Cache-Control: no-cache] and [Connection: keep-alive], keeps status
    200, and what is written to it is the upstream chunks, one write per
    chunk, unmodified and in order; the call asked for a stream and is
    the only one. *)
Theorem stream_relayed_verbatim hs body c rsp src :
  upstream_call key body = Normal c ->
  JS.ToBoolean (JS.member body "stream") = true ->
  axios_post (call_url c) (call_body c) (call_config c) = inr rsp ->
  data rsp = Stream src ->
  let final := fst (handler body (start hs)) in
  let r := res final in
  Http.getHeader r "Content-Type" = Some "text/event-stream"
  /\ Http.getHeader r "Cache-Control" = Some "no-cache"
  /\ Http.getHeader r "Connection" = Some "keep-alive"
  /\ statusCode r = JNum (Number.of_Z 200)
  /\ sent r = map Raw (chunks src)
  /\ Http.raw_bytes r = concat (chunks src)
  /\ outbound final = [c]
  /\ responseType (call_config c) = "stream".
Proof.
  intros H T A D. cbv zeta.
  split; [|split; [|split; [|split; [|split; [|split; [|split]]]]]];
    try (unfold chat_completions; rewrite catch_run, try_block_run, H, A;
         destruct (respond_stream clock (JS.member body "model")
                     (JS.member body "stream") rsp src (called c (start hs)) T D)
           as (r & -> & Hst & Hh & Hs & _);
         cbn [fst res]; cbn in Hst, Hh, Hs;
         unfold Http.getHeader; rewrite ?Hh;
         change (Http.toLowerCase "Content-Type") with "content-type";
         change (Http.toLowerCase "Cache-Control") with "cache-control";
         change (Http.toLowerCase "Connection") with "connection").
  - rewrite !lookup_replace_other by discriminate. apply lookup_replace_same.
  - rewrite lookup_replace_other by discriminate. apply lookup_replace_same.
  - apply lookup_replace_same.
  - assumption.
  - assumption.
  - apply raw_bytes_relay. assumption.
  - reflexivity.
  - destruct (upstream_call_inv key body c H) as (resolved & capped & _ & _ & ->).
    cbn [call_config responseType]. rewrite T. reflexivity.
Qed.

(** C7.  Started without [NIM_API_KEY] in the environment, the script
    exits with a non-zero code after writing its diagnostic lines; it never
    reaches [app.listen], and no request is ever served. *)
Theorem missing_key_exits_before_listen env :
  env "NIM_API_KEY" = None ->
  exists stderr code,
    main env = Exited stderr code
    /\ code <> 0%Z
    /\ stderr <> []
    /\ (forall port k, main env <> Listening port k)
    /\ (forall hs req,
         serve axios_post clock stringify_stream env hs req = NoProcess).
Proof.
  intros N.
  assert (M : main env = Exited
    [ "FATAL ERROR: NIM_API_KEY environment variable is not set.";
      "Please set it before running the server.";
      "Example: NIM_API_KEY=your_api_key_here node server.js" ] 1).
  { unfold main, getenv. rewrite N. reflexivity. }
  eexists _, _. split; [exact M|]. repeat split.
  - discriminate.
  - discriminate.
  - intros port k. rewrite M. discriminate.
  - intros hs req. unfold serve. rewrite M. reflexivity.
Qed.

Lemma retained_wire c :
  JS.array_element (retained c)
  = JObj (JS.object_members
      [ ("index", JS.member c "index");
        ("message", JObj [ ("role", JS.member (JS.member c "message") "role");
                           ("content", JS.member (JS.member c "message") "content") ]);
        ("finish_reason", JS.member c "finish_reason") ]).
Proof. reflexivity. Qed.

(** Of one choice the caller sees at most [index], [message] with at most
    [role] and [content], and [finish_reason]. *)
Lemma retained_wire_keys c :
  incl (JS.own_keys (JS.array_element (retained c)))
       ["index"; "message"; "finish_reason"]
  /\ incl (JS.own_keys (JS.member (JS.array_element (retained c)) "message"))
          ["role"; "content"].
Proof.
  rewrite retained_wire. split.
  - cbn [JS.own_keys].
    exact (JSFacts.object_members_keys
             [ ("index", JS.member c "index");
               ("message", JObj [ ("role", JS.member (JS.member c "message") "role");
                                  ("content", JS.member (JS.member c "message") "content") ]);
               ("finish_reason", JS.member c "finish_reason") ]).
  - cbn [JS.member]. unfold JS.GetObject.
    change [ ("index", JS.member c "index");
             ("message", JObj [ ("role", JS.member (JS.member c "message") "role");
                                ("content", JS.member (JS.member c "message") "content") ]);
             ("finish_reason", JS.member c "finish_reason") ]
      with ([ ("index", JS.member c "index") ]
              ++ ("message", JObj [ ("role", JS.member (JS.member c "message") "role");
                                    ("content", JS.member (JS.member c "message") "content") ])
              :: [ ("finish_reason", JS.member c "finish_reason") ])%list.
    rewrite JSFacts.assoc_members_skip.
    + rewrite JSFacts.json_wire_obj. cbn [JS.own_keys].
      exact (JSFacts.object_members_keys
               [ ("role", JS.member (JS.member c "message") "role");
                 ("content", JS.member (JS.member c "message") "content") ]).
    + cbn. intros [I|[]]. discriminate.
Qed.

(** C10.  For every non-streaming request whose [try] block completes, the
    [choices] sent to the caller are the upstream choices reduced, one for
    one and in order, to [index], [message.role], [message.content] and
    [finish_reason]: no other key of a choice or of its message reaches
    the caller, and the kept values are the upstream's.  The top-level
    [usage] is the upstream's, unchanged. *)
Theorem choices_reduced_usage_kept hs body s1 :
  JS.ToBoolean (JS.member body "stream") = false ->
  try_block key axios_post clock body (start hs) = (s1, inr tt) ->
  exists c rsp items w,
    upstream_call key body = Normal c
    /\ axios_post (call_url c) (call_body c) (call_config c) = inr rsp
    /\ payload_member (data rsp) "choices" = JArr items
    /\ sent (res (fst (handler body (start hs)))) = [JsonText w]
    /\ JS.member w "choices"
       = JArr (map (fun c => JS.array_element (retained c)) items)
    /\ (forall c,
         incl (JS.own_keys (JS.array_element (retained c)))
              ["index"; "message"; "finish_reason"]
         /\ incl (JS.own_keys (JS.member (JS.array_element (retained c)) "message"))
                 ["role"; "content"])
    /\ (forall c, JS.json_clean (retained c) = true ->
                  JS.array_element (retained c) = retained c)
    /\ (JS.json_clean (payload_member (data rsp) "usage") = true ->
        JS.member w "usage" = payload_member (data rsp) "usage")
    /\ (payload_member (data rsp) "usage" = JUndefined ->
        JS.member w "usage" = JUndefined).
Proof.
  intros F H.
  destruct (handler_replied key axios_post clock stringify_stream body hs s1 F H)
    as (call & rsp & id & created & items & Hu & A & I & Hs & _).
  exists call, rsp, items. eexists.
  split; [exact Hu|]. split; [exact A|]. split; [exact I|]. split; [exact Hs|].
  assert (U : JS.assoc (JS.object_members
      [ ("id", id); ("object", JStr "chat.completion"); ("created", created);
        ("model", JS.member body "model"); ("choices", JArr (map retained items));
        ("usage", payload_member (data rsp) "usage") ]) "usage"
      = JS.json_wire (payload_member (data rsp) "usage")).
  { change [ ("id", id); ("object", JStr "chat.completion"); ("created", created);
             ("model", JS.member body "model"); ("choices", JArr (map retained items));
             ("usage", payload_member (data rsp) "usage") ]
      with ([ ("id", id); ("object", JStr "chat.completion"); ("created", created);
              ("model", JS.member body "model");
              ("choices", JArr (map retained items)) ]
              ++ ("usage", payload_member (data rsp) "usage") :: [])%list.
    rewrite JSFacts.assoc_members_skip.
    - destruct (JS.json_wire (payload_member (data rsp) "usage")); reflexivity.
    - cbn. intros J. repeat (destruct J as [J|J]; [discriminate|]). exact J. }
  split; [|split; [apply retained_wire_keys|split; [|split]]].
  - cbn [JS.member]. unfold JS.GetObject.
    change [ ("id", id); ("object", JStr "chat.completion"); ("created", created);
             ("model", JS.member body "model"); ("choices", JArr (map retained items));
             ("usage", payload_member (data rsp) "usage") ]
      with ([ ("id", id); ("object", JStr "chat.completion"); ("created", created);
              ("model", JS.member body "model") ]
              ++ ("choices", JArr (map retained items))
              :: [ ("usage", payload_member (data rsp) "usage") ])%list.
    rewrite JSFacts.assoc_members_skip.
    + rewrite JSFacts.json_wire_arr, map_map. reflexivity.
    + cbn. intros J. repeat (destruct J as [J|J]; [discriminate|]). exact J.
  - intros c. apply JSFacts.array_element_clean.
  - intros C. cbn [JS.member]. unfold JS.GetObject.
    rewrite U, JSFacts.json_wire_clean by assumption. reflexivity.
  - intros C. cbn [JS.member]. unfold JS.GetObject. rewrite U, C. reflexivity.
Qed.

End Claims.

(** ** The scenarios of the specification *)

(** [{model: "gpt-4", messages: [{role: "user", content: "hi"}],
    max_tokens: 10}] goes upstream as [meta/llama-3.1-70b-instruct] with
    [max_tokens: 4096] and [temperature: 0.7]. *)
Lemma scenario_short_request {E : Engine} key :
  exists c,
    upstream_call key Example.short_request = Normal c
    /\ call_body c
       = JObj [ ("model", JStr "meta/llama-3.1-70b-instruct");
                ("messages", Example.messages);
                ("temperature", JNum Number.n0_7);
                ("max_tokens", JNum Number.n4096);
                ("stream", JBool false) ].
Proof. eexists. split; reflexivity. Qed.

(** [{model: "unknown-model", messages: [...], max_tokens: 2000}] goes
    upstream as the default model with [max_tokens: 2000]. *)
Lemma scenario_long_request {E : Engine} key :
  exists c,
    upstream_call key Example.long_request = Normal c
    /\ call_body c
       = JObj [ ("model", JStr "meta/llama-3.1-8b-instruct");
                ("messages", Example.messages);
                ("temperature", JNum Number.n0_7);
                ("max_tokens", JNum (Number.of_Z 2000));
                ("stream", JBool false) ].
Proof. eexists. split; reflexivity. Qed.

(** A streaming request that the upstream refuses, on a host whose stream
    objects cannot be serialised: the [catch] block throws while logging,
    and server.js sends nothing. *)
Lemma refused_stream_unanswered :
  exists err r,
    serve (E := Example.engine) Example.denies Example.clock Example.cyclic
          (fun name => if name =? "NIM_API_KEY" then Some "nvapi-example" else None)
          [] (POST "/v1/chat/completions" Example.stream_request)
    = Rejected err r
    /\ sent r = [] /\ ended r = false.
Proof. eexists _, _. split; [reflexivity|]. split; reflexivity. Qed.

(** The models [GET /v1/models] lists are the own keys of the table. *)
Lemma listed_models :
  JS.keys MODEL_MAPPING
  = [ "gpt-3.5-turbo"; "gpt-4"; "gpt-4-turbo"; "gpt-4o"; "claude-3-opus";
      "claude-3-sonnet"; "gemini-pro" ].
Proof. reflexivity. Qed.


(** The message of the error body is chosen by truthiness, not by
    presence: an upstream error message that is present but empty is not
    the message of the envelope. *)
Lemma empty_upstream_message_is_skipped :
  ~ (forall e : JsError,
       upstream_message e <> JUndefined ->
       JS.member (envelope e) "message" = upstream_message e).
Proof.
  intros H.
  specialize (H Example.terse_refusal).
  cbn in H. discriminate H. discriminate.
Qed.

(** ** The properties at closed inputs *)

(** C1 at [{model: "gpt-4", ..., max_tokens: 10}]: 4096 goes upstream. *)
Lemma max_tokens_sent_upstream_witness :
  (exists c, Run.call Example.short_request = Normal c)
  /\ Number.safe_integer 10
  /\ sent_upstream (Run.handler Example.answers Example.short_request [])
                   "max_tokens"
     = Some (JNum Number.n4096).
Proof.
  split; [eexists; reflexivity|]. split; [reflexivity|].
  pose proof (max_tokens_sent_upstream (E := Example.engine) Example.key
                Example.answers Example.clock Example.cyclic []
                Example.short_request _ eq_refl) as H.
  cbv zeta in H. destruct H as (_ & _ & H & _).
  exact (H 10%Z eq_refl eq_refl).
Defined.

(** C3 at [{model: "gpt-4", ..., temperature: 0}]: 0.7 goes upstream. *)
Lemma temperature_sent_upstream_witness :
  (exists c, Run.call Example.cold_request = Normal c)
  /\ JS.ToBoolean (JS.member Example.cold_request "temperature") = false
  /\ sent_upstream (Run.handler Example.answers Example.cold_request [])
                   "temperature"
     = Some (JNum Number.n0_7).
Proof.
  split; [eexists; reflexivity|]. split; [reflexivity|].
  pose proof (temperature_sent_upstream (E := Example.engine) Example.key
                Example.answers Example.clock Example.cyclic []
                Example.cold_request _ eq_refl) as H.
  cbv zeta in H. destruct H as (_ & H & _ & _).
  exact (H eq_refl).
Defined.

(** C4 at a request for [gpt-4] that the upstream answers as
    [meta/llama-3.1-70b-instruct]. *)
Lemma response_echoes_requested_model_witness :
  exists w,
    sent (res (Run.handler Example.answers Example.short_request []))
    = [JsonText w]
    /\ JS.member w "model" = JStr "gpt-4".
Proof.
  destruct (response_echoes_requested_model (E := Example.engine) Example.key
              Example.answers Example.clock Example.cyclic []
              Example.short_request
              (Run.tried Example.answers Example.short_request [])
              "gpt-4" eq_refl eq_refl eq_refl)
    as (w & Hs & Hm & _).
  exists w. split; assumption.
Defined.

(** The error body at a request the upstream refuses with 429 and a
    message. *)
Lemma error_envelope_at_refusal :
  let r := res (Run.handler Example.refuses Example.short_request []) in
  sent r = [JsonText (JObj [("error",
              JObj [ ("message", JStr "Rate limit reached");
                     ("type", JStr "proxy_error");
                     ("code", JNum (Number.of_Z 429)) ])])]
  /\ statusCode r = JNum (Number.of_Z 429).
Proof.
  pose proof (error_envelope_sent (E := Example.engine) Example.key
                Example.refuses Example.clock Example.cyclic []
                Example.short_request
                (Run.tried Example.refuses Example.short_request [])
                Example.refusal eq_refl eq_refl) as H.
  cbv zeta in H. destruct H as (Hs & _ & _ & _ & _ & _ & _ & Hc).
  cbv zeta. split; [exact Hs|].
  apply (Hc _ eq_refl); [reflexivity | discriminate].
Qed.

(** C5 at a streaming request that the upstream answers with 401, on a
    host whose stream objects cannot be serialised. *)
Lemma refused_stream_is_left_unanswered_witness :
  JS.ToBoolean (JS.member Example.stream_request "stream") = true
  /\ response Example.denial <> None
  /\ sent (res (Run.handler Example.denies Example.stream_request [])) = []
  /\ ended (res (Run.handler Example.denies Example.stream_request [])) = false.
Proof.
  split; [reflexivity|]. split; [discriminate|].
  pose proof (refused_stream_is_left_unanswered (E := Example.engine) Example.key
                Example.denies Example.clock Example.cyclic []
                Example.stream_request _ Example.denial _ _ _
                eq_refl eq_refl eq_refl eq_refl eq_refl) as H.
  cbv zeta in H. destruct H as (_ & _ & _ & Hs & He & _).
  split; assumption.
Defined.

(** C6 at a streaming request answered with two chunks. *)
Lemma stream_relayed_verbatim_witness :
  let r := res (Run.handler Example.streams Example.stream_request
                  [("x-powered-by", "Express")]) in
  Http.getHeader r "Content-Type" = Some "text/event-stream"
  /\ Http.raw_bytes r = concat (chunks Example.events).
Proof.
  pose proof (stream_relayed_verbatim (E := Example.engine) Example.key
                Example.streams Example.clock Example.cyclic
                [("x-powered-by", "Express")]
                Example.stream_request _ _ Example.events
                eq_refl eq_refl eq_refl eq_refl) as H.
  cbv zeta in H. destruct H as (H1 & _ & _ & _ & _ & H6 & _).
  cbv zeta. split; assumption.
Defined.

(** C7 at an environment that only sets [PORT]. *)
Lemma missing_key_exits_before_listen_witness :
  Example.bare_env "NIM_API_KEY" = None
  /\ forall hs req,
       serve (E := Example.engine) Example.answers Example.clock
             Example.cyclic Example.bare_env hs req = NoProcess.
Proof.
  split; [reflexivity|].
  destruct (missing_key_exits_before_listen (E := Example.engine)
              Example.answers Example.clock Example.cyclic
              Example.bare_env eq_refl)
    as (stderr & code & _ & _ & _ & _ & H).
  exact H.
Defined.

(** C8 at an upstream that cannot be reached: 500 and no [code]. *)
Lemma envelope_code_iff_upstream_response_witness :
  let r := res (Run.handler Example.unreachable Example.short_request []) in
  exists members,
    sent r = [JsonText (JObj [("error", JObj members)])]
    /\ statusCode r = JNum Number.n500
    /\ JS.has_own members "code" = false.
Proof.
  pose proof (envelope_code_iff_upstream_response (E := Example.engine)
                Example.key Example.unreachable Example.clock Example.cyclic
                [] Example.short_request
                (Run.tried Example.unreachable Example.short_request [])
                Example.no_route eq_refl) as H.
  cbv zeta in H. destruct H as (members & _ & _ & Hn & _).
  cbv zeta. exists members. exact (Hn eq_refl).
Defined.

(** C9 at an upstream whose body says [object: "text_completion"]. *)
Lemma response_object_is_chat_completion_witness :
  JS.member Example.completion_body "object" = JStr "text_completion"
  /\ exists w,
       sent (res (Run.handler Example.answers Example.short_request []))
       = [JsonText w]
       /\ JS.member w "object" = JStr "chat.completion".
Proof.
  split; [reflexivity|].
  exact (response_object_is_chat_completion (E := Example.engine) Example.key
           Example.answers Example.clock Example.cyclic []
           Example.short_request
           (Run.tried Example.answers Example.short_request [])
           eq_refl eq_refl).
Defined.

(** C10 at an upstream choice that carries [logprobs] and [tool_calls]. *)
Lemma choices_reduced_usage_kept_witness :
  exists w,
    sent (res (Run.handler Example.answers Example.short_request []))
    = [JsonText w]
    /\ JS.member w "choices"
       = JArr [ JObj [ ("index", JNum (Number.of_Z 0));
                       ("message", JObj [ ("role", JStr "assistant");
                                          ("content", JStr "hello") ]);
                       ("finish_reason", JStr "stop") ] ]
    /\ JS.member w "usage" = JS.member Example.completion_body "usage".
Proof.
  destruct (choices_reduced_usage_kept (E := Example.engine) Example.key
              Example.answers Example.clock Example.cyclic []
              Example.short_request
              (Run.tried Example.answers Example.short_request [])
              eq_refl eq_refl)
    as (c & rsp & items & w & U & A & I & Hs & Hc & _ & _ & Hu & _).
  exists w. split; [exact Hs|].
  injection U as <-. injection A as <-. injection I as <-. split; [exact Hc|].
  exact (Hu eq_refl).
Defined.

(* ===================================================================== *)
(** * Further properties of server.js *)
(* ===================================================================== *)

(** ** Whole seconds: [Math.floor(Date.now() / 1000)] *)

Module SecondsFacts.

Import Number.
Import NumberFacts.

Local Open Scope Z_scope.

(** The digits of a positive integer between two consecutive powers of 2. *)
Lemma size_between p n :
  0 < n -> 2 ^ (n - 1) <= Z.pos p < 2 ^ n -> Z.pos (Pos.size p) = n.
Proof.
  intros Hn [L U].
  pose proof (size_lower p) as SL. pose proof (size_upper p) as SU.
  destruct (Z.lt_trichotomy (Z.pos (Pos.size p)) n) as [H|[H|H]]; [|assumption|].
  - assert (2 ^ Z.pos (Pos.size p) <= 2 ^ (n - 1)) by (apply Z.pow_le_mono_r; lia).
    lia.
  - assert (2 ^ (n + 1) <= 2 ^ Z.pos (Pos.size p)) by (apply Z.pow_le_mono_r; lia).
    rewrite Z.pow_add_r in * by lia. change (2 ^ 1) with 2 in *. lia.
Qed.

Lemma size_safe_mantissa p :
  Z.pos p < 2 ^ 53 -> Z.pos (Pos.size (safe_mantissa p)) = 53.
Proof.
  intros H. pose proof (size_safe p H) as B. unfold safe_mantissa, safe_exponent.
  destruct (Z.pos (Pos.size p) - 53) as [|q|d] eqn:D; try lia.
  rewrite size_iter_xO. lia.
Qed.

(** A mantissa of 53 bits is not shifted, whatever lies beyond it. *)
Lemma shr_fexp_53 m e l :
  Z.pos (Pos.size m) = 53 -> -1074 <= e ->
  shr_fexp prec emax (Z.pos m) e l = (shr_record_of_loc (Z.pos m) l, e).
Proof.
  intros D L. unfold shr_fexp, fexp, emin, prec, emax.
  change (Zdigits2 (Z.pos m)) with (Z.pos (digits2_pos m)). rewrite digits2_size, D.
  replace (Z.max (53 + e - 53) (3 - 1024 - 53) - e) with 0 by lia.
  reflexivity.
Qed.

(** A mantissa of 54 bits is shifted by one. *)
Lemma shr_fexp_54 m e l :
  Z.pos (Pos.size m) = 54 -> -1074 <= e ->
  shr_fexp prec emax (Z.pos m) e l = (shr_1 (shr_record_of_loc (Z.pos m) l), e + 1).
Proof.
  intros D L. unfold shr_fexp, fexp, emin, prec, emax.
  change (Zdigits2 (Z.pos m)) with (Z.pos (digits2_pos m)). rewrite digits2_size, D.
  replace (Z.max (54 + e - 53) (3 - 1024 - 53) - e) with 1 by lia.
  reflexivity.
Qed.

(** The last step of a rounding: a rounded mantissa of 53 bits is the
    mantissa of the result; the one that overflowed to [2^53] is
    renormalised. *)
Lemma round_finish s m1 e :
  2 ^ 52 <= Z.pos m1 <= 2 ^ 53 -> -1074 <= e <= 969 ->
  exists m' j,
    (let '(mrs, e') := shr_fexp prec emax (Z.pos m1) e loc_Exact in
     match shr_m mrs with
     | Z0 => S754_zero s
     | Z.pos m => if e' <=? emax - prec then S754_finite s m e' else S754_infinity s
     | Z.neg _ => S754_nan
     end) = S754_finite s m' (e + j)
    /\ 0 <= j <= 1 /\ Z.pos m' * 2 ^ j = Z.pos m1.
Proof.
  intros [L U] B.
  destruct (Z.eq_dec (Z.pos m1) (2 ^ 53)) as [Q|Q].
  - injection Q as ->.
    rewrite shr_fexp_54 by (try reflexivity; lia).
    cbn [shr_record_of_loc shr_1 shr_m]. unfold emax, prec.
    destruct (Z.leb_spec (e + 1) (1024 - 53)); [|lia].
    eexists _, 1. split; [reflexivity|]. split; [lia | reflexivity].
  - rewrite shr_fexp_53 by (try (apply size_between; lia); lia).
    cbn [shr_record_of_loc shr_m]. unfold emax, prec.
    destruct (Z.leb_spec e (1024 - 53)); [|lia].
    exists m1, 0. rewrite Z.add_0_r. split; [reflexivity|]. split; [lia | lia].
Qed.

(** Rounding a mantissa [q] of 53 or 54 bits to nearest: the result,
    scaled back to the exponent of [q], is [q] or [q + 1], or [q - 1] for
    an odd [q] that lost its last bit. *)
Lemma round_to_53 s q e l :
  2 ^ 52 <= Z.pos q < 2 ^ 54 -> -1074 <= e <= 968 ->
  exists m j,
    binary_round_aux prec emax s (Z.pos q) e l = S754_finite s m (e + j)
    /\ 0 <= j <= 2
    /\ (Z.pos m * 2 ^ j = Z.pos q
        \/ Z.pos m * 2 ^ j = Z.pos q + 1
        \/ (Z.odd (Z.pos q) = true /\ Z.pos m * 2 ^ j = Z.pos q - 1)).
Proof.
  intros [L U] B. unfold binary_round_aux.
  destruct (Z_lt_le_dec (Z.pos q) (2 ^ 53)) as [H|H].
  - rewrite shr_fexp_53 by (try (apply size_between; lia); lia).
    assert (R : exists m1,
               round_nearest_even (shr_m (shr_record_of_loc (Z.pos q) l))
                 (loc_of_shr_record (shr_record_of_loc (Z.pos q) l)) = Z.pos m1
               /\ (m1 = q \/ m1 = (q + 1)%positive)).
    { destruct l as [|[]];
        cbn [shr_record_of_loc shr_m loc_of_shr_record round_nearest_even];
        try (destruct (Z.even (Z.pos q)));
        first [ exists q; split; [reflexivity | auto]
              | exists (q + 1)%positive; split; [reflexivity | auto] ]. }
    destruct R as (m1 & -> & Hm).
    destruct (round_finish s m1 e) as (m' & j & -> & Hj & HM); [lia | lia |].
    exists m', j. split; [reflexivity|]. split; [lia|].
    destruct Hm as [->| ->]; [left | right; left]; lia.
  - rewrite shr_fexp_54 by (try (apply size_between; lia); lia).
    assert (R : exists m1,
               round_nearest_even
                 (shr_m (shr_1 (shr_record_of_loc (Z.pos q) l)))
                 (loc_of_shr_record (shr_1 (shr_record_of_loc (Z.pos q) l)))
               = Z.pos m1
               /\ (Z.pos q = 2 * Z.pos m1
                   \/ (Z.odd (Z.pos q) = true
                       /\ (Z.pos q = 2 * Z.pos m1 + 1 \/ Z.pos q = 2 * Z.pos m1 - 1)))).
    { destruct q as [q'|q'|]; [| |lia];
        destruct l as [|[]];
        cbn [shr_record_of_loc shr_1 shr_m loc_of_shr_record round_nearest_even orb];
        try (destruct (Z.even (Z.pos q')));
        first [ exists q'; split; [reflexivity|]; cbn [Z.odd]; lia
              | exists (q' + 1)%positive; split; [reflexivity|]; cbn [Z.odd]; lia ]. }
    destruct R as (m1 & -> & Hm).
    destruct (round_finish s m1 (e + 1)) as (m' & j & -> & Hj & HM); [lia | lia |].
    exists m', (1 + j). rewrite Z.add_assoc. split; [reflexivity|]. split; [lia|].
    rewrite Z.pow_add_r by lia. change (2 ^ 1) with 2.
    destruct Hm as [Hm|[O [Hm|Hm]]];
      [left; lia | right; right; split; [exact O | lia] | right; left; lia].
Qed.

(** The quotient, exponent and location that the division by 1000 hands
    to the rounding. *)
Lemma div_1000_core mx ex :
  Z.pos (Pos.size mx) = 53 -> -53 <= ex <= 0 ->
  SFdiv_core_binary prec emax (Z.pos mx) ex 8796093022208000 (-43)
  = ((Z.pos mx * 2 ^ 53) / 8796093022208000, ex - 10,
     new_location 8796093022208000 ((Z.pos mx * 2 ^ 53) mod 8796093022208000)).
Proof.
  intros D B. unfold SFdiv_core_binary.
  change (Zdigits2 (Z.pos mx)) with (Z.pos (digits2_pos mx)).
  change (Zdigits2 8796093022208000) with 53.
  rewrite digits2_size, D.
  replace (Z.min (fexp prec emax (53 + ex - (53 + -43))) (ex - -43)) with (ex - 10)
    by (unfold fexp, emin, prec, emax; lia).
  replace (ex - -43 - (ex - 10)) with 53 by lia.
  rewrite Z.shiftl_mul_pow2 by lia.
  unfold Z.div, Z.modulo.
  destruct (Z.div_eucl (Z.pos mx * 2 ^ 53) 8796093022208000). reflexivity.
Qed.

(** The quotient [p * 2^K / 1000], [K >= 10], lies in the block of
    [2^K] integers that starts at [(p / 1000) * 2^K], two short of its
    end: rounding it up by one stays inside the block. *)
Lemma quotient_block p T q :
  1024 <= T -> q = Z.pos p * T / 1000 ->
  (Z.pos p / 1000) * T <= q /\ q + 2 <= (Z.pos p / 1000 + 1) * T.
Proof.
  intros HT ->.
  pose proof (Z.div_mod (Z.pos p) 1000 ltac:(lia)) as DP.
  pose proof (Z.mod_pos_bound (Z.pos p) 1000 ltac:(lia)) as RP.
  pose proof (Z.div_mod (Z.pos p * T) 1000 ltac:(lia)) as DN.
  pose proof (Z.mod_pos_bound (Z.pos p * T) 1000 ltac:(lia)) as RN.
  split; nia.
Qed.

Lemma floor_div_1000_pos p :
  Z.pos p < 2 ^ 53 ->
  floor (div (of_Z (Z.pos p)) n1000) = of_Z (Z.pos p / 1000).
Proof.
  intros H. pose proof (size_safe p H) as SZ.
  pose proof (safe_mantissa_Z p H) as MX.
  pose proof (size_safe_mantissa p H) as DX.
  rewrite of_Z_pos by assumption.
  unfold div, n1000, SFdiv.
  rewrite div_1000_core by (unfold safe_exponent; lia).
  set (K := 63 - Z.pos (Pos.size p)).
  assert (HK : 10 <= K <= 62) by (unfold K; lia).
  set (T := 2 ^ K).
  assert (HT : 1024 <= T).
  { change 1024 with (2 ^ 10). apply Z.pow_le_mono_r; lia. }
  assert (HN : Z.pos (safe_mantissa p) * 2 ^ 53 = (Z.pos p * T) * 2 ^ 43).
  { rewrite MX. unfold T, K.
    replace (63 - Z.pos (Pos.size p)) with ((53 - Z.pos (Pos.size p)) + 10) by lia.
    rewrite Z.pow_add_r by lia.
    change (2 ^ 53) with (2 ^ 10 * 2 ^ 43). ring. }
  change 8796093022208000 with (1000 * 2 ^ 43) at 1 2 3.
  rewrite HN.
  rewrite Z.div_mul_cancel_r by lia.
  remember (Z.pos p * T / 1000) as q eqn:Eq.
  (* the quotient has 53 or 54 bits *)
  pose proof (size_lower p) as SL. pose proof (size_upper p) as SU.
  assert (PT : 2 ^ 62 <= Z.pos p * T < 2 ^ 63).
  { unfold T, K.
    assert (E : 2 ^ 63 = 2 ^ Z.pos (Pos.size p) * 2 ^ (63 - Z.pos (Pos.size p))).
    { rewrite <- Z.pow_add_r by lia. f_equal. lia. }
    assert (0 < 2 ^ (63 - Z.pos (Pos.size p))) by (apply Z.pow_pos_nonneg; lia).
    change (2 ^ 62) with (2 ^ 63 / 2). rewrite E.
    split.
    - apply Z.div_le_upper_bound; [lia|]. nia.
    - nia. }
  assert (Hq : 2 ^ 52 <= q < 2 ^ 54).
  { rewrite Eq. split.
    - apply Z.div_le_lower_bound; lia.
    - apply Z.div_lt_upper_bound; lia. }
  destruct (quotient_block p T q HT Eq) as [Lo Hi].
  destruct q as [|qp|qp]; [lia| |lia].
  destruct (round_to_53 (xorb false false) qp (safe_exponent p - 10)
              (new_location (1000 * 2 ^ 43) ((Z.pos p * T * 2 ^ 43) mod (1000 * 2 ^ 43))))
    as (m & j & -> & Hj & HM); [lia | unfold safe_exponent; lia |].
  (* its integer part *)
  unfold floor. cbn [xorb].
  assert (Ee : safe_exponent p - 10 + j = - (K - j)) by (unfold safe_exponent, K; lia).
  rewrite Ee.
  destruct (Z.ltb_spec (- (K - j)) 0) as [_|G]; [|lia].
  f_equal. rewrite Z.opp_involutive, Z.shiftr_div_pow2 by lia.
  set (Q := Z.pos p / 1000) in *.
  assert (Ev : Z.even (Q * T) = true).
  { unfold T. replace K with (1 + (K - 1)) by lia.
    rewrite Z.pow_add_r, Z.even_mul, Z.even_mul by lia. cbn. apply orb_true_r. }
  assert (Hm : Q * T <= Z.pos m * 2 ^ j < (Q + 1) * T).
  { destruct HM as [->|[->|[O ->]]]; try lia.
    assert (Z.pos qp <> Q * T).
    { intros C. rewrite <- C, <- Z.negb_odd, O in Ev. discriminate. }
    lia. }
  assert (TT : T = 2 ^ (K - j) * 2 ^ j).
  { unfold T. rewrite <- Z.pow_add_r by lia. f_equal. lia. }
  assert (0 < 2 ^ (K - j)) by (apply Z.pow_pos_nonneg; lia).
  assert (0 < 2 ^ j) by (apply Z.pow_pos_nonneg; lia).
  symmetry. apply Z.div_unique with (r := Z.pos m - Q * 2 ^ (K - j)).
  - left. nia.
  - lia.
Qed.

(** Whole seconds: the integer part of a count of milliseconds divided by
    1000, both as Numbers, is the Number of the integer quotient. *)
Lemma floor_div_1000 t :
  0 <= t < 2 ^ 53 -> floor (div (of_Z t) n1000) = of_Z (t / 1000).
Proof.
  intros [L U]. destruct t as [|p|p]; [reflexivity | | lia].
  apply floor_div_1000_pos. exact U.
Qed.

End SecondsFacts.

(** ** The script, the handler's throws and its serialised objects *)

Module CoverageFacts.

(** The script, by the two variables it reads. *)
Lemma main_run env :
  main env
  = match env "NIM_API_KEY" with
    | Some k =>
        if k =? "" then
          Exited [ "FATAL ERROR: NIM_API_KEY environment variable is not set.";
                   "Please set it before running the server.";
                   "Example: NIM_API_KEY=your_api_key_here node server.js" ] 1
        else Listening (match env "PORT" with
                        | Some p => if p =? "" then JNum Number.n3000 else JStr p
                        | None => JNum Number.n3000
                        end) (JStr k)
    | None =>
        Exited [ "FATAL ERROR: NIM_API_KEY environment variable is not set.";
                 "Please set it before running the server.";
                 "Example: NIM_API_KEY=your_api_key_here node server.js" ] 1
    end.
Proof.
  unfold main, getenv.
  destruct (env "NIM_API_KEY") as [k|]; [|reflexivity].
  cbn [JS.ToBoolean]. destruct (k =? ""); cbn [negb]; [reflexivity|].
  destruct (env "PORT") as [p|]; [|reflexivity].
  unfold JS.or. cbn [JS.ToBoolean]. destruct (p =? ""); reflexivity.
Qed.


(** *** What a handler term can throw *)















(** *** The reshaping, run *)

(** The callback of [choices.map]: the kept properties, or the TypeError
    of the first read on [undefined] or [null]. *)
Lemma reshape_choice_run c s :
  reshape_choice c s
  = (s, if reshapes c then inr (retained c)
        else inl (TypeError
               ("Cannot read properties of "
                  ++ match (if JS.is_nullish c then c else JS.member c "message") with
                     | JNull => "null"
                     | _ => "undefined"
                     end
                  ++ " (reading '"
                  ++ (if JS.is_nullish c then "index" else "role") ++ "')"))).
Proof.
  unfold reshape_choice, reshapes, retained, Get.
  destruct (JS.is_nullish c) eqn:Hc; cbn; rewrite ?Hc; cbn; [reflexivity|].
  destruct (JS.is_nullish (JS.member c "message")) eqn:Hm; cbn; rewrite ?Hm; reflexivity.
Qed.

(** [choices.map(callback)] keeps every choice or throws at the first one
    the callback cannot read. *)
Lemma mapM_reshape_run items : forall s,
  exists r,
    mapM reshape_choice items s = (s, r)
    /\ (forallb reshapes items = true -> r = inr (map retained items))
    /\ (forallb reshapes items = false -> exists e, r = inl e).
Proof.
  induction items as [|c items IH]; intros s.
  - eexists. split; [reflexivity|]. split; [reflexivity | discriminate].
  - cbn [mapM forallb map]. rewrite bind_run, reshape_choice_run.
    destruct (reshapes c); cbn [andb].
    + rewrite bind_run. destruct (IH s) as (r & -> & Ht & Hf).
      destruct (forallb reshapes items).
      * rewrite (Ht eq_refl). rewrite ret_run. eexists. split; [reflexivity|].
        split; [reflexivity | discriminate].
      * destruct (Hf eq_refl) as (e & ->). eexists. split; [reflexivity|].
        split; [discriminate | eauto].
    + eexists. split; [reflexivity|]. split; [discriminate | eauto].
Qed.

(** An upstream body with an Array under [choices] is an object, and
    every read on it returns. *)
Lemma payload_get_run data k items s :
  payload_member data "choices" = JArr items ->
  payload_get data k s = (s, inr (payload_member data k)).
Proof.
  destruct data as [v|src]; cbn; [|discriminate].
  unfold Get. destruct v; cbn; try discriminate. reflexivity.
Qed.

Section Reshaping.
Context {E : Engine}.
Variable clock : nat -> Z.



(** The reshaping of an upstream body whose [choices] is an Array: the
    readings of the clock it takes, the object it builds when the callback
    runs on every choice, and the throw when it does not. *)
Lemma completion_run model data items s :
  payload_member data "choices" = JArr items ->
  let id0 := payload_member data "id" in
  let created0 := payload_member data "created" in
  let n1 := if JS.ToBoolean id0 then now_calls s else S (now_calls s) in
  exists r,
    completion clock model data s
    = ({| res := res s;
          now_calls := if JS.ToBoolean created0 then n1 else S n1;
          outbound := outbound s; console := console s |}, r)
    /\ (forallb reshapes items = true ->
        r = inr (JObj
              [ ("id", if JS.ToBoolean id0 then id0
                       else JStr ("chatcmpl-"
                                    ++ NumberToString
                                         (Number.of_Z (clock (now_calls s)))));
                ("object", JStr "chat.completion");
                ("created", if JS.ToBoolean created0 then created0
                            else JNum (Number.floor
                                         (Number.div (Number.of_Z (clock n1))
                                                     Number.n1000)));
                ("model", model);
                ("choices", JArr (map retained items));
                ("usage", payload_member data "usage") ]))
    /\ (forallb reshapes items = false -> exists e, r = inl e).
Proof.
  intros C. cbv zeta. unfold completion.
  rewrite bind_run, (payload_get_run data "id" items s C).
  destruct s as [r0 n0 o0 c0]. cbn [res now_calls outbound console].
  destruct (JS.ToBoolean (payload_member data "id")) eqn:Ti;
    destruct (JS.ToBoolean (payload_member data "created")) eqn:Tc;
    unfold Date_now; run_handler; cbn [res now_calls outbound console];
    repeat (rewrite (payload_get_run data _ items _ C); run_handler;
            cbn [res now_calls outbound console]);
    rewrite ?Tc; run_handler; cbn [res now_calls outbound console];
    repeat (rewrite (payload_get_run data _ items _ C); run_handler;
            cbn [res now_calls outbound console]);
    rewrite C; cbn [call_map]; rewrite bind_run;
    match goal with |- context [mapM reshape_choice items ?s0] =>
      destruct (mapM_reshape_run items s0) as (r & -> & Ht & Hf) end;
    (destruct (forallb reshapes items);
      [ rewrite (Ht eq_refl); run_handler;
        rewrite (payload_get_run data _ items _ C); run_handler;
        eexists; split; [reflexivity|]; split; [reflexivity | discriminate]
      | destruct (Hf eq_refl) as (e & ->);
        eexists; split; [reflexivity|]; split; [discriminate | eauto] ]).
Qed.

End Reshaping.

(** *** Serialised objects *)

Lemma assoc_some_keys k v (l : list (string * jsval)) :
  JS.assoc l k = Some v -> In k (JS.keys l).
Proof.
  induction l as [|[k' v'] l IH]; cbn; [discriminate|].
  destruct (String.eqb_spec k' k) as [->|_]; [left; reflexivity | right; auto].
Qed.

(** A property written once is read back as it was serialised. *)
Lemma assoc_members_unique k props1 v props2 :
  ~ In k (JS.keys props1) -> ~ In k (JS.keys props2) ->
  JS.assoc (JS.object_members (props1 ++ (k, v) :: props2)) k = JS.json_wire v.
Proof.
  intros N1 N2. rewrite JSFacts.assoc_members_skip by assumption.
  destruct (JS.json_wire v); [reflexivity|].
  apply JSFacts.assoc_none_keys. intros I. apply N2.
  apply (JSFacts.object_members_keys props2). exact I.
Qed.

Ltac not_in_keys :=
  cbn; intros I; repeat (destruct I as [I|I]; [discriminate|]); exact I.

(** The properties of the serialised upstream request. *)
Lemma request_members (m msgs t mt st : jsval) :
  let members := JS.object_members
                   [ ("model", m); ("messages", msgs); ("temperature", t);
                     ("max_tokens", mt); ("stream", st) ] in
  JS.assoc members "model" = JS.json_wire m
  /\ JS.assoc members "messages" = JS.json_wire msgs
  /\ JS.assoc members "temperature" = JS.json_wire t
  /\ JS.assoc members "max_tokens" = JS.json_wire mt
  /\ JS.assoc members "stream" = JS.json_wire st.
Proof.
  cbv zeta. repeat split.
  - apply (assoc_members_unique "model" []); not_in_keys.
  - apply (assoc_members_unique "messages" [("model", m)]); not_in_keys.
  - apply (assoc_members_unique "temperature" [("model", m); ("messages", msgs)]);
      not_in_keys.
  - apply (assoc_members_unique "max_tokens"
             [("model", m); ("messages", msgs); ("temperature", t)]); not_in_keys.
  - apply (assoc_members_unique "stream"
             [("model", m); ("messages", msgs); ("temperature", t);
              ("max_tokens", mt)]); not_in_keys.
Qed.

(** The properties of the serialised completion. *)
Lemma completion_members (id created model choices usage : jsval) :
  let members := JS.object_members
                   [ ("id", id); ("object", JStr "chat.completion");
                     ("created", created); ("model", model);
                     ("choices", choices); ("usage", usage) ] in
  JS.assoc members "id" = JS.json_wire id
  /\ JS.assoc members "created" = JS.json_wire created
  /\ JS.assoc members "model" = JS.json_wire model
  /\ JS.assoc members "usage" = JS.json_wire usage.
Proof.
  cbv zeta. repeat split.
  - apply (assoc_members_unique "id" []); not_in_keys.
  - apply (assoc_members_unique "created"
             [("id", id); ("object", JStr "chat.completion")]); not_in_keys.
  - apply (assoc_members_unique "model"
             [("id", id); ("object", JStr "chat.completion"); ("created", created)]);
      not_in_keys.
  - apply (assoc_members_unique "usage"
             [("id", id); ("object", JStr "chat.completion"); ("created", created);
              ("model", model); ("choices", choices)]); not_in_keys.
Qed.

Lemma json_wire_number x :
  JS.json_wire (JNum x)
  = Some (match x with
          | S754_zero _ => JNum (S754_zero false)
          | S754_finite _ _ _ => JNum x
          | _ => JNull
          end).
Proof. destruct x; reflexivity. Qed.

(** The one body [res.json] sends on a response nothing was written to. *)
Lemma json_sent hs props :
  sent (Http.json (new_res hs) (JObj props))
  = [JsonText (JObj (JS.object_members props))]
  /\ statusCode (Http.json (new_res hs) (JObj props)) = JNum (Number.of_Z 200)
  /\ ended (Http.json (new_res hs) (JObj props)) = true.
Proof. unfold Http.json. destruct (Http.getHeader _ _); repeat split; reflexivity. Qed.

(** *** The entries of [GET /v1/models] *)

(** The entries built for the names [models], the first at the reading
    of the clock that comes next. *)
Lemma model_entries_run clock models : forall s,
  mapM (fun model =>
          t <- Date_now clock ;;
          ret (JObj [ ("id", JStr model);
                      ("object", JStr "model");
                      ("created", JNum (Number.of_Z t));
                      ("owned_by", JStr "nvidia-nim-proxy") ])) models s
  = ({| res := res s; now_calls := now_calls s + length models;
        outbound := outbound s; console := console s |},
     inr (map (fun im =>
                 JObj [ ("id", JStr (snd im));
                        ("object", JStr "model");
                        ("created", JNum (Number.of_Z (clock (fst im))));
                        ("owned_by", JStr "nvidia-nim-proxy") ])
              (combine (seq (now_calls s) (length models)) models))).
Proof.
  induction models as [|m models IH]; intros s.
  - destruct s. cbn. rewrite Nat.add_0_r. reflexivity.
  - cbn [mapM]. rewrite bind_run, bind_run. unfold Date_now at 1.
    rewrite ret_run, bind_run, IH, ret_run.
    cbn [res now_calls outbound console length seq combine map fst snd].
    rewrite Nat.add_succ_r. reflexivity.
Qed.

(** One entry, as the caller reads it. *)
Lemma entry_members (model : string) (t : Z) :
  let d := JS.array_element
             (JObj [ ("id", JStr model);
                     ("object", JStr "model");
                     ("created", JNum (Number.of_Z t));
                     ("owned_by", JStr "nvidia-nim-proxy") ]) in
  JS.member d "id" = JStr model
  /\ JS.member d "object" = JStr "model"
  /\ JS.member d "owned_by" = JStr "nvidia-nim-proxy"
  /\ JS.member d "created" = JS.array_element (JNum (Number.of_Z t))
  /\ incl (JS.own_keys d) ["id"; "object"; "created"; "owned_by"].
Proof.
  cbv zeta. unfold JS.array_element at 1 2 3 4 5. rewrite JSFacts.json_wire_obj.
  cbn [JS.member JS.own_keys]. unfold JS.GetObject.
  pose proof (assoc_members_unique "id" [] (JStr model)
                [ ("object", JStr "model"); ("created", JNum (Number.of_Z t));
                  ("owned_by", JStr "nvidia-nim-proxy") ]
                ltac:(not_in_keys) ltac:(not_in_keys)) as Hi.
  pose proof (assoc_members_unique "object" [("id", JStr model)] (JStr "model")
                [ ("created", JNum (Number.of_Z t));
                  ("owned_by", JStr "nvidia-nim-proxy") ]
                ltac:(not_in_keys) ltac:(not_in_keys)) as Ho.
  pose proof (assoc_members_unique "created"
                [("id", JStr model); ("object", JStr "model")]
                (JNum (Number.of_Z t)) [("owned_by", JStr "nvidia-nim-proxy")]
                ltac:(not_in_keys) ltac:(not_in_keys)) as Hc.
  pose proof (assoc_members_unique "owned_by"
                [ ("id", JStr model); ("object", JStr "model");
                  ("created", JNum (Number.of_Z t)) ]
                (JStr "nvidia-nim-proxy") []
                ltac:(not_in_keys) ltac:(not_in_keys)) as Hb.
  cbn [app] in Hi, Ho, Hc, Hb. rewrite Hi, Ho, Hc, Hb.
  split; [reflexivity|]. split; [reflexivity|]. split; [reflexivity|]. split.
  - unfold JS.array_element. rewrite json_wire_number.
    destruct (Number.of_Z t); reflexivity.
  - exact (JSFacts.object_members_keys
             [ ("id", JStr model); ("object", JStr "model");
               ("created", JNum (Number.of_Z t));
               ("owned_by", JStr "nvidia-nim-proxy") ]).
Qed.

(** *** The outcomes of the chat-completions handler *)

Lemma preserves_on_res {T} (proj : HState -> T) f :
  (forall r n o c r',
      proj {| res := r; now_calls := n; outbound := o; console := c |}
      = proj {| res := r'; now_calls := n; outbound := o; console := c |}) ->
  preserves proj (on_res f).
Proof. intros H s. destruct s. cbn. apply H. Qed.

Section Outcomes.
Context {E : Engine}.
Variable key : string.
Variable axios_post : string -> jsval -> AxiosConfig -> JsError + AxiosResponse.
Variable clock : nat -> Z.
Variable stringify_stream : ReadableStream -> JsError + string.

Local Abbreviation try_ := (try_block key axios_post clock).
Local Abbreviation handler := (chat_completions key axios_post clock stringify_stream).
Local Abbreviation the_call := (upstream_call key).


(** Nothing is logged after the [await]. *)
Lemma respond_console model stream rsp s :
  console (fst (respond clock model stream rsp s)) = console s.
Proof.
  revert s. change (preserves console (respond clock model stream rsp)).
  unfold respond. apply preserves_if.
  - repeat (apply preserves_bind; [apply preserves_on_res; reflexivity | intros _]).
    destruct (data rsp) as [v|src]; cbn [call_pipe].
    + destruct v; apply preserves_raise.
    + unfold pipe. apply preserves_bind.
      * apply preserves_forM_. intros b. apply preserves_on_res. reflexivity.
      * intros _. apply preserves_if;
          [apply preserves_ret | apply preserves_on_res; reflexivity].
  - apply preserves_bind.
    + apply preserves_completion. reflexivity.
    + intros v. apply preserves_on_res. reflexivity.
Qed.

(** The [try] block logs nothing. *)
Lemma try_block_console body s :
  console (fst (try_ body s)) = console s.
Proof.
  rewrite try_block_run. destruct (the_call body) as [c|msg]; [|reflexivity].
  destruct (axios_post _ _ _) as [e|rsp]; [reflexivity|].
  rewrite respond_console. reflexivity.
Qed.



(** The reply to an error that carries no upstream response: 500, the
    error's message or, when that is empty, the fallback sentence, and
    no [code]. *)
Lemma unanswered_error_reply body hs s1 e :
  try_ body (start hs) = (s1, inl e) ->
  response e = None ->
  let out := handler body (start hs) in
  statusCode (res (fst out)) = JNum Number.n500
  /\ sent (res (fst out))
     = [JsonText (JObj [("error", JObj
          [ ("message", JStr (if message e =? ""
                              then "An internal server error occurred."
                              else message e));
            ("type", JStr "proxy_error") ])])]
  /\ ended (res (fst out)) = true
  /\ snd out = inr tt.
Proof.
  intros H R. cbv zeta.
  assert (L : logs stringify_stream e = true) by (unfold logs; rewrite R; reflexivity).
  destruct (handler_caught key axios_post clock stringify_stream body hs s1 e H L)
    as (Hst & Hs & He).
  split; [|split; [|split]].
  - rewrite Hst. unfold error_status. rewrite R. reflexivity.
  - rewrite Hs. unfold envelope, upstream_message, error_status. rewrite R.
    unfold JS.or. cbn [JS.ToBoolean].
    destruct (message e =? ""); reflexivity.
  - exact He.
  - unfold chat_completions. rewrite catch_run, H.
    destruct (catch_block_run stringify_stream e s1 L) as (lines & ->).
    reflexivity.
Qed.


(** A request for no stream is answered with a completion exactly when
    the upstream body has an Array under [choices] and the callback can
    read every choice. *)
Lemma respond_json_outcome model stream rsp s :
  JS.ToBoolean stream = false ->
  (exists s', respond clock model stream rsp s = (s', inr tt))
  <-> (exists items, payload_member (data rsp) "choices" = JArr items
                     /\ forallb reshapes items = true).
Proof.
  intros F. split.
  - intros (s' & H).
    destruct (respond_json_inv clock _ _ _ _ _ F H) as (v & w & Hc & _).
    destruct (completion_inv clock _ _ _ _ _ Hc) as (id & created & items & C & _).
    exists items. split; [exact C|].
    destruct (completion_run clock model (data rsp) items s C) as (r & Hr & _ & Hf).
    cbv zeta in Hr. rewrite Hr in Hc. apply (f_equal snd) in Hc. cbn [snd] in Hc.
    subst r.
    destruct (forallb reshapes items); [reflexivity|].
    destruct (Hf eq_refl) as (e & [=]).
  - intros (items & C & W).
    destruct (completion_run clock model (data rsp) items s C) as (r & Hr & Ht & _).
    cbv zeta in Hr. unfold respond. rewrite F, bind_run, Hr, (Ht W), on_res_run.
    eexists. reflexivity.
Qed.


(** The run of the handler on a request for no stream whose call the
    upstream answers with readable choices. *)
Lemma completion_reply hs body c rsp items :
  the_call body = Normal c ->
  JS.ToBoolean (JS.member body "stream") = false ->
  axios_post (call_url c) (call_body c) (call_config c) = inr rsp ->
  payload_member (data rsp) "choices" = JArr items ->
  forallb reshapes items = true ->
  let id0 := payload_member (data rsp) "id" in
  let created0 := payload_member (data rsp) "created" in
  let n1 := if JS.ToBoolean id0 then 0%nat else 1%nat in
  handler body (start hs)
  = ({| res := Http.json (new_res hs) (JObj
              [ ("id", if JS.ToBoolean id0 then id0
                       else JStr ("chatcmpl-"
                                    ++ NumberToString (Number.of_Z (clock 0))));
                ("object", JStr "chat.completion");
                ("created", if JS.ToBoolean created0 then created0
                            else JNum (Number.floor
                                         (Number.div (Number.of_Z (clock n1))
                                                     Number.n1000)));
                ("model", JS.member body "model");
                ("choices", JArr (map retained items));
                ("usage", payload_member (data rsp) "usage") ]);
        now_calls := if JS.ToBoolean created0 then n1 else S n1;
        outbound := [c];
        console := [] |}, inr tt).
Proof.
  intros U F A C W. cbv zeta.
  unfold chat_completions. rewrite catch_run, try_block_run, U, A.
  unfold respond. rewrite F, bind_run.
  destruct (completion_run clock (JS.member body "model") (data rsp) items
              (called c (start hs)) C) as (r & Hr & Ht & _).
  cbv zeta in Hr. rewrite Hr, (Ht W), on_res_run. reflexivity.
Qed.

(** *** When the arguments of the call can be computed *)

(** A body whose [model] and [max_tokens] are no objects (Strings,
    Numbers, Booleans, [null], or absent) always gets its call. *)
Lemma upstream_call_of_primitives body :
  JS.is_nullish body = false ->
  JS.as_primitive (JS.member body "model") <> None ->
  JS.as_primitive (JS.member body "max_tokens") <> None ->
  exists c, the_call body = Normal c.
Proof.
  intros N M T.
  assert (HM : exists resolved, nimModel (JS.member body "model") = Normal resolved).
  { unfold nimModel, JS.ToPropertyKey.
    destruct (JS.member body "model") as [| |[]| | | | | |];
      try (exfalso; apply M; reflexivity); eexists; reflexivity. }
  assert (HT : exists capped,
             effective_max_tokens (JS.member body "max_tokens") = Normal capped).
  { destruct (JS.ToBoolean (JS.member body "max_tokens")) eqn:B.
    - rewrite effective_max_tokens_truthy by assumption.
      unfold JS.gt_number, JS.ToNumber.
      destruct (JS.member body "max_tokens");
        try (exfalso; apply T; reflexivity); eexists; reflexivity.
    - rewrite effective_max_tokens_falsy by assumption. eauto. }
  destruct HM as (resolved & HM), HT as (capped & HT).
  rewrite (upstream_call_run key body resolved capped N HM HT). eauto.
Qed.

(** An object whose own [toString] is no function, and whose [valueOf]
    is not an own function either, converts neither to a property key
    nor to a Number. *)
Lemma unconvertible_object props :
  JS.unconvertible props = true ->
  JS.ToPropertyKey (JObj props) = Throw "Cannot convert object to primitive value"
  /\ JS.gt_number (JObj props) Number.n256
     = Throw "Cannot convert object to primitive value".
Proof.
  unfold JS.unconvertible. intros U.
  unfold JS.ToPropertyKey, JS.gt_number, JS.ToNumber.
  cbn [JS.ToString JS.ToPrimitiveNumber].
  unfold JS.OrdinaryToPrimitive, JS.call_method.
  destruct (JS.assoc props "toString") as [t|]; [|discriminate].
  destruct (JS.assoc props "valueOf") as [v|].
  - destruct t; try discriminate; destruct v; try discriminate;
      split; reflexivity.
  - destruct t; try discriminate; split; reflexivity.
Qed.

(** A request whose [model] is such an object never gets its call. *)
Lemma upstream_call_unconvertible_model body props :
  JS.is_nullish body = false ->
  JS.member body "model" = JObj props ->
  JS.unconvertible props = true ->
  the_call body = Throw "Cannot convert object to primitive value".
Proof.
  intros N M U.
  destruct (unconvertible_object props U) as (K & _).
  unfold upstream_call, destructure, nimModel. rewrite N, M, K. reflexivity.
Qed.

(** Nor does one whose [max_tokens] is such an object, whatever its
    [model]. *)
Lemma upstream_call_unconvertible_max_tokens body props :
  JS.is_nullish body = false ->
  JS.member body "max_tokens" = JObj props ->
  JS.unconvertible props = true ->
  exists msg, the_call body = Throw msg.
Proof.
  intros N M U.
  destruct (unconvertible_object props U) as (_ & G).
  unfold upstream_call, destructure. rewrite N. cbn [bind Monad_completes].
  destruct (nimModel (JS.member body "model")) as [resolved|msg]; [|eauto].
  rewrite effective_max_tokens_truthy by (rewrite M; reflexivity).
  rewrite M, G. eauto.
Qed.

(** The run of the handler on a request whose call could not be
    computed: nothing goes upstream, and the caller gets 500 with the
    TypeError's message. *)
Lemma preparation_error_reply hs body msg :
  the_call body = Throw msg ->
  let out := handler body (start hs) in
  outbound (fst out) = []
  /\ now_calls (fst out) = 0
  /\ statusCode (res (fst out)) = JNum Number.n500
  /\ sent (res (fst out))
     = [JsonText (JObj [("error", JObj
          [ ("message", JStr (if msg =? ""
                              then "An internal server error occurred."
                              else msg));
            ("type", JStr "proxy_error") ])])]
  /\ ended (res (fst out)) = true
  /\ snd out = inr tt.
Proof.
  intros U. cbv zeta.
  assert (H : try_ body (start hs) = (start hs, inl (TypeError msg))).
  { rewrite try_block_run, U. reflexivity. }
  destruct (unanswered_error_reply body hs (start hs) (TypeError msg) H eq_refl)
    as (Hst & Hs & He & Hr).
  split; [|split]; [| |auto].
  - rewrite (handler_outbound_any key axios_post clock stringify_stream), U.
    reflexivity.
  - unfold chat_completions. rewrite catch_run, H.
    destruct (catch_block_run stringify_stream (TypeError msg) (start hs) eq_refl)
      as (lines & ->).
    reflexivity.
Qed.

End Outcomes.

End CoverageFacts.

Import CoverageFacts.

(** ** The two GET endpoints *)

Section Endpoints.
Context {E : Engine}.
Variable axios_post : string -> jsval -> AxiosConfig -> JsError + AxiosResponse.
Variable clock : nat -> Z.
Variable stringify_stream : ReadableStream -> JsError + string.

(** X1.  Once the script listens (a non-empty [NIM_API_KEY]),
    [GET /health] is answered with status 200 and the one JSON body
    [{status: "ok", service: "OpenAI to NVIDIA NIM Proxy"}]; the response
    is ended, its [Content-Type] is the JSON one unless the middleware had
    set another, and the handler neither calls the upstream nor reads the
    clock. *)
Theorem health_replies_without_upstream env hs k :
  env "NIM_API_KEY" = Some k -> k <> "" ->
  exists r,
    serve axios_post clock stringify_stream env hs (GET "/health") = Replied r
    /\ statusCode r = JNum (Number.of_Z 200)
    /\ sent r = [JsonText (JObj [ ("status", JStr "ok");
                                  ("service", JStr "OpenAI to NVIDIA NIM Proxy") ])]
    /\ ended r = true
    /\ Http.getHeader r "Content-Type"
       = Some (match Http.lookup hs "content-type" with
               | Some v => v
               | None => "application/json; charset=utf-8"
               end)
    /\ outbound (fst (health (start hs))) = []
    /\ now_calls (fst (health (start hs))) = 0.
Proof.
  intros K N. unfold serve. rewrite main_run, K.
  destruct (String.eqb_spec k ""); [contradiction|].
  unfold route. change (matches "/health" "/health") with true. cbv iota.
  unfold health. rewrite on_res_run.
  cbn [res start fst outbound now_calls].
  eexists. split; [reflexivity|].
  unfold Http.json, Http.getHeader. cbn [new_res resHeaders].
  change (Http.toLowerCase "Content-Type") with "content-type".
  destruct (Http.lookup hs "content-type") as [v|] eqn:L; cbn; rewrite ?L;
    repeat split; try reflexivity.
  apply lookup_replace_same.
Qed.

(** X2.  Once the script listens, [GET /v1/models] is answered with
    status 200 and the one JSON body [{object: "list", data}], where
    [data] has one entry per own key of [MODEL_MAPPING], in the order of
    the table: its [id] is the key, its [object] is ["model"], its
    [owned_by] is ["nvidia-nim-proxy"], and its [created] is the reading
    of the clock taken for that entry, in milliseconds (the [i]-th entry
    holds the [i]-th reading).  The handler reads the clock once per
    entry and never calls the upstream. *)
Theorem models_endpoint_lists_the_table env hs k :
  env "NIM_API_KEY" = Some k -> k <> "" ->
  exists r data,
    serve axios_post clock stringify_stream env hs (GET "/v1/models") = Replied r
    /\ statusCode r = JNum (Number.of_Z 200)
    /\ ended r = true
    /\ sent r = [JsonText (JObj [("object", JStr "list"); ("data", JArr data)])]
    /\ map (fun d => JS.member d "id") data = map JStr (JS.keys MODEL_MAPPING)
    /\ (forall i d, nth_error data i = Some d ->
          JS.member d "object" = JStr "model"
          /\ JS.member d "owned_by" = JStr "nvidia-nim-proxy"
          /\ JS.member d "created" = JS.array_element (JNum (Number.of_Z (clock i)))
          /\ incl (JS.own_keys d) ["id"; "object"; "created"; "owned_by"])
    /\ now_calls (fst (list_models clock (start hs))) = length MODEL_MAPPING
    /\ outbound (fst (list_models clock (start hs))) = [].
Proof.
  intros K N. unfold serve. rewrite main_run, K.
  destruct (String.eqb_spec k ""); [contradiction|].
  unfold route. change (matches "/health" "/v1/models") with false.
  change (matches "/v1/models" "/v1/models") with true. cbv iota.
  unfold list_models.
  rewrite bind_run, model_entries_run, on_res_run.
  cbn [res start fst outbound now_calls].
  eexists. eexists.
  split; [reflexivity|].
  split; [unfold Http.json; destruct (Http.getHeader _ _); reflexivity|].
  split; [reflexivity|].
  split.
  { unfold Http.json. rewrite JSFacts.json_wire_obj.
    cbn [JS.object_members flat_map JS.json_wire app].
    destruct (Http.getHeader _ _); reflexivity. }
  cbn [JS.keys MODEL_MAPPING map fst length seq combine snd Nat.add].
  split; [|split; [|split; reflexivity]].
  - repeat (cbn [map]; f_equal; try apply entry_members).
  - intros i d.
    do 7 (destruct i as [|i];
          [cbn [nth_error]; intros [= <-]; repeat split; apply entry_members|]).
    destruct i; discriminate.
Qed.

End Endpoints.

(** ** The chat-completions handler *)

Section Coverage.
Context {E : Engine}.
Variable key : string.
Variable axios_post : string -> jsval -> AxiosConfig -> JsError + AxiosResponse.
Variable clock : nat -> Z.
Variable stringify_stream : ReadableStream -> JsError + string.

Local Abbreviation try_ := (try_block key axios_post clock).
Local Abbreviation handler := (chat_completions key axios_post clock stringify_stream).
Local Abbreviation the_call := (upstream_call key).

(** X3.  When the arguments of the upstream call can be computed, a
    model name that [GET /v1/models] lists (an own key of
    [MODEL_MAPPING]) goes upstream, in the one call made, as the entry of
    the table under that name, a non-empty String; no listed name is one
    of the names every object inherits. *)
Theorem listed_model_is_mapped hs body c k :
  the_call body = Normal c ->
  In k (JS.keys MODEL_MAPPING) ->
  JS.member body "model" = JStr k ->
  exists m,
    JS.assoc MODEL_MAPPING k = Some (JStr m)
    /\ m <> ""
    /\ outbound (fst (handler body (start hs))) = [c]
    /\ JS.member (call_body c) "model" = JStr m
    /\ sent_upstream (fst (handler body (start hs))) "model" = Some (JStr m)
    /\ JS.assoc JS.Object_prototype k = None.
Proof.
  intros H I M.
  rewrite (sent_upstream_field key axios_post clock stringify_stream body hs c
             "model" H).
  rewrite (handler_outbound key axios_post clock stringify_stream
             body (start hs) c H).
  destruct (upstream_call_inv key body c H) as (resolved & capped & Hm & _ & ->).
  change (JS.member (call_body _) "model") with resolved.
  rewrite M in Hm. cbn in I.
  repeat (destruct I as [<-|I];
          [injection Hm as <-; eexists; split; [reflexivity|];
           split; [discriminate|]; repeat split|]).
  contradiction.
Qed.

(** X4.  When the arguments of the upstream call can be computed, the
    [model] converts to a property key, and if that key is neither an own
    key of [MODEL_MAPPING] nor one of the names every object inherits,
    the model that goes upstream is the default
    ['meta/llama-3.1-8b-instruct']; so it is for an absent [model],
    [null] and the empty String. *)
Theorem unknown_model_gets_the_default hs body c :
  the_call body = Normal c ->
  let model := JS.member body "model" in
  let final := fst (handler body (start hs)) in
  let upstream := sent_upstream final "model" in
  outbound final = [c]
  /\ (exists name,
        JS.ToPropertyKey model = Normal name
        /\ (~ In name (JS.keys MODEL_MAPPING) ->
            ~ In name (JS.keys JS.Object_prototype) ->
            upstream = Some (JStr "meta/llama-3.1-8b-instruct")))
  /\ (model = JUndefined \/ model = JNull \/ model = JStr "" ->
      upstream = Some (JStr "meta/llama-3.1-8b-instruct")).
Proof.
  intros H. cbv zeta.
  rewrite (sent_upstream_field key axios_post clock stringify_stream body hs c
             "model" H).
  split; [exact (handler_outbound key axios_post clock stringify_stream
                   body (start hs) c H)|].
  destruct (upstream_call_inv key body c H) as (resolved & capped & Hm & _ & ->).
  change (JS.member (call_body _) "model") with resolved.
  split.
  - unfold nimModel in Hm.
    destruct (JS.ToPropertyKey (JS.member body "model")) as [name|msg];
      [|discriminate].
    cbn [bind ret Monad_completes] in Hm. injection Hm as <-.
    exists name. split; [reflexivity|]. intros N1 N2. unfold JS.GetObject.
    rewrite (JSFacts.assoc_none_keys _ _ N1), (JSFacts.assoc_none_keys _ _ N2).
    reflexivity.
  - intros [U|[U|U]]; rewrite U in Hm; injection Hm as <-; reflexivity.
Qed.

(** X5.  A request whose body is [undefined] or [null] never reaches the
    upstream: the destructuring throws, no [axios.post] is issued and the
    clock is not read; the caller gets status 500 and the one JSON body
    [{error: {message, type: "proxy_error"}}] with the TypeError's message
    and no [code], and the handler returns. *)
Theorem missing_body_never_reaches_upstream hs body :
  JS.is_nullish body = true ->
  let out := handler body (start hs) in
  outbound (fst out) = []
  /\ now_calls (fst out) = 0
  /\ statusCode (res (fst out)) = JNum Number.n500
  /\ sent (res (fst out))
     = [JsonText (JObj [("error", JObj
          [ ("message",
             JStr ("Cannot destructure property 'model' of 'req.body' as it is "
                     ++ match body with JNull => "null" | _ => "undefined" end
                     ++ "."));
            ("type", JStr "proxy_error") ])])]
  /\ ended (res (fst out)) = true
  /\ snd out = inr tt.
Proof.
  intros N.
  exact (preparation_error_reply key axios_post clock stringify_stream hs body _
           (upstream_call_nullish key body N)).
Qed.

(** X6.  A request issues at most one [axios.post].  When the arguments
    of the call can be computed, exactly one is issued, whatever its
    outcome: to the fixed URL
    [https://integrate.api.nvidia.com/v1/chat/completions], with the
    headers [Authorization: Bearer <NIM_API_KEY>] and
    [Content-Type: application/json], and with [responseType] ['stream']
    exactly when the [stream] it sends upstream is truthy, ['json']
    otherwise.  When their computation throws, none is issued and the
    caller gets status 500 with the TypeError's message in the error
    body.  The computation completes whenever the body is there and its
    [model] and [max_tokens] are no objects, and it throws on a [model]
    or a [max_tokens] that is an object whose own [toString] is no
    function and whose [valueOf] is no own function either, such as
    [{"toString": 1}]. *)
Theorem one_call_to_the_fixed_endpoint hs body :
  let out := handler body (start hs) in
  (forall c, the_call body = Normal c ->
     outbound (fst out) = [c]
     /\ call_url c = "https://integrate.api.nvidia.com/v1/chat/completions"
     /\ headers (call_config c)
        = [ ("Authorization", "Bearer " ++ key);
            ("Content-Type", "application/json") ]
     /\ responseType (call_config c)
        = (if JS.ToBoolean (JS.member body "stream") then "stream" else "json")
     /\ (responseType (call_config c) = "stream"
         <-> JS.ToBoolean (JS.member (call_body c) "stream") = true))
  /\ (forall msg, the_call body = Throw msg ->
        outbound (fst out) = []
        /\ statusCode (res (fst out)) = JNum Number.n500
        /\ sent (res (fst out))
           = [JsonText (JObj [("error", JObj
                [ ("message", JStr (if msg =? ""
                                    then "An internal server error occurred."
                                    else msg));
                  ("type", JStr "proxy_error") ])])]
        /\ snd out = inr tt)
  /\ (JS.is_nullish body = false ->
      JS.as_primitive (JS.member body "model") <> None ->
      JS.as_primitive (JS.member body "max_tokens") <> None ->
      exists c, the_call body = Normal c)
  /\ (forall props,
        JS.is_nullish body = false ->
        (JS.member body "model" = JObj props
         \/ JS.member body "max_tokens" = JObj props) ->
        JS.unconvertible props = true ->
        exists msg, the_call body = Throw msg).
Proof.
  cbv zeta. split; [|split; [|split]].
  - intros c H.
    split; [exact (handler_outbound key axios_post clock stringify_stream
                     body (start hs) c H)|].
    destruct (upstream_call_inv key body c H) as (resolved & capped & _ & _ & ->).
    split; [reflexivity|]. split; [reflexivity|]. split; [reflexivity|].
    cbn [call_config call_body responseType].
    change (JS.member (nimRequest ?m ?ms ?t ?mt ?st) "stream")
      with (JS.or st (JBool false)).
    unfold JS.or.
    destruct (JS.ToBoolean (JS.member body "stream")) eqn:T.
    + rewrite T. split; reflexivity.
    + cbn [JS.ToBoolean]. split; discriminate.
  - intros msg H.
    destruct (preparation_error_reply key axios_post clock stringify_stream
                hs body msg H) as (Ho & _ & Hst & Hs & _ & Hr).
    auto.
  - apply upstream_call_of_primitives.
  - intros props N [M|M] U.
    + rewrite (upstream_call_unconvertible_model key body props N M U). eauto.
    + exact (upstream_call_unconvertible_max_tokens key body props N M U).
Qed.

(** X7.  The request object handed to [axios.post] has exactly the
    properties [model], [messages], [temperature], [max_tokens] and
    [stream], in this order: nothing else of the caller's body is
    forwarded.  Its [messages] is the caller's, untouched ([undefined]
    when the caller sent none), and its [stream] is the caller's when
    that is truthy and [false] otherwise. *)
Theorem only_five_fields_go_upstream hs body c :
  the_call body = Normal c ->
  outbound (fst (handler body (start hs))) = [c]
  /\ JS.own_keys (call_body c)
     = ["model"; "messages"; "temperature"; "max_tokens"; "stream"]
  /\ JS.member (call_body c) "messages" = JS.member body "messages"
  /\ JS.member (call_body c) "stream"
     = (if JS.ToBoolean (JS.member body "stream")
        then JS.member body "stream"
        else JBool false).
Proof.
  intros H.
  split; [exact (handler_outbound key axios_post clock stringify_stream
                   body (start hs) c H)|].
  destruct (upstream_call_inv key body c H) as (resolved & capped & _ & _ & ->).
  repeat split.
Qed.

(** X8.  Whatever the caller sends, the request object handed to
    [axios.post] is normalised: its [model] and its [temperature] are
    truthy, its [max_tokens] compares greater than 256, and its [stream]
    is either truthy or the Boolean [false]. *)
Theorem upstream_parameters_are_normalised hs body c :
  the_call body = Normal c ->
  let sent_up := call_body c in
  outbound (fst (handler body (start hs))) = [c]
  /\ JS.ToBoolean (JS.member sent_up "model") = true
  /\ JS.ToBoolean (JS.member sent_up "temperature") = true
  /\ JS.gt_number (JS.member sent_up "max_tokens") Number.n256 = Normal true
  /\ (JS.member sent_up "stream" = JBool false
      \/ JS.ToBoolean (JS.member sent_up "stream") = true).
Proof.
  intros H. cbv zeta.
  split; [exact (handler_outbound key axios_post clock stringify_stream
                   body (start hs) c H)|].
  destruct (upstream_call_inv key body c H) as (resolved & capped & Hm & Ht & ->).
  change (JS.member (call_body _) "model") with resolved.
  change (JS.member (call_body _) "max_tokens") with capped.
  change (JS.member (call_body _) "temperature")
    with (JS.or (JS.member body "temperature") (JNum Number.n0_7)).
  change (JS.member (call_body _) "stream")
    with (JS.or (JS.member body "stream") (JBool false)).
  split; [exact (nimModel_truthy _ _ Hm)|]. split; [|split].
  - unfold JS.or.
    destruct (JS.ToBoolean (JS.member body "temperature")) eqn:T; [exact T | reflexivity].
  - exact (effective_max_tokens_gt _ _ Ht).
  - unfold JS.or.
    destruct (JS.ToBoolean (JS.member body "stream")) eqn:T;
      [right; exact T | left; reflexivity].
Qed.

(** X9.  For a caller's [max_tokens] that is a Number [x], the
    [max_tokens] of the request object handed to [axios.post] is written
    by [JSON.stringify] as [x] when [x] is finite and greater than 256,
    as 4096 when [x] is not greater than 256 ([NaN] and [-Infinity]
    included), and as [null] when [x] is [Infinity], as [JSON.parse]
    reads a literal such as [1e999]. *)
Theorem max_tokens_on_the_wire hs body c x :
  the_call body = Normal c ->
  JS.member body "max_tokens" = JNum x ->
  outbound (fst (handler body (start hs))) = [c]
  /\ JS.json_wire (JS.member (call_body c) "max_tokens")
     = Some (if Number.gt x Number.n256
             then (if Number.is_finite x then JNum x else JNull)
             else JNum Number.n4096).
Proof.
  intros H M.
  split; [exact (handler_outbound key axios_post clock stringify_stream
                   body (start hs) c H)|].
  destruct (upstream_call_inv key body c H) as (resolved & capped & _ & Ht & ->).
  change (JS.member (call_body _) "max_tokens") with capped.
  rewrite M, effective_max_tokens_number in Ht. injection Ht as <-.
  destruct (Number.gt x Number.n256) eqn:G; [|reflexivity].
  destruct x as [s|s| |s m e]; try reflexivity.
  destruct s; discriminate G.
Qed.


(** X11.  In the completion sent to the caller, [id] is the upstream's
    [id] when that is truthy and otherwise ["chatcmpl-"] followed by the
    first reading of the clock; [created] is the upstream's [created]
    when that is truthy and otherwise [Math.floor] of the next reading of
    the clock divided by 1000.  The clock is read once for each of the
    two that is filled in, [id] first, and not at all when the upstream
    supplies both. *)
Theorem missing_id_and_created_are_filled_in hs body c rsp items :
  the_call body = Normal c ->
  JS.ToBoolean (JS.member body "stream") = false ->
  axios_post (call_url c) (call_body c) (call_config c) = inr rsp ->
  payload_member (data rsp) "choices" = JArr items ->
  forallb reshapes items = true ->
  let id0 := payload_member (data rsp) "id" in
  let created0 := payload_member (data rsp) "created" in
  let first := if JS.ToBoolean id0 then 0 else 1 in
  let final := fst (handler body (start hs)) in
  exists members,
    sent (res final) = [JsonText (JObj members)]
    /\ JS.assoc members "id"
       = JS.json_wire
           (if JS.ToBoolean id0 then id0
            else JStr ("chatcmpl-" ++ NumberToString (Number.of_Z (clock 0))))
    /\ JS.assoc members "created"
       = JS.json_wire
           (if JS.ToBoolean created0 then created0
            else JNum (Number.floor
                         (Number.div (Number.of_Z (clock first)) Number.n1000)))
    /\ now_calls final = first + (if JS.ToBoolean created0 then 0 else 1).
Proof.
  intros U F A C W. cbv zeta.
  pose proof (completion_reply key axios_post clock stringify_stream
                hs body c rsp items U F A C W) as H.
  cbv zeta in H. rewrite H. cbn [fst res now_calls].
  set (id := if JS.ToBoolean (payload_member (data rsp) "id") then _ else _).
  set (created := if JS.ToBoolean (payload_member (data rsp) "created") then _ else _).
  exists (JS.object_members
            [ ("id", id); ("object", JStr "chat.completion"); ("created", created);
              ("model", JS.member body "model");
              ("choices", JArr (map retained items));
              ("usage", payload_member (data rsp) "usage") ]).
  destruct (completion_members id created (JS.member body "model")
              (JArr (map retained items)) (payload_member (data rsp) "usage"))
    as (Hi & Hc & _ & _).
  cbv zeta in Hi, Hc.
  split; [apply json_sent|]. split; [exact Hi|]. split; [exact Hc|].
  destruct (JS.ToBoolean (payload_member (data rsp) "id"));
    destruct (JS.ToBoolean (payload_member (data rsp) "created")); reflexivity.
Qed.

(** X12.  For a request for no stream whose [try] block completes on
    the upstream's answer: when the upstream's [created] is falsy
    (absent, or 0) and the clock reads [t] milliseconds, [0 <= t < 2^53],
    the [created] sent to the caller is the integer [t / 1000]: whole
    seconds, computed exactly by the division and [Math.floor] on
    Numbers. *)
Theorem created_fallback_is_whole_seconds hs body s1 c rsp :
  JS.ToBoolean (JS.member body "stream") = false ->
  try_ body (start hs) = (s1, inr tt) ->
  the_call body = Normal c ->
  axios_post (call_url c) (call_body c) (call_config c) = inr rsp ->
  JS.ToBoolean (payload_member (data rsp) "created") = false ->
  let n := if JS.ToBoolean (payload_member (data rsp) "id") then 0 else 1 in
  (0 <= clock n < 2 ^ 53)%Z ->
  exists members,
    sent (res (fst (handler body (start hs)))) = [JsonText (JObj members)]
    /\ JS.assoc members "created" = Some (JNum (Number.of_Z (clock n / 1000))).
Proof.
  intros F T U A Fc. cbv zeta. intros B.
  assert (R : exists items, payload_member (data rsp) "choices" = JArr items
                            /\ forallb reshapes items = true).
  { apply (respond_json_outcome clock (JS.member body "model")
             (JS.member body "stream") rsp (called c (start hs)) F).
    exists s1. rewrite try_block_run, U, A in T. exact T. }
  destruct R as (items & C & W).
  pose proof (completion_reply key axios_post clock stringify_stream
                hs body c rsp items U F A C W) as H.
  cbv zeta in H. rewrite H, Fc. cbn [fst res].
  set (id := if JS.ToBoolean (payload_member (data rsp) "id") then _ else _).
  set (n := if JS.ToBoolean (payload_member (data rsp) "id") then 0 else 1) in *.
  exists (JS.object_members
            [ ("id", id); ("object", JStr "chat.completion");
              ("created", JNum (Number.floor
                                  (Number.div (Number.of_Z (clock n)) Number.n1000)));
              ("model", JS.member body "model");
              ("choices", JArr (map retained items));
              ("usage", payload_member (data rsp) "usage") ]).
  split; [apply json_sent|].
  destruct (completion_members id
              (JNum (Number.floor (Number.div (Number.of_Z (clock n)) Number.n1000)))
              (JS.member body "model")
              (JArr (map retained items)) (payload_member (data rsp) "usage"))
    as (_ & Hc & _ & _).
  cbv zeta in Hc. rewrite Hc, SecondsFacts.floor_div_1000 by assumption.
  apply JSFacts.json_wire_of_Z. unfold Number.safe_integer.
  assert (0 <= clock n / 1000 <= clock n)%Z.
  { split; [apply Z.div_pos; lia | apply Z.div_le_upper_bound; lia]. }
  lia.
Qed.

(** X13.  The [model] of the completion sent to the caller is the
    caller's [model], serialised, of whatever type: the value itself when
    it is plain JSON, and no [model] at all when the caller sent none,
    although the upstream was then asked for the default model. *)
Theorem response_model_mirrors_request hs body s1 :
  JS.ToBoolean (JS.member body "stream") = false ->
  try_ body (start hs) = (s1, inr tt) ->
  let final := fst (handler body (start hs)) in
  exists members,
    sent (res final) = [JsonText (JObj members)]
    /\ JS.assoc members "model" = JS.json_wire (JS.member body "model")
    /\ (JS.json_clean (JS.member body "model") = true ->
        JS.assoc members "model" = Some (JS.member body "model"))
    /\ (JS.member body "model" = JUndefined ->
        JS.has_own members "model" = false
        /\ sent_upstream final "model" = Some (JStr "meta/llama-3.1-8b-instruct")).
Proof.
  intros F H. cbv zeta.
  destruct (handler_replied key axios_post clock stringify_stream body hs s1 F H)
    as (c & rsp & id & created & items & Hu & _ & _ & Hs & _).
  eexists. split; [exact Hs|].
  destruct (completion_members id created (JS.member body "model")
              (JArr (map retained items)) (payload_member (data rsp) "usage"))
    as (_ & _ & Hm & _).
  cbv zeta in Hm.
  split; [exact Hm|]. split.
  - intros C. rewrite Hm. apply JSFacts.json_wire_clean, C.
  - intros U. unfold JS.has_own. rewrite Hm, U. split; [reflexivity|].
    rewrite (sent_upstream_field key axios_post clock stringify_stream body hs c
               "model" Hu).
    destruct (upstream_call_inv key body c Hu) as (resolved & capped & Hr & _ & ->).
    change (JS.member (call_body _) "model") with resolved.
    rewrite U in Hr. injection Hr as <-. reflexivity.
Qed.


(** X15.  A request whose [try] block completes logs nothing.  One whose
    [try] block throws logs the line
    ["Error proxying request to NVIDIA NIM API:"] and then, without an
    upstream response, the error's message; with one, the line
    ["Status: <status>"] and the line ["Data:"] with the upstream body
    serialised.  When serialising a stream body throws, the last line is
    missing. *)
Theorem failures_are_logged_successes_are_not hs body :
  let tried := try_ body (start hs) in
  let log := console (fst (handler body (start hs))) in
  (snd tried = inr tt -> log = [])
  /\ (forall e, snd tried = inl e -> response e = None ->
        log = [ [Text "Error proxying request to NVIDIA NIM API:"];
                [Text (message e)] ])
  /\ (forall e rsp v, snd tried = inl e -> response e = Some rsp ->
        data rsp = Parsed v ->
        log = [ [Text "Error proxying request to NVIDIA NIM API:"];
                [Text ("Status: " ++ NumberToString (Number.of_Z (status rsp)))];
                [Text "Data:"; JsonOf v] ])
  /\ (forall e rsp src, snd tried = inl e -> response e = Some rsp ->
        data rsp = Stream src ->
        log = ([ [Text "Error proxying request to NVIDIA NIM API:"];
                 [Text ("Status: " ++ NumberToString (Number.of_Z (status rsp)))] ]
               ++ match stringify_stream src with
                  | inr text => [ [Text "Data:"; Text text] ]
                  | inl _ => []
                  end)%list).
Proof.
  cbv zeta. unfold chat_completions. rewrite catch_run.
  pose proof (try_block_console key axios_post clock body (start hs)) as Hc.
  destruct (try_ body (start hs)) as [s1 [e|[]]]; cbn [fst snd] in *.
  - split; [discriminate|].
    split; [|split].
    + intros e' [= <-] R. unfold catch_block. rewrite R.
      run_handler. cbn [fst console]. rewrite Hc. reflexivity.
    + intros e' rsp v [= <-] R D. unfold catch_block. rewrite R, D.
      cbn [stringify_data]. run_handler. cbn [fst console]. rewrite Hc. reflexivity.
    + intros e' rsp src [= <-] R D. unfold catch_block. rewrite R, D.
      cbn [stringify_data].
      destruct (stringify_stream src) as [err|text];
        run_handler; cbn [fst console]; rewrite Hc; reflexivity.
  - split; [intros _; exact Hc|].
    split; [|split]; intros; discriminate.
Qed.

(** X17.  A request whose call [axios.post] rejects is answered in JSON,
    also when the caller asked for a stream: the streaming headers are
    set only after the call resolved, so the [Content-Type] of the error
    response is the JSON one (unless the middleware had set another),
    never the event-stream one the success path declares; the response
    holds exactly one JSON body, no relayed chunk, and is ended. *)
Theorem rejected_call_is_answered_in_json hs body c e :
  the_call body = Normal c ->
  axios_post (call_url c) (call_body c) (call_config c) = inl e ->
  logs stringify_stream e = true ->
  let r := res (fst (handler body (start hs))) in
  Http.getHeader r "Content-Type"
  = Some (match Http.lookup hs "content-type" with
          | Some v => v
          | None => "application/json; charset=utf-8"
          end)
  /\ (exists w, sent r = [JsonText w])
  /\ Http.raw_bytes r = []
  /\ ended r = true.
Proof.
  intros U A L. cbv zeta.
  unfold chat_completions. rewrite catch_run, try_block_run, U, A.
  destruct (catch_block_run stringify_stream e (called c (start hs)) L)
    as (lines & ->).
  cbn [fst res called start].
  unfold Http.json, Http.getHeader, Http.status, Http.raw_bytes.
  cbn [new_res resHeaders].
  change (Http.toLowerCase "Content-Type") with "content-type".
  destruct (Http.lookup hs "content-type") as [v|] eqn:Hl;
    cbn [resHeaders Http.setHeader sent ended statusCode JS.json_wire app new_res
         flat_map].
  - rewrite Hl. repeat split; eauto.
  - change (Http.toLowerCase "Content-Type") with "content-type".
    rewrite lookup_replace_same. repeat split; eauto.
Qed.

End Coverage.

(** ** The script *)

(** X16.  The script reaches [app.listen] exactly when [NIM_API_KEY] is
    set to a non-empty String (set but empty, it exits like unset); it
    then serves with that key, on the String in [PORT] when that is set
    and not empty, and on 3000 otherwise. *)
Theorem listens_iff_key_not_empty env port key :
  main env = Listening port key <->
  (exists k, env "NIM_API_KEY" = Some k /\ k <> "" /\ key = JStr k)
  /\ port = match env "PORT" with
            | Some p => if p =? "" then JNum Number.n3000 else JStr p
            | None => JNum Number.n3000
            end.
Proof.
  rewrite main_run. split.
  - destruct (env "NIM_API_KEY") as [k|]; [|discriminate].
    destruct (String.eqb_spec k "") as [->|N]; [discriminate|].
    intros [= <- <-]. split; [|reflexivity]. exists k. auto.
  - intros [(k & -> & N & ->) ->].
    destruct (String.eqb_spec k ""); [contradiction | reflexivity].
Qed.

Section Composition.
Context {E : Engine}.
Variable axios_post : string -> jsval -> AxiosConfig -> JsError + AxiosResponse.
Variable clock : nat -> Z.
Variable stringify_stream : ReadableStream -> JsError + string.

(** X18.  The key the script read from the environment at start-up is
    the bearer token of the upstream call: once the script listens,
    [POST /v1/chat/completions] is routed to the handler, and when the
    arguments of the call can be computed from the body, the one upstream
    call carries [Authorization: Bearer <NIM_API_KEY>]; the request is
    replied to or, when the handler throws, rejected. *)
Theorem environment_key_is_the_bearer_token env hs k body c :
  env "NIM_API_KEY" = Some k -> k <> "" ->
  upstream_call k body = Normal c ->
  exists port h,
    main env = Listening port (JStr k)
    /\ route axios_post clock stringify_stream k
             (POST "/v1/chat/completions" body) = Some h
    /\ outbound (fst (h (start hs))) = [c]
    /\ Http.lookup (headers (call_config c)) "Authorization" = Some ("Bearer " ++ k)
    /\ serve axios_post clock stringify_stream env hs
             (POST "/v1/chat/completions" body)
       = match snd (h (start hs)) with
         | inr _ => Replied (res (fst (h (start hs))))
         | inl err => Rejected err (res (fst (h (start hs))))
         end.
Proof.
  intros K N U. unfold serve. rewrite main_run, K.
  destruct (String.eqb_spec k ""); [contradiction|].
  eexists _, _.
  split; [reflexivity|]. split; [reflexivity|].
  split; [exact (handler_outbound k axios_post clock stringify_stream
                   body (start hs) c U)|].
  split.
  { destruct (upstream_call_inv k body c U) as (resolved & capped & _ & _ & ->).
    reflexivity. }
  unfold route.
  change (matches "/v1/chat/completions" "/v1/chat/completions") with true.
  cbv iota.
  destruct (chat_completions _ _ _ _ _ _) as [s [err|u]]; reflexivity.
Qed.

End Composition.

(** ** The further properties at closed inputs *)

(** X1 at an environment that sets the key. *)
Lemma health_replies_without_upstream_witness :
  Edge.keyed_env "NIM_API_KEY" = Some "nvapi-example"
  /\ exists r,
       serve (E := Example.engine) Example.unreachable Example.clock Example.cyclic
             Edge.keyed_env [] (GET "/health") = Replied r
       /\ statusCode r = JNum (Number.of_Z 200)
       /\ ended r = true.
Proof.
  split; [reflexivity|].
  destruct (health_replies_without_upstream (E := Example.engine)
              Example.unreachable Example.clock Example.cyclic
              Edge.keyed_env [] "nvapi-example" eq_refl ltac:(discriminate))
    as (r & H & Hst & _ & He & _).
  exists r. auto.
Defined.

(** X2 at an environment that sets the key. *)
Lemma models_endpoint_lists_the_table_witness :
  Edge.keyed_env "NIM_API_KEY" = Some "nvapi-example"
  /\ exists r data,
       serve (E := Example.engine) Example.unreachable Example.clock Example.cyclic
             Edge.keyed_env [] (GET "/v1/models") = Replied r
       /\ sent r = [JsonText (JObj [("object", JStr "list"); ("data", JArr data)])]
       /\ map (fun d => JS.member d "id") data = map JStr (JS.keys MODEL_MAPPING).
Proof.
  split; [reflexivity|].
  destruct (models_endpoint_lists_the_table (E := Example.engine)
              Example.unreachable Example.clock Example.cyclic
              Edge.keyed_env [] "nvapi-example" eq_refl ltac:(discriminate))
    as (r & data & H & _ & _ & Hs & Hi & _).
  exists r, data. auto.
Defined.

(** X3 at a request for [gpt-4]. *)
Lemma listed_model_is_mapped_witness :
  (exists c, Run.call Example.short_request = Normal c)
  /\ In "gpt-4" (JS.keys MODEL_MAPPING)
  /\ sent_upstream (Run.handler Example.answers Example.short_request []) "model"
     = Some (JStr "meta/llama-3.1-70b-instruct").
Proof.
  split; [eexists; reflexivity|]. split; [cbn; auto|].
  destruct (listed_model_is_mapped (E := Example.engine) Example.key
              Example.answers Example.clock Example.cyclic []
              Example.short_request _ "gpt-4" eq_refl
              ltac:(cbn; auto) eq_refl)
    as (m & Hm & _ & _ & _ & Hs & _).
  injection Hm as <-. exact Hs.
Defined.

(** X4 at a request for [unknown-model]. *)
Lemma unknown_model_gets_the_default_witness :
  (exists c, Run.call Example.long_request = Normal c)
  /\ sent_upstream (Run.handler Example.answers Example.long_request []) "model"
     = Some (JStr "meta/llama-3.1-8b-instruct").
Proof.
  split; [eexists; reflexivity|].
  pose proof (unknown_model_gets_the_default (E := Example.engine) Example.key
                Example.answers Example.clock Example.cyclic []
                Example.long_request _ eq_refl) as H.
  cbv zeta in H. destruct H as (_ & (name & Hn & H) & _).
  injection Hn as <-.
  apply H; cbn; intros I; repeat (destruct I as [I|I]; [discriminate|]); exact I.
Defined.

(** X5 at a request without a body. *)
Lemma missing_body_never_reaches_upstream_witness :
  JS.is_nullish JUndefined = true
  /\ outbound (Run.handler Example.answers JUndefined []) = []
  /\ statusCode (res (Run.handler Example.answers JUndefined [])) = JNum Number.n500.
Proof.
  split; [reflexivity|].
  pose proof (missing_body_never_reaches_upstream (E := Example.engine) Example.key
                Example.answers Example.clock Example.cyclic [] JUndefined eq_refl)
    as H.
  cbv zeta in H. destruct H as (Ho & _ & Hst & _). split; assumption.
Defined.

(** X6 at a streaming request, and at a request whose [model] is
    [{"toString": 1}]. *)
Lemma one_call_to_the_fixed_endpoint_witness :
  (exists c,
     outbound (Run.handler Example.streams Example.stream_request []) = [c]
     /\ Http.lookup (headers (call_config c)) "Authorization"
        = Some "Bearer nvapi-example"
     /\ responseType (call_config c) = "stream")
  /\ outbound (Run.handler Example.answers Edge.opaque_request []) = []
  /\ statusCode (res (Run.handler Example.answers Edge.opaque_request []))
     = JNum Number.n500.
Proof.
  split.
  - pose proof (one_call_to_the_fixed_endpoint (E := Example.engine) Example.key
                  Example.streams Example.clock Example.cyclic []
                  Example.stream_request) as H.
    cbv zeta in H. destruct H as (H & _).
    destruct (H _ eq_refl) as (Ho & _ & Hh & Ht & _).
    eexists. split; [exact Ho|]. split; [|exact Ht].
    rewrite Hh. reflexivity.
  - pose proof (one_call_to_the_fixed_endpoint (E := Example.engine) Example.key
                  Example.answers Example.clock Example.cyclic []
                  Edge.opaque_request) as H.
    cbv zeta in H. destruct H as (_ & H & _).
    destruct (H _ eq_refl) as (Ho & Hst & _).
    split; assumption.
Defined.

(** X7 at a request that also carries [top_p] and [stop]. *)
Lemma only_five_fields_go_upstream_witness :
  (exists c, Run.call Edge.rich_request = Normal c)
  /\ In "top_p" (JS.own_keys Edge.rich_request)
  /\ exists c,
       outbound (Run.handler Example.answers Edge.rich_request []) = [c]
       /\ ~ In "top_p" (JS.own_keys (call_body c))
       /\ ~ In "stop" (JS.own_keys (call_body c)).
Proof.
  split; [eexists; reflexivity|]. split; [cbn; auto|].
  destruct (only_five_fields_go_upstream (E := Example.engine) Example.key
              Example.answers Example.clock Example.cyclic []
              Edge.rich_request _ eq_refl)
    as (Ho & Hk & _).
  eexists. split; [exact Ho|]. rewrite Hk.
  split; cbn; intros I; repeat (destruct I as [I|I]; [discriminate|]); exact I.
Defined.

(** X8 at a request with [temperature: 0]. *)
Lemma upstream_parameters_are_normalised_witness :
  (exists c, Run.call Example.cold_request = Normal c)
  /\ exists c,
       outbound (Run.handler Example.answers Example.cold_request []) = [c]
       /\ JS.ToBoolean (JS.member (call_body c) "temperature") = true.
Proof.
  split; [eexists; reflexivity|].
  pose proof (upstream_parameters_are_normalised (E := Example.engine) Example.key
                Example.answers Example.clock Example.cyclic []
                Example.cold_request _ eq_refl) as H.
  cbv zeta in H. destruct H as (Ho & _ & Ht & _).
  eexists. split; [exact Ho | exact Ht].
Defined.

(** X9 at a request with [max_tokens: 1e999]. *)
Lemma max_tokens_on_the_wire_witness :
  (exists c, Run.call Edge.huge_request = Normal c)
  /\ exists c,
       outbound (Run.handler Example.answers Edge.huge_request []) = [c]
       /\ JS.json_wire (JS.member (call_body c) "max_tokens") = Some JNull.
Proof.
  split; [eexists; reflexivity|].
  eexists.
  exact (max_tokens_on_the_wire (E := Example.engine) Example.key
           Example.answers Example.clock Example.cyclic []
           Edge.huge_request _ (S754_infinity false) eq_refl eq_refl).
Defined.


(** X11 at an upstream body with neither [id] nor [created]. *)
Lemma missing_id_and_created_are_filled_in_witness :
  JS.member Edge.sparse_body "id" = JUndefined
  /\ exists members,
       sent (res (Run.handler Edge.answers_sparsely Example.short_request []))
       = [JsonText (JObj members)]
       /\ JS.has_own members "id" = true
       /\ now_calls (Run.handler Edge.answers_sparsely Example.short_request []) = 2.
Proof.
  split; [reflexivity|].
  pose proof (missing_id_and_created_are_filled_in (E := Example.engine) Example.key
                Edge.answers_sparsely Example.clock Example.cyclic []
                Example.short_request _ Edge.sparse_answer _
                eq_refl eq_refl eq_refl eq_refl eq_refl) as H.
  cbv zeta in H. destruct H as (members & Hs & Hi & _ & Hn).
  exists members. split; [exact Hs|]. split; [|exact Hn].
  unfold JS.has_own. rewrite Hi. reflexivity.
Defined.

(** X12 at the same upstream, the clock reading 1700000000001 ms. *)
Lemma created_fallback_is_whole_seconds_witness :
  Example.clock 1 = 1700000000001%Z
  /\ exists members,
       sent (res (Run.handler Edge.answers_sparsely Example.short_request []))
       = [JsonText (JObj members)]
       /\ JS.assoc members "created" = Some (JNum (Number.of_Z 1700000000)).
Proof.
  split; [reflexivity|].
  pose proof (created_fallback_is_whole_seconds (E := Example.engine) Example.key
                Edge.answers_sparsely Example.clock Example.cyclic []
                Example.short_request
                (Run.tried Edge.answers_sparsely Example.short_request [])
                _ Edge.sparse_answer
                eq_refl eq_refl eq_refl eq_refl eq_refl) as H.
  cbv zeta in H.
  assert (B : (0 <= Example.clock 1 < 2 ^ 53)%Z).
  { split; [intros C; vm_compute in C; discriminate C | reflexivity]. }
  exact (H B).
Defined.

(** X13 at a request without [model]. *)
Lemma response_model_mirrors_request_witness :
  JS.member Edge.anonymous_request "model" = JUndefined
  /\ exists members,
       sent (res (Run.handler Example.answers Edge.anonymous_request []))
       = [JsonText (JObj members)]
       /\ JS.has_own members "model" = false.
Proof.
  split; [reflexivity|].
  pose proof (response_model_mirrors_request (E := Example.engine) Example.key
                Example.answers Example.clock Example.cyclic []
                Edge.anonymous_request
                (Run.tried Example.answers Edge.anonymous_request [])
                eq_refl eq_refl) as H.
  cbv zeta in H. destruct H as (members & Hs & _ & _ & Hu).
  exists members. split; [exact Hs | exact (proj1 (Hu eq_refl))].
Defined.

(** X17 at a streaming request to an upstream that cannot be reached. *)
Lemma rejected_call_is_answered_in_json_witness :
  JS.ToBoolean (JS.member Example.stream_request "stream") = true
  /\ Http.getHeader
       (res (Run.handler Example.unreachable Example.stream_request
               [("x-powered-by", "Express")]))
       "Content-Type"
     = Some "application/json; charset=utf-8".
Proof.
  split; [reflexivity|].
  pose proof (rejected_call_is_answered_in_json (E := Example.engine) Example.key
                Example.unreachable Example.clock Example.cyclic
                [("x-powered-by", "Express")]
                Example.stream_request _ Example.no_route
                eq_refl eq_refl eq_refl) as H.
  cbv zeta in H. destruct H as (H & _). exact H.
Defined.

(** X18 at an environment that sets the key. *)
Lemma environment_key_is_the_bearer_token_witness :
  exists port h c,
    main Edge.keyed_env = Listening port (JStr "nvapi-example")
    /\ route (E := Example.engine) Example.answers Example.clock Example.cyclic
             "nvapi-example"
             (POST "/v1/chat/completions" Example.short_request) = Some h
    /\ outbound (fst (h (start []))) = [c]
    /\ Http.lookup (headers (call_config c)) "Authorization"
       = Some "Bearer nvapi-example".
Proof.
  destruct (environment_key_is_the_bearer_token (E := Example.engine)
              Example.answers Example.clock Example.cyclic
              Edge.keyed_env [] "nvapi-example" Example.short_request _
              eq_refl ltac:(discriminate) eq_refl)
    as (port & h & Hm & Hr & Ho & Ha & _).
  exists port, h. eexists.
  split; [exact Hm|]. split; [exact Hr|]. split; [exact Ho | exact Ha].
Defined.
